(** * Voxel terrain: density fields, marching cubes and the chunk world

    A shallow embedding of [ProceduralTerrain.cpp] (the component
    [UProceduralTerrain]) and [ProceduralTerrainWorld.cpp] (the actor
    [AProceduralTerrainWorld]).

    - [int32] values are integers of [Z]; arithmetic that the source performs
      on [int32] goes through [i32], the two's-complement wrap-around.
    - [float] values belong to an abstract scalar type with the operations the
      source uses (class [Scalar]); every general theorem holds for any
      implementation of them.  The instance [F64] runs the same definitions
      on IEEE-754 binary64 numbers and is used for the concrete evaluations.
    - [TArray] is a list; element reads and writes are fallible ([arr_get],
      [arr_set]) and the functions that index arrays live in the [option]
      monad, [None] standing for what has no defined outcome: an
      out-of-range access, a failed [check], the read of a local that was
      never written, a task whose chunk is gone, a loop that has no exit.
    - The engine's vector and transform helpers ([FVector], [FTransform],
      [FMath]) are written out over the scalar operations.
    - The two marching-cubes lookup tables of [MarchingCubesTables.h] and the
      Perlin noise function are inputs of the development (classes
      [MCTables] and [Noise]). *)

From Stdlib Require Import ZArith List Bool Lia Floats DecimalString Ascii.
From Stdlib Require DecimalZ DecimalPos.
From stdpp Require Import base option list gmap strings.

Local Open Scope Z_scope.

(** ** Machine integers and arrays *)

Definition INT32_MAX : Z := 2147483647.
Definition INT32_MIN : Z := -2147483648.

(** Two's-complement wrap-around of an [int32] result. *)
Definition i32 (z : Z) : Z := (z + 2147483648) mod 4294967296 - 2147483648.

(** [A[i]] as an rvalue. *)
Definition arr_get {A} (a : list A) (i : Z) : option A :=
  if bool_decide (0 <= i) then a !! Z.to_nat i else None.

(** [A[i] = v]. *)
Definition arr_set {A} (a : list A) (i : Z) (v : A) : option (list A) :=
  if bool_decide (0 <= i < Z.of_nat (length a))
  then Some (<[Z.to_nat i := v]> a) else None.

(** [TArray::Num]. *)
Definition Num {A} (a : list A) : Z := Z.of_nat (length a).

(** [TArray::SetNum]: shrink, or grow with default-constructed elements;
    a negative count trips the container's assertion. *)
Definition SetNum {A} (dflt : A) (n : Z) (a : list A) : option (list A) :=
  if bool_decide (0 <= n)
  then Some (take (Z.to_nat n) a ++ replicate (Z.to_nat n - length a)%nat dflt)
  else None.

(** A [for] loop over the values of [l], threading the mutable state [s];
    [None] aborts the whole loop. *)
Fixpoint for_each {A S} (l : list A) (body : A -> S -> option S) (s : S)
  : option S :=
  match l with
  | [] => Some s
  | i :: l' => s' ← body i s; for_each l' body s'
  end.

(** The values [lo], [lo + 1], ..., [hi]. *)
Definition from_to (lo hi : Z) : list Z := seqZ lo (hi - lo + 1).

(** The loop [for (int32 v = lo; v <= hi; v++)].  When [hi] is [INT32_MAX]
    the test holds of every [int32]: the counter cannot pass the bound, its
    increment overflows and the loop has no exit.  Below that bound the
    body runs for [lo], [lo + 1], ..., [hi]. *)
Definition for_from_to {S} (lo hi : Z) (body : Z -> S -> option S) (s : S)
  : option S :=
  if INT32_MAX <=? hi then None else for_each (from_to lo hi) body s.

(** The values taken by [for (v = 0; v < n; v++)]. *)
Definition upto (n : Z) : list Z := seqZ 0 n.

(** The iteration space of three nested loops, outermost first, in the order
    in which the innermost body runs; a point is [(x, y, z)] with [x] the
    innermost variable. *)
Definition cells (zs ys xs : list Z) : list (Z * Z * Z) :=
  z ← zs; y ← ys; x ← xs; [(x, y, z)].

(** The values taken by [for (i = 0; i < n; i += 3)]. *)
Definition by_threes (n : Z) : list Z := Z.mul 3 <$> upto ((n + 2) / 3).

(** ** Scalars *)

Class Scalar (F : Type) := {
  fzero : F;
  fone : F;
  fhalf : F;                     (* 0.5f *)
  ftwo : F;
  KINDA_SMALL_NUMBER : F;        (* 1.e-4f *)
  SMALL_NUMBER : F;              (* 1.e-8f *)
  fadd : F -> F -> F;
  fsub : F -> F -> F;
  fmul : F -> F -> F;
  fdiv : F -> F -> F;
  fneg : F -> F;
  fabs : F -> F;
  fsqrt : F -> F;
  feqb : F -> F -> bool;
  fltb : F -> F -> bool;
  fleb : F -> F -> bool;
  of_int : Z -> F;               (* int32 to float *)
  FloorToInt : F -> Z;
  CeilToInt : F -> Z;
  TruncToInt : F -> Z            (* the cast (int32) *)
}.

Declare Scope F_scope.
Delimit Scope F_scope with F.
Infix "+" := fadd : F_scope.
Infix "-" := fsub : F_scope.
Infix "*" := fmul : F_scope.
Infix "/" := fdiv : F_scope.
Infix "<?" := fltb : F_scope.
Infix "<=?" := fleb : F_scope.
Infix "=?" := feqb : F_scope.
Notation "- x" := (fneg x) : F_scope.

Module UE.
Section Math.
Context {F : Type} `{Scalar F}.

(** *** FMath *)

Definition IsNearlyZero (x : F) : bool := (fabs x <=? SMALL_NUMBER)%F.

Definition Max (a b : F) : F := if (b <=? a)%F then a else b.

Definition Square (a : F) : F := (a * a)%F.

Definition InvSqrt (a : F) : F := (fone / fsqrt a)%F.

Definition RoundToInt (x : F) : Z := FloorToInt (x + fhalf)%F.

Definition Clamp (v lo hi : Z) : Z :=
  if v <? lo then lo else if v <? hi then v else hi.

(** *** FVector *)

Record FVector := mkVector { vx : F; vy : F; vz : F }.

Definition ZeroVector : FVector := mkVector fzero fzero fzero.
Definition UpVector : FVector := mkVector fzero fzero fone.

(** [FVector(int32, int32, int32)] and [FVector(FIntVector)]. *)
Definition of_ints (x y z : Z) : FVector :=
  mkVector (of_int x) (of_int y) (of_int z).

(** [FVector(float)]: the same value on every axis. *)
Definition splat (a : F) : FVector := mkVector a a a.

Definition vadd (a b : FVector) : FVector :=
  mkVector (vx a + vx b)%F (vy a + vy b)%F (vz a + vz b)%F.
Definition vsub (a b : FVector) : FVector :=
  mkVector (vx a - vx b)%F (vy a - vy b)%F (vz a - vz b)%F.
(** Component-wise product [A * B]. *)
Definition vmul (a b : FVector) : FVector :=
  mkVector (vx a * vx b)%F (vy a * vy b)%F (vz a * vz b)%F.
(** [V * s] and [s * V]. *)
Definition vscale (a : FVector) (s : F) : FVector :=
  mkVector (vx a * s)%F (vy a * s)%F (vz a * s)%F.
(** [V / s]: the engine multiplies by the reciprocal. *)
Definition vdiv (a : FVector) (s : F) : FVector :=
  let r := (fone / s)%F in mkVector (vx a * r)%F (vy a * r)%F (vz a * r)%F.

Definition CrossProduct (a b : FVector) : FVector :=
  mkVector (vy a * vz b - vz a * vy b)%F
           (vz a * vx b - vx a * vz b)%F
           (vx a * vy b - vy a * vx b)%F.

Definition SizeSquared (a : FVector) : F :=
  (vx a * vx a + vy a * vy a + vz a * vz a)%F.

Definition Dist (a b : FVector) : F :=
  fsqrt (Square (vx b - vx a) + Square (vy b - vy a) + Square (vz b - vz a))%F.

Definition GetAbsMax (a : FVector) : F :=
  Max (Max (fabs (vx a)) (fabs (vy a))) (fabs (vz a)).

(** [FVector::GetSafeNormal]: the unit vector, or the zero vector when the
    squared length is below [SMALL_NUMBER]. *)
Definition GetSafeNormal (a : FVector) : FVector :=
  let SquareSum := SizeSquared a in
  if (SquareSum =? fone)%F then a
  else if (SquareSum <? SMALL_NUMBER)%F then ZeroVector
  else vscale a (InvSqrt SquareSum).

(** [FVector::Normalize]: normalises in place and reports success; the
    vector is left as it is when its squared length is not above
    [SMALL_NUMBER]. *)
Definition Normalize (a : FVector) : bool * FVector :=
  let SquareSum := SizeSquared a in
  if (SMALL_NUMBER <? SquareSum)%F
  then (true, vscale a (InvSqrt SquareSum))
  else (false, a).

(** *** FIntVector *)

Record FIntVector := mkIntVector { ix : Z; iy : Z; iz : Z }.

Definition FIntVector_eqb (a b : FIntVector) : bool :=
  (ix a =? ix b) && (iy a =? iy b) && (iz a =? iz b).

(** *** FQuat and FTransform *)

Record FQuat := mkQuat { qx : F; qy : F; qz : F; qw : F }.

Definition QuatIdentity : FQuat := mkQuat fzero fzero fzero fone.

Definition RotateVector (q : FQuat) (v : FVector) : FVector :=
  let Q := mkVector (qx q) (qy q) (qz q) in
  let TT := vscale (CrossProduct Q v) ftwo in
  vadd (vadd v (vscale TT (qw q))) (CrossProduct Q TT).

Definition UnrotateVector (q : FQuat) (v : FVector) : FVector :=
  let Q := mkVector (- qx q)%F (- qy q)%F (- qz q)%F in
  let TT := vscale (CrossProduct Q v) ftwo in
  vadd (vadd v (vscale TT (qw q))) (CrossProduct Q TT).

Record FTransform := mkTransform {
  Rotation : FQuat;
  Translation : FVector;
  Scale3D : FVector
}.

Definition SafeReciprocal (s : F) : F :=
  if (fabs s <=? SMALL_NUMBER)%F then fzero else (fone / s)%F.

Definition GetSafeScaleReciprocal (s : FVector) : FVector :=
  mkVector (SafeReciprocal (vx s)) (SafeReciprocal (vy s))
           (SafeReciprocal (vz s)).

Definition TransformPosition (t : FTransform) (v : FVector) : FVector :=
  vadd (RotateVector (Rotation t) (vmul (Scale3D t) v)) (Translation t).

Definition InverseTransformPosition (t : FTransform) (v : FVector) : FVector :=
  vmul (UnrotateVector (Rotation t) (vsub v (Translation t)))
       (GetSafeScaleReciprocal (Scale3D t)).

(** The world transform of a component whose relative transform is the
    translation [Offset], attached to [parent] (or to nothing). *)
Definition AttachedAt (parent : option FTransform) (Offset : FVector)
  : FTransform :=
  match parent with
  | None => mkTransform QuatIdentity Offset (splat fone)
  | Some p => mkTransform (Rotation p) (TransformPosition p Offset) (Scale3D p)
  end.

(** *** FBox, FSphere *)

Record FBox := mkBox { BoxMin : FVector; BoxMax : FVector }.
Record FSphere := mkSphere { Center : FVector; W : F }.

(** One axis of the sphere/box test: the squared distance from the centre
    to the box is accumulated in [d]. *)
Definition axis_dist_sq (d c lo hi : F) : F :=
  if (c <? lo)%F then (d + Square (c - lo))%F
  else if (hi <? c)%F then (d + Square (c - hi))%F
  else d.

Definition SphereAABBIntersection (s : FSphere) (b : FBox) : bool :=
  let RadiusSquared := Square (W s) in
  let c := Center s in
  let d := fzero in
  let d := axis_dist_sq d (vx c) (vx (BoxMin b)) (vx (BoxMax b)) in
  let d := axis_dist_sq d (vy c) (vy (BoxMin b)) (vy (BoxMax b)) in
  let d := axis_dist_sq d (vz c) (vz (BoxMin b)) (vz (BoxMax b)) in
  (d <=? RadiusSquared)%F.
End Math.
Arguments FVector F : clear implicits.
Arguments FQuat F : clear implicits.
Arguments FTransform F : clear implicits.
Arguments FBox F : clear implicits.
Arguments FSphere F : clear implicits.
End UE.
Export UE.

(** ** The binary64 instance *)

(** The source keeps densities in 32-bit floats and vectors in the engine's
    vector type; the instance uses binary64 for both.  The numbers that the
    evaluations of this file state (0.25, 0.5, 1.875, ...) are exact in
    either format, and NaN and the infinities behave alike in both. *)
Module F64.
(** The integer part of a finite float, rounded down, up or toward zero;
    a result that does not fit [int32] (or NaN, infinity) gives
    [INT32_MIN], the value of the processor's conversion. *)
Definition to_int (mode : comparison) (x : float) : Z :=
  match Prim2SF x with
  | S754_zero _ => 0
  | S754_finite s m e =>
      let n := if s then Z.neg m else Z.pos m in
      let fl := fun k => if 0 <=? e then k * 2 ^ e else k / 2 ^ (- e) in
      let r := match mode with
               | Lt => fl n
               | Gt => - fl (- n)
               | Eq => if s then - fl (- n) else fl n
               end in
      if (INT32_MIN <=? r) && (r <=? INT32_MAX) then r else INT32_MIN
  | _ => INT32_MIN
  end.

Definition from_int (z : Z) : float :=
  if z <? 0 then PrimFloat.opp (PrimFloat.of_uint63 (Uint63.of_Z (- z)))
  else PrimFloat.of_uint63 (Uint63.of_Z z).

#[export] Instance scalar : Scalar float := {|
  fzero := 0%float;
  fone := 1%float;
  fhalf := 0.5%float;
  ftwo := 2%float;
  KINDA_SMALL_NUMBER := 0x1.a36e2eb1c432dp-14%float;
  SMALL_NUMBER := 0x1.5798ee2308c3ap-27%float;
  fadd := PrimFloat.add;
  fsub := PrimFloat.sub;
  fmul := PrimFloat.mul;
  fdiv := PrimFloat.div;
  fneg := PrimFloat.opp;
  fabs := PrimFloat.abs;
  fsqrt := PrimFloat.sqrt;
  feqb := PrimFloat.eqb;
  fltb := PrimFloat.ltb;
  fleb := PrimFloat.leb;
  of_int := from_int;
  FloorToInt := to_int Lt;
  CeilToInt := to_int Gt;
  TruncToInt := to_int Eq
|}.
End F64.

(** ** Inputs: lookup tables, noise, persisted records *)

(** The two tables of [MarchingCubesTables.h]: [edgeTable[256]] and the rows
    of [triTable[256][16]]. *)
Class MCTables := {
  edgeTable : Z -> Z;
  triTable : Z -> list Z
}.

(** [FMath::PerlinNoise3D]. *)
Class Noise (F : Type) := {
  PerlinNoise3D : FVector F -> F
}.

(** A parsed JSON value; [JsonOther] stands for the values that are neither
    numbers nor arrays. *)
#[warnings="-register-all"]
Inductive FJsonValue (F : Type) : Type :=
| JsonNumber (x : F)
| JsonArray (l : list (FJsonValue F))
| JsonOther.
Arguments JsonNumber {F} x.
Arguments JsonArray {F} l.
Arguments JsonOther {F}.

(** What a file holds: text that the JSON reader rejects, or an object. *)
Inductive FileData (F : Type) : Type :=
| Garbage
| JsonText (obj : gmap string (FJsonValue F)).
Arguments Garbage {F}.
Arguments JsonText {F} obj.

Record Disk (F : Type) := mkDisk {
  ProjectSavedDir : string;
  Files : gmap string (FileData F)
}.
Arguments ProjectSavedDir {F} d.
Arguments Files {F} d.

(** [FString] path concatenation ([operator/], [FPaths::Combine]). *)
Definition path_join (a b : string) : string := a +:+ "/" +:+ b.

(** [FMath::PerlinNoise2D], as a function of the two components of its
    [FVector2D] argument. *)
Class Noise2D (F : Type) := {
  PerlinNoise2D : F -> F -> F
}.

(** The platform services behind the persistence code.  [Serialize] is what
    the JSON reader makes of the text that [FJsonSerializer::Serialize]
    writes for an object; [CanSave] and [CanDelete] tell on which paths
    [FFileHelper::SaveStringToFile] and [IFileManager::Delete] succeed. *)
Class FileManager (F : Type) := {
  Serialize : gmap string (FJsonValue F) -> FileData F;
  CanSave : string -> bool;
  CanDelete : string -> bool
}.

(** ** UProceduralTerrain *)

Module Terrain.
Section Terrain.
Context {F : Type} `{Scalar F} `{MCTables} `{Noise F}.

Record MeshData := mkMesh {
  Vertices : list (FVector F);
  Triangles : list Z;
  Normals : list (FVector F)
}.

Record UProceduralTerrain := mkTerrain {
  Name : string;
  ComponentToWorld : FTransform F;
  ChunkCoords : FIntVector;
  CurrentSize : Z;
  CurrentScale : F;
  CurrentIsoLevel : F;
  Density : list F;
  (** Section 0 of the procedural mesh component. *)
  MeshSection0 : option MeshData;
  (** Ghost field: how many times [RebuildMeshFromCurrentDensity] ran. *)
  Rebuilds : nat
}.

(** A component as [NewObject] leaves it. *)
Definition NewObject (name : string) (t : FTransform F) : UProceduralTerrain :=
  mkTerrain name t (mkIntVector 0 0 0) 0 fone fzero [] None 0.

Definition with_params (size : Z) (scale iso : F) (c : UProceduralTerrain) :=
  mkTerrain (Name c) (ComponentToWorld c) (ChunkCoords c) size scale iso
            (Density c) (MeshSection0 c) (Rebuilds c).
Definition with_Density (d : list F) (c : UProceduralTerrain) :=
  mkTerrain (Name c) (ComponentToWorld c) (ChunkCoords c) (CurrentSize c)
            (CurrentScale c) (CurrentIsoLevel c) d (MeshSection0 c) (Rebuilds c).
Definition with_Mesh (m : option MeshData) (c : UProceduralTerrain) :=
  mkTerrain (Name c) (ComponentToWorld c) (ChunkCoords c) (CurrentSize c)
            (CurrentScale c) (CurrentIsoLevel c) (Density c) m (Rebuilds c).
Definition with_ChunkCoords (k : FIntVector) (c : UProceduralTerrain) :=
  mkTerrain (Name c) (ComponentToWorld c) k (CurrentSize c)
            (CurrentScale c) (CurrentIsoLevel c) (Density c) (MeshSection0 c)
            (Rebuilds c).
Definition count_rebuild (c : UProceduralTerrain) :=
  mkTerrain (Name c) (ComponentToWorld c) (ChunkCoords c) (CurrentSize c)
            (CurrentScale c) (CurrentIsoLevel c) (Density c) (MeshSection0 c)
            (S (Rebuilds c)).

Definition GetComponentLocation (c : UProceduralTerrain) : FVector F :=
  Translation (ComponentToWorld c).

Definition ClearAllMeshSections := with_Mesh None.
Definition CreateMeshSection (m : MeshData) := with_Mesh (Some m).

(** The lambda [GetIndex] of every function: [x + y * Size + z * Size * Size]
    on [int32]. *)
Definition GetIndex (Size x y z : Z) : Z :=
  i32 (i32 (x + i32 (y * Size)) + i32 (i32 (z * Size) * Size)).

(** [Size * Size * Size] on [int32]. *)
Definition Cubed (Size : Z) : Z := i32 (i32 (Size * Size) * Size).

(** *** RebuildMeshFromCurrentDensity *)

(** The lambda [SampleDensity]: the sample at the clamped coordinates. *)
Definition SampleDensity (Size : Z) (D : list F) (sx sy sz : Z) : option F :=
  arr_get D (GetIndex Size (Clamp sx 0 (Size - 1))
                           (Clamp sy 0 (Size - 1))
                           (Clamp sz 0 (Size - 1))).

(** The body of the gradient loop: the central differences at [(x, y, z)],
    divided by the scale unless it is nearly zero. *)
Definition gradient_at (Size : Z) (Scale : F) (D : list F) (x y z : Z)
  : option (FVector F) :=
  xp ← SampleDensity Size D (x + 1) y z;
  xm ← SampleDensity Size D (x - 1) y z;
  yp ← SampleDensity Size D x (y + 1) z;
  ym ← SampleDensity Size D x (y - 1) z;
  zp ← SampleDensity Size D x y (z + 1);
  zm ← SampleDensity Size D x y (z - 1);
  let dx := (xp - xm)%F in
  let dy := (yp - ym)%F in
  let dz := (zp - zm)%F in
  Some (if negb (IsNearlyZero Scale)
        then mkVector (dx / Scale)%F (dy / Scale)%F (dz / Scale)%F
        else mkVector dx dy dz).

(** The gradient loop, over the array [Gradients] of [Density.Num()]
    vectors. *)
Definition ComputeGradients (Size : Z) (Scale : F) (D : list F)
  : option (list (FVector F)) :=
  for_each (upto Size) (fun z =>
  for_each (upto Size) (fun y =>
  for_each (upto Size) (fun x Gradients =>
    g ← gradient_at Size Scale D x y z;
    arr_set Gradients (GetIndex Size x y z) g)))
  (replicate (length D) ZeroVector).

Record FVertexInterpResult := mkInterp {
  Position : FVector F;
  Normal : FVector F
}.

(** The lambda [VertexInterp]. *)
Definition VertexInterp (IsoLevel : F) (p1 p2 : FVector F) (valp1 valp2 : F)
    (n1 n2 : FVector F) : FVertexInterpResult :=
  if (fabs (IsoLevel - valp1) <? KINDA_SMALL_NUMBER)%F
  then mkInterp p1 (GetSafeNormal n1)
  else if (fabs (IsoLevel - valp2) <? KINDA_SMALL_NUMBER)%F
  then mkInterp p2 (GetSafeNormal n2)
  else if (fabs (valp1 - valp2) <? KINDA_SMALL_NUMBER)%F
  then mkInterp p1 (GetSafeNormal n1)
  else
    let mu := ((IsoLevel - valp1) / (valp2 - valp1))%F in
    let Position := vadd p1 (vscale (vsub p2 p1) mu) in
    let Normal := vadd n1 (vscale (vsub n2 n1) mu) in
    let '(ok, Normal) := Normalize Normal in
    mkInterp Position (if ok then Normal else UpVector).

Definition CornerOffsets : list (Z * Z * Z) :=
  [(0,0,0); (1,0,0); (1,1,0); (0,1,0); (0,0,1); (1,0,1); (1,1,1); (0,1,1)].

(** One entry of the local arrays [p], [val] and [grad]. *)
Record Corner := mkCorner {
  p : FVector F;
  val : F;
  grad : FVector F
}.

(** The body of the loop over the eight corners of the cube at
    [(x, y, z)]. *)
Definition fetch_corner (Size : Z) (Scale : F) (D : list F)
    (Gradients : list (FVector F)) (x y z : Z) (o : Z * Z * Z)
  : option Corner :=
  let '(dx, dy, dz) := o in
  v ← arr_get D (GetIndex Size (x + dx) (y + dy) (z + dz));
  g ← arr_get Gradients (GetIndex Size (x + dx) (y + dy) (z + dz));
  Some (mkCorner (mkVector (of_int (x + dx) * Scale)%F
                           (of_int (y + dy) * Scale)%F
                           (of_int (z + dz) * Scale)%F)
                 v (GetSafeNormal g)).

(** [cubeIndex]: bit [i] is set when corner [i] is below the iso level. *)
Definition cubeIndex_of (IsoLevel : F) (cs : list Corner) : Z :=
  foldl (fun acc bc => if (val (snd bc) <? IsoLevel)%F
                       then Z.lor acc (fst bc) else acc)
        0 (zip [1; 2; 4; 8; 16; 32; 64; 128] cs).

(** The twelve edges: the bit of [edgeTable] and the two corners. *)
Definition EdgeEnds : list (Z * Z * Z) :=
  [(1,0,1); (2,1,2); (4,2,3); (8,3,0); (16,4,5); (32,5,6); (64,6,7);
   (128,7,4); (256,0,4); (512,1,5); (1024,2,6); (2048,3,7)].

(** [vertList]: an entry is written only for an active edge. *)
Definition make_vertList (IsoLevel : F) (edges : Z) (cs : list Corner)
  : option (list (option FVertexInterpResult)) :=
  mapM (fun e : Z * Z * Z =>
          let '(mask, a, b) := e in
          if Z.land edges mask =? 0 then Some None
          else c1 ← arr_get cs a; c2 ← arr_get cs b;
               Some (Some (VertexInterp IsoLevel (p c1) (p c2) (val c1)
                                        (val c2) (grad c1) (grad c2))))
       EdgeEnds.

(** [vertList[e]]; reading an entry that was never written has no defined
    value. *)
Definition vert_at (vertList : list (option FVertexInterpResult)) (e : Z)
  : option FVertexInterpResult :=
  r ← arr_get vertList e; r.

(** The lambda [AddNormal], with the [FaceNormal] it captures. *)
Definition AddNormal (FaceNormal Candidate : FVector F)
    (Normals : list (FVector F)) : list (FVector F) :=
  let '(ok, Result) := Normalize Candidate in
  Normals ++ [if ok then Result else FaceNormal].

(** The body of the triangle loop: three vertices, three indices, three
    normals are appended. *)
Definition emit_triangle (r0 r1 r2 : FVertexInterpResult) (m : MeshData)
  : MeshData :=
  let v0 := Position r0 in
  let v1 := Position r1 in
  let v2 := Position r2 in
  let BaseIndex := Num (Vertices m) in
  let FaceNormal := GetSafeNormal (CrossProduct (vsub v1 v0) (vsub v2 v0)) in
  mkMesh (Vertices m ++ [v0; v1; v2])
         (Triangles m ++ [BaseIndex; BaseIndex + 1; BaseIndex + 2])
         (AddNormal FaceNormal (Normal r2)
           (AddNormal FaceNormal (Normal r1)
             (AddNormal FaceNormal (Normal r0) (Normals m)))).

(** [for (i = 0; triTable[cubeIndex][i] != -1; i += 3)] over one row. *)
Fixpoint emit_triangles (row : list Z)
    (vertList : list (option FVertexInterpResult)) (m : MeshData)
  : option MeshData :=
  match row with
  | [] => None
  | e0 :: row0 =>
      if e0 =? -1 then Some m
      else match row0 with
           | e1 :: e2 :: row' =>
               r0 ← vert_at vertList e0;
               r1 ← vert_at vertList e1;
               r2 ← vert_at vertList e2;
               emit_triangles row' vertList (emit_triangle r0 r1 r2 m)
           | _ => None
           end
  end.

(** The body of the loop over the unit cubes. *)
Definition march_cube (Size : Z) (Scale IsoLevel : F) (D : list F)
    (Gradients : list (FVector F)) (x y z : Z) (m : MeshData)
  : option MeshData :=
  cs ← mapM (fetch_corner Size Scale D Gradients x y z) CornerOffsets;
  let cubeIndex := cubeIndex_of IsoLevel cs in
  if edgeTable cubeIndex =? 0 then Some m
  else vertList ← make_vertList IsoLevel (edgeTable cubeIndex) cs;
       emit_triangles (triTable cubeIndex) vertList m.

(** The loop over the [(Size - 1)^3] unit cubes, from empty arrays
    [Vertices], [Triangles] and [Normals]. *)
Definition march_cubes (Size : Z) (Scale IsoLevel : F) (D : list F)
    (Gradients : list (FVector F)) : option MeshData :=
  for_each (upto (Size - 1)) (fun z =>
  for_each (upto (Size - 1)) (fun y =>
  for_each (upto (Size - 1)) (fun x =>
    march_cube Size Scale IsoLevel D Gradients x y z)))
  (mkMesh [] [] []).

(** The guard of the rebuild. *)
Definition inconsistent (c : UProceduralTerrain) : bool :=
  (CurrentSize c <=? 1) || negb (Num (Density c) =? Cubed (CurrentSize c)).

Definition RebuildMeshFromCurrentDensity (c : UProceduralTerrain)
  : option UProceduralTerrain :=
  let c := count_rebuild c in
  let Size := CurrentSize c in
  let Scale := CurrentScale c in
  let IsoLevel := CurrentIsoLevel c in
  if inconsistent c then Some (ClearAllMeshSections c)
  else
    Gradients ← ComputeGradients Size Scale (Density c);
    m ← march_cubes Size Scale IsoLevel (Density c) Gradients;
    Some (CreateMeshSection m (ClearAllMeshSections c)).

(** *** BuildDensityField *)

Definition BuildDensityField (Size : Z)
    (Scale NoiseScale HeightBias NoiseStrength : F) (c : UProceduralTerrain)
  : option UProceduralTerrain :=
  let c := with_params Size Scale (CurrentIsoLevel c) c in
  D ← SetNum fzero (Cubed Size) (Density c);
  let ChunkWorldOrigin := GetComponentLocation c in
  (* check(Density.Num() == Size * Size * Size); check(Size > 0); *)
  if negb (Num D =? Cubed Size) then None
  else if negb (0 <? Size) then None
  else
    D ← for_each (upto Size) (fun z =>
        for_each (upto Size) (fun y =>
        for_each (upto Size) (fun x D =>
          let WorldPos :=
            vadd ChunkWorldOrigin
                 (mkVector (of_int x * Scale)%F (of_int y * Scale)%F
                           (of_int z * Scale)%F) in
          let Noise := PerlinNoise3D (vscale WorldPos NoiseScale) in
          let DensityValue :=
            ((of_int z - HeightBias) + (Noise * NoiseStrength))%F in
          let Index := GetIndex Size x y z in
          (* check(Index >= 0 && Index < Density.Num()); *)
          if negb ((0 <=? Index) && (Index <? Num D)) then None
          else D ← arr_set D Index DensityValue;
               arr_set D (GetIndex Size x y z) DensityValue))) D;
    Some (with_Density D c).

(** *** DigSphere *)

(** The early return of [DigSphere]. *)
Definition degenerate (c : UProceduralTerrain) : bool :=
  (Num (Density c) =? 0) || (CurrentSize c <=? 0)
  || IsNearlyZero (CurrentScale c).

Definition DigSphere (WorldPosition : FVector F) (Radius Strength : F)
    (c : UProceduralTerrain) : option UProceduralTerrain :=
  if degenerate c then Some c
  else
    let ComponentTransform := ComponentToWorld c in
    let LocalPositionUnits :=
      InverseTransformPosition ComponentTransform WorldPosition in
    let LocalVoxelPosition := vdiv LocalPositionUnits (CurrentScale c) in
    let XCenter := RoundToInt (vx LocalVoxelPosition) in
    let YCenter := RoundToInt (vy LocalVoxelPosition) in
    let ZCenter := RoundToInt (vz LocalVoxelPosition) in
    let ComponentScale := Scale3D ComponentTransform in
    let UniformScale := Max (GetAbsMax ComponentScale) KINDA_SMALL_NUMBER in
    let LocalRadiusUnits := (Radius / UniformScale)%F in
    let RadiusVoxels := CeilToInt (LocalRadiusUnits / CurrentScale c)%F in
    let CurrentSize := CurrentSize c in
    D ← for_from_to (i32 (ZCenter - RadiusVoxels))
                    (i32 (ZCenter + RadiusVoxels)) (fun z =>
        for_from_to (i32 (YCenter - RadiusVoxels))
                    (i32 (YCenter + RadiusVoxels)) (fun y =>
        for_from_to (i32 (XCenter - RadiusVoxels))
                    (i32 (XCenter + RadiusVoxels)) (fun x D =>
          if (x <? 0) || (y <? 0) || (z <? 0) || (CurrentSize <=? x)
             || (CurrentSize <=? y) || (CurrentSize <=? z)
          then Some D
          else
            let VoxelPos := of_ints x y z in
            let dist := Dist VoxelPos LocalVoxelPosition in
            if (dist <=? of_int RadiusVoxels)%F
            then
              let Idx := GetIndex CurrentSize x y z in
              old ← arr_get D Idx;
              arr_set D Idx
                (old + Strength * (fone - dist / of_int RadiusVoxels))%F
            else Some D)))
        (Density c);
    RebuildMeshFromCurrentDensity (with_Density D c).

(** *** LoadDensityFromJSON *)

Definition AsNumber (v : FJsonValue F) : F :=
  match v with JsonNumber x => x | _ => fzero end.

Definition GetNumberField (obj : gmap string (FJsonValue F)) (k : string)
  : F :=
  match obj !! k with Some v => AsNumber v | None => fzero end.

Definition GetIntegerField (obj : gmap string (FJsonValue F)) (k : string)
  : Z :=
  TruncToInt (GetNumberField obj k).

Definition TryGetArrayField (obj : gmap string (FJsonValue F)) (k : string)
  : option (list (FJsonValue F)) :=
  match obj !! k with Some (JsonArray l) => Some l | _ => None end.

Definition LoadDensityFromJSON (disk : Disk F) (FileName : string)
    (c : UProceduralTerrain) : option UProceduralTerrain :=
  let LoadPath := path_join (ProjectSavedDir disk) FileName in
  match Files disk !! LoadPath with
  | None => Some c                       (* no JSON file found *)
  | Some Garbage => Some c               (* failed to parse *)
  | Some (JsonText JsonObject) =>
      let c := with_params (GetIntegerField JsonObject "Size")
                           (GetNumberField JsonObject "Scale")
                           (GetNumberField JsonObject "IsoLevel") c in
      match TryGetArrayField JsonObject "Density" with
      | Some DensityArray =>
          D ← SetNum fzero (Num DensityArray) (Density c);
          D ← for_each (upto (Num DensityArray)) (fun i D =>
                v ← arr_get DensityArray i;
                arr_set D i (AsNumber v)) D;
          RebuildMeshFromCurrentDensity (with_Density D c)
      | None => Some c
      end
  end.

Context `{Noise2D F} `{FileManager F}.

(** *** CreateProceduralTerrain *)

(** The height-map mesh.  [Normals.SetNum] default-constructs vectors, which
    the engine leaves without a value; [Uninitialized i] stands for what
    entry [i] holds before the accumulation loop adds to it. *)
Definition CreateProceduralTerrain (Uninitialized : Z -> FVector F)
    (Height Width : Z) (NoiseScale MaxHeight Scale : F)
    (c : UProceduralTerrain) : option UProceduralTerrain :=
  Vertices ←
    for_each (upto Height) (fun y =>
    for_each (upto Width) (fun x Vertices =>
      let NoiseValue :=
        PerlinNoise2D (of_int x * NoiseScale)%F (of_int y * NoiseScale)%F in
      let Zh := (NoiseValue * MaxHeight)%F in
      Some (Vertices ++ [mkVector (of_int x * Scale)%F (of_int y * Scale)%F Zh])))
    [];
  Triangles ←
    for_each (upto (i32 (Height - 1))) (fun y =>
    for_each (upto (i32 (Width - 1))) (fun x Triangles =>
      let i := i32 (x + i32 (y * Width)) in
      Some ((Triangles ++ [i; i32 (i + Width); i32 (i32 (i + Width) + 1)])
            ++ [i; i32 (i32 (i + Width) + 1); i32 (i + 1)])))
    [];
  let Normals := Uninitialized <$> upto (Num Vertices) in
  Normals ←
    for_each (by_threes (Num Triangles)) (fun i Normals =>
      i0 ← arr_get Triangles i;
      i1 ← arr_get Triangles (i + 1);
      i2 ← arr_get Triangles (i + 2);
      V0 ← arr_get Vertices i0;
      V1 ← arr_get Vertices i1;
      V2 ← arr_get Vertices i2;
      let Edge1 := vsub V1 V0 in
      let Edge2 := vsub V2 V0 in
      let Normal := GetSafeNormal (CrossProduct Edge1 Edge2) in
      n ← arr_get Normals i0; Normals ← arr_set Normals i0 (vadd n Normal);
      n ← arr_get Normals i1; Normals ← arr_set Normals i1 (vadd n Normal);
      n ← arr_get Normals i2; arr_set Normals i2 (vadd n Normal))
    Normals;
  let Normals := (fun N => snd (Normalize N)) <$> Normals in
  Some (CreateMeshSection (mkMesh Vertices Triangles Normals) c).

(** *** CreateProceduralTerrain3D *)

Definition CreateProceduralTerrain3D (Size : Z)
    (Scale NoiseScale HeightBias NoiseStrength IsoLevel : F)
    (c : UProceduralTerrain) : option UProceduralTerrain :=
  let c := with_params Size Scale IsoLevel c in
  D ← SetNum fzero (Cubed Size) (Density c);
  D ← for_each (upto Size) (fun z =>
      for_each (upto Size) (fun y =>
      for_each (upto Size) (fun x D =>
        let Pos := of_ints x y z in
        let Noise := PerlinNoise3D (vscale Pos NoiseScale) in
        let DensityValue :=
          ((of_int z - HeightBias) + (Noise * NoiseStrength))%F in
        arr_set D (GetIndex Size x y z) DensityValue))) D;
  RebuildMeshFromCurrentDensity (with_Density D c).

(** *** ClearMesh *)

(** Deletes the saved record of the single-terrain actor, when there is one
    and the deletion succeeds, and clears the mesh; the samples stay. *)
Definition ClearMesh (disk : Disk F) (c : UProceduralTerrain)
  : Disk F * UProceduralTerrain :=
  let FileName := "TerrainDensity.json" in
  let FilePath := path_join (ProjectSavedDir disk) FileName in
  let disk :=
    match Files disk !! FilePath with
    | Some _ =>
        if CanDelete FilePath
        then mkDisk F (ProjectSavedDir disk) (delete FilePath (Files disk))
        else disk
    | None => disk
    end in
  (disk, ClearAllMeshSections c).

(** *** SaveDensityToJSON *)

(** The object that [SaveDensityToJSON] assembles. *)
Definition SavedRecord (c : UProceduralTerrain) : gmap string (FJsonValue F) :=
  let DensityArray := JsonNumber <$> Density c in
  let JsonObject := <["Density" := JsonArray DensityArray]> ∅ in
  let JsonObject := <["Size" := JsonNumber (of_int (CurrentSize c))]> JsonObject in
  let JsonObject := <["Scale" := JsonNumber (CurrentScale c)]> JsonObject in
  <["IsoLevel" := JsonNumber (CurrentIsoLevel c)]> JsonObject.

Definition SaveDensityToJSON (disk : Disk F) (FileName : string)
    (c : UProceduralTerrain) : Disk F :=
  if Num (Density c) =? 0 then disk       (* "No density data to save." *)
  else
    let OutputString := Serialize (SavedRecord c) in
    let SavePath := path_join (ProjectSavedDir disk) FileName in
    if CanSave SavePath
    then mkDisk F (ProjectSavedDir disk) (<[SavePath := OutputString]> (Files disk))
    else disk.

(** *** RefreshTerrain *)

Definition RefreshTerrain (disk : Disk F) (c : UProceduralTerrain)
  : option UProceduralTerrain :=
  LoadDensityFromJSON disk "TerrainDensity.json" c.
End Terrain.
Arguments MeshData F : clear implicits.
Arguments UProceduralTerrain F : clear implicits.
Arguments FVertexInterpResult F : clear implicits.
Arguments Corner F : clear implicits.
End Terrain.

(** ** AProceduralTerrainWorld *)

Module World.
Import Terrain.
Section World.
Context {F : Type} `{Scalar F} `{MCTables} `{Noise F}.

(** The two lambdas that [GenerateAllChunks] schedules for a chunk: the
    thread-pool task that fills the density field, and the game-thread task
    that meshes it.  A task holds the pointer to its chunk (here the name of
    the object) and, as a ghost tag, the number of the pass that queued
    it. *)
Inductive Task : Type :=
| DensityTask (chunk : string) (pass : nat)
| MeshTask (chunk : string) (pass : nat).

Definition task_pass (t : Task) : nat :=
  match t with DensityTask _ n | MeshTask _ n => n end.

(** The actor.  The properties that only drive the debug drawing of [Tick],
    and the timer period, play no part in what follows and are left out. *)
Record AProceduralTerrainWorld := mkWorld {
  ChunkSize : Z;
  TerrainScale : F;
  NoiseScale : F;
  HeightBias : F;
  NoiseStrength : F;
  IsoLevel : F;
  ChunksX : Z;
  ChunksY : Z;
  ChunksZ : Z;
  (** The live components, in the order of the array of pointers. *)
  Chunks : list (UProceduralTerrain F);
  StreamRadius : Z;
  (** Pointers, as object names. *)
  PersistentChunks : list string;
  LastPlayerChunkCenter : FVector F;
  StreamingTimer : bool;
  bIsGenerating : bool;
  CompletedChunks : Z;
  RootComponent : option (FTransform F);
  (** Scheduled tasks that have not run yet. *)
  Pending : list Task;
  (** Ghost field: how many times [GenerateAllChunks] ran. *)
  Passes : nat
}.

Definition with_Chunks (cs : list (UProceduralTerrain F))
    (w : AProceduralTerrainWorld) :=
  mkWorld (ChunkSize w) (TerrainScale w) (NoiseScale w) (HeightBias w)
          (NoiseStrength w) (IsoLevel w) (ChunksX w) (ChunksY w) (ChunksZ w)
          cs (StreamRadius w) (PersistentChunks w) (LastPlayerChunkCenter w)
          (StreamingTimer w) (bIsGenerating w) (CompletedChunks w)
          (RootComponent w) (Pending w) (Passes w).
Definition with_PersistentChunks (ps : list string)
    (w : AProceduralTerrainWorld) :=
  mkWorld (ChunkSize w) (TerrainScale w) (NoiseScale w) (HeightBias w)
          (NoiseStrength w) (IsoLevel w) (ChunksX w) (ChunksY w) (ChunksZ w)
          (Chunks w) (StreamRadius w) ps (LastPlayerChunkCenter w)
          (StreamingTimer w) (bIsGenerating w) (CompletedChunks w)
          (RootComponent w) (Pending w) (Passes w).
Definition with_LastPlayerChunkCenter (v : FVector F)
    (w : AProceduralTerrainWorld) :=
  mkWorld (ChunkSize w) (TerrainScale w) (NoiseScale w) (HeightBias w)
          (NoiseStrength w) (IsoLevel w) (ChunksX w) (ChunksY w) (ChunksZ w)
          (Chunks w) (StreamRadius w) (PersistentChunks w) v
          (StreamingTimer w) (bIsGenerating w) (CompletedChunks w)
          (RootComponent w) (Pending w) (Passes w).
Definition with_StreamingTimer (b : bool) (w : AProceduralTerrainWorld) :=
  mkWorld (ChunkSize w) (TerrainScale w) (NoiseScale w) (HeightBias w)
          (NoiseStrength w) (IsoLevel w) (ChunksX w) (ChunksY w) (ChunksZ w)
          (Chunks w) (StreamRadius w) (PersistentChunks w)
          (LastPlayerChunkCenter w) b (bIsGenerating w) (CompletedChunks w)
          (RootComponent w) (Pending w) (Passes w).
Definition with_bIsGenerating (b : bool) (w : AProceduralTerrainWorld) :=
  mkWorld (ChunkSize w) (TerrainScale w) (NoiseScale w) (HeightBias w)
          (NoiseStrength w) (IsoLevel w) (ChunksX w) (ChunksY w) (ChunksZ w)
          (Chunks w) (StreamRadius w) (PersistentChunks w)
          (LastPlayerChunkCenter w) (StreamingTimer w) b (CompletedChunks w)
          (RootComponent w) (Pending w) (Passes w).
Definition with_CompletedChunks (n : Z) (w : AProceduralTerrainWorld) :=
  mkWorld (ChunkSize w) (TerrainScale w) (NoiseScale w) (HeightBias w)
          (NoiseStrength w) (IsoLevel w) (ChunksX w) (ChunksY w) (ChunksZ w)
          (Chunks w) (StreamRadius w) (PersistentChunks w)
          (LastPlayerChunkCenter w) (StreamingTimer w) (bIsGenerating w) n
          (RootComponent w) (Pending w) (Passes w).
Definition with_Pending (ts : list Task) (n : nat)
    (w : AProceduralTerrainWorld) :=
  mkWorld (ChunkSize w) (TerrainScale w) (NoiseScale w) (HeightBias w)
          (NoiseStrength w) (IsoLevel w) (ChunksX w) (ChunksY w) (ChunksZ w)
          (Chunks w) (StreamRadius w) (PersistentChunks w)
          (LastPlayerChunkCenter w) (StreamingTimer w) (bIsGenerating w)
          (CompletedChunks w) (RootComponent w) ts n.

(** *** Names, files and new chunks *)

Definition dec (z : Z) : string := NilZero.string_of_int (Z.to_int z).

(** [FString::Printf(TEXT("Chunk_%d_%d_%d"), x, y, z)]. *)
Definition ChunkName (x y z : Z) : string :=
  "Chunk_" +:+ dec x +:+ "_" +:+ dec y +:+ "_" +:+ dec z.

Definition SaveDir : string := "TerrainChunks".

(** [FPaths::Combine(SaveDir, "TerrainChunks_<name>.json")]. *)
Definition ChunkFile (name : string) : string :=
  path_join SaveDir ("TerrainChunks_" +:+ name +:+ ".json").

Definition FileExists (disk : Disk F) (path : string) : bool :=
  bool_decide (is_Some (Files disk !! path)).

(** [NewObject], [AttachToComponent], [SetRelativeLocation(Offset)] and the
    assignment of [ChunkCoords]. *)
Definition spawn_chunk (w : AProceduralTerrainWorld) (x y z : Z)
  : UProceduralTerrain F :=
  let Offset := vscale (vscale (of_ints x y z) (of_int (i32 (ChunkSize w - 1))))
                       (TerrainScale w) in
  with_ChunkCoords (mkIntVector x y z)
    (NewObject (ChunkName x y z) (AttachedAt (RootComponent w) Offset)).

(** *** GenerateAllChunks and its tasks *)

Definition GenerateAllChunks (w : AProceduralTerrainWorld)
  : AProceduralTerrainWorld :=
  let pass := S (Passes w) in
  with_Pending
    (Pending w ++ map (fun Chunk => DensityTask (Name Chunk) pass) (Chunks w))
    pass w.

(** Applies [f] to the chunk a task points to; a task whose chunk is gone
    holds a dangling pointer. *)
Fixpoint on_chunk (name : string)
    (f : UProceduralTerrain F -> option (UProceduralTerrain F))
    (cs : list (UProceduralTerrain F)) : option (list (UProceduralTerrain F)) :=
  match cs with
  | [] => None
  | c :: cs' =>
      if String.eqb (Name c) name then c' ← f c; Some (c' :: cs')
      else cs'' ← on_chunk name f cs'; Some (c :: cs'')
  end.

Definition run_task (t : Task) (w : AProceduralTerrainWorld)
  : option AProceduralTerrainWorld :=
  match t with
  | DensityTask n pass =>
      cs ← on_chunk n (BuildDensityField (ChunkSize w) (TerrainScale w)
                         (NoiseScale w) (HeightBias w) (NoiseStrength w))
                    (Chunks w);
      Some (with_Pending (Pending w ++ [MeshTask n pass]) (Passes w)
              (with_Chunks cs w))
  | MeshTask n pass =>
      cs ← on_chunk n RebuildMeshFromCurrentDensity (Chunks w);
      let w := with_Chunks cs w in
      let w := with_CompletedChunks (i32 (CompletedChunks w + 1)) w in
      Some (if Num (Chunks w) <=? CompletedChunks w
            then with_bIsGenerating false w else w)
  end.

(** One step of the scheduler: the [i]-th pending task runs. *)
Definition step_task (i : nat) (w : AProceduralTerrainWorld)
  : option AProceduralTerrainWorld :=
  t ← Pending w !! i;
  run_task t (with_Pending (delete i (Pending w)) (Passes w) w).

(** *** OnConstruction *)

Definition OnConstruction (disk : Disk F) (w : AProceduralTerrainWorld)
  : option AProceduralTerrainWorld :=
  if bIsGenerating w then Some w      (* "already in progress, skipping" *)
  else
    let w := with_Chunks [] w in
    let w := with_CompletedChunks 0 (with_bIsGenerating true w) in
    cs ← for_each (upto (ChunksZ w)) (fun z =>
         for_each (upto (ChunksY w)) (fun y =>
         for_each (upto (ChunksX w)) (fun x cs =>
           Some (cs ++ [spawn_chunk w x y z])))) (Chunks w);
    '(cs, bLoadedExisting) ← for_each cs (fun Chunk st =>
          let FullPath :=
            path_join (ProjectSavedDir disk) (ChunkFile (Name Chunk)) in
          if FileExists disk FullPath then
            c ← LoadDensityFromJSON disk (ChunkFile (Name Chunk)) Chunk;
            c ← RebuildMeshFromCurrentDensity c;
            Some (fst st ++ [c], true)
          else Some (fst st ++ [Chunk], snd st))
         (([], false) : list (UProceduralTerrain F) * bool);
    let w := with_Chunks cs w in
    Some (if (bLoadedExisting : bool) then with_bIsGenerating false w
          else GenerateAllChunks w).

(** *** BeginPlay *)

(** The loading loop of [BeginPlay]; [done] are the chunks already
    visited. *)
Fixpoint BeginPlay_load (disk : Disk F) (todo done : list (UProceduralTerrain F))
    (w : AProceduralTerrainWorld) : option AProceduralTerrainWorld :=
  match todo with
  | [] => Some (with_Chunks done w)
  | Chunk :: rest =>
      let FullPath :=
        path_join (ProjectSavedDir disk) (ChunkFile (Name Chunk)) in
      if FileExists disk FullPath then
        c ← LoadDensityFromJSON disk (ChunkFile (Name Chunk)) Chunk;
        BeginPlay_load disk rest (done ++ [c]) w
      else
        (* GenerateAllChunks(); break; *)
        Some (GenerateAllChunks (with_Chunks (done ++ Chunk :: rest) w))
  end.

Definition BeginPlay (disk : Disk F) (w : AProceduralTerrainWorld)
  : option AProceduralTerrainWorld :=
  let w := with_PersistentChunks [] w in
  let w := with_StreamingTimer true w in
  w ← BeginPlay_load disk (Chunks w) [] w;
  Some (with_PersistentChunks
          (PersistentChunks w ++ map Name (Chunks w)) w).

(** *** DigAt *)

(** The body of the loop over [Chunks]. *)
Definition DigAt_chunk (w : AProceduralTerrainWorld)
    (WorldPosition : FVector F) (Radius Strength : F)
    (Chunk : UProceduralTerrain F) : option (UProceduralTerrain F) :=
  let DigSphere := mkSphere WorldPosition Radius in
  if Num (Density Chunk) =? 0 then Some Chunk
  else
    let ChunkSize := ChunkSize w in
    let TerrainScale := TerrainScale w in
    let ChunkMin := GetComponentLocation Chunk in
    let ChunkMax :=
      vadd ChunkMin (vscale (splat (of_int (i32 (ChunkSize - 1))))
                            TerrainScale) in
    let ChunkBox := mkBox ChunkMin ChunkMax in
    if negb (SphereAABBIntersection DigSphere ChunkBox) then Some Chunk
    else
      let LocalPosUnits := vsub WorldPosition (GetComponentLocation Chunk) in
      let LocalVoxelPos := vdiv LocalPosUnits TerrainScale in
      let XCenter := RoundToInt (vx LocalVoxelPos) in
      let YCenter := RoundToInt (vy LocalVoxelPos) in
      let ZCenter := RoundToInt (vz LocalVoxelPos) in
      let RadiusVoxels := CeilToInt (Radius / TerrainScale)%F in
      D ← for_from_to (i32 (ZCenter - RadiusVoxels))
                      (i32 (ZCenter + RadiusVoxels)) (fun z =>
          for_from_to (i32 (YCenter - RadiusVoxels))
                      (i32 (YCenter + RadiusVoxels)) (fun y =>
          for_from_to (i32 (XCenter - RadiusVoxels))
                      (i32 (XCenter + RadiusVoxels)) (fun x D =>
            if (x <? 0) || (y <? 0) || (z <? 0) || (ChunkSize <=? x)
               || (ChunkSize <=? y) || (ChunkSize <=? z)
            then Some D
            else
              let VoxelPos := of_ints x y z in
              let dist := Dist VoxelPos (of_ints XCenter YCenter ZCenter) in
              if (dist <=? of_int RadiusVoxels)%F
              then
                let Idx := GetIndex ChunkSize x y z in
                old ← arr_get D Idx;
                arr_set D Idx
                  (old + Strength * (fone - dist / of_int RadiusVoxels))%F
              else Some D)))
          (Density Chunk);
      RebuildMeshFromCurrentDensity (with_Density D Chunk).

Definition DigAt (WorldPosition : FVector F) (Radius Strength : F)
    (w : AProceduralTerrainWorld) : option AProceduralTerrainWorld :=
  cs ← mapM (DigAt_chunk w WorldPosition Radius Strength) (Chunks w);
  Some (with_Chunks cs w).

(** *** UpdateStreamedChunks *)

(** [TSet<FIntVector>], in insertion order. *)
Definition TSet_Contains (s : list FIntVector) (k : FIntVector) : bool :=
  existsb (FIntVector_eqb k) s.

Definition TSet_Add (k : FIntVector) (s : list FIntVector)
  : list FIntVector :=
  if TSet_Contains s k then s else s ++ [k].

(** [FVector(ChunkSize - 1) * TerrainScale]. *)
Definition ChunkWorldSize (w : AProceduralTerrainWorld) : FVector F :=
  vscale (splat (of_int (i32 (ChunkSize w - 1)))) (TerrainScale w).

Definition PlayerChunkCoords (w : AProceduralTerrainWorld)
    (PlayerPos : FVector F) : FIntVector :=
  mkIntVector (FloorToInt (vx PlayerPos / vx (ChunkWorldSize w))%F)
              (FloorToInt (vy PlayerPos / vy (ChunkWorldSize w))%F)
              0.

Definition PlayerChunkCenter (w : AProceduralTerrainWorld)
    (PlayerPos : FVector F) : FVector F :=
  let k := PlayerChunkCoords w PlayerPos in
  vmul (of_ints (ix k) (iy k) (iz k)) (ChunkWorldSize w).

(** [Pawn] is the location of the first player controller's pawn, when
    there is one. *)
Definition UpdateStreamedChunks (disk : Disk F) (Pawn : option (FVector F))
    (w : AProceduralTerrainWorld) : option AProceduralTerrainWorld :=
  match Pawn with
  | None => Some w
  | Some PlayerPos =>
      let Coords0 := PlayerChunkCoords w PlayerPos in
      let Center := PlayerChunkCenter w PlayerPos in
      (* skip if the player is still within the same central chunk *)
      if (Dist Center (LastPlayerChunkCenter w)
          <? vx (ChunkWorldSize w) * fhalf)%F
      then Some w
      else
        let w := with_LastPlayerChunkCenter Center w in
        let R := StreamRadius w in
        DesiredChunks ←
          for_from_to (i32 (- R)) R (fun dx =>
          for_from_to (i32 (- R)) R (fun dy Desired =>
            Some (TSet_Add (mkIntVector (i32 (ix Coords0 + dx))
                                        (i32 (iy Coords0 + dy)) 0)
                           Desired))) [];
        (* remove distant chunks *)
        cs ← for_each (rev (upto (Num (Chunks w)))) (fun i cs =>
               Chunk ← arr_get cs i;
               if negb (TSet_Contains DesiredChunks (ChunkCoords Chunk))
               then
                 if existsb (String.eqb (Name Chunk)) (PersistentChunks w)
                 then Some cs
                 else Some (delete (Z.to_nat i) cs)
               else Some cs) (Chunks w);
        (* create missing chunks *)
        cs ← for_each DesiredChunks (fun Coords cs =>
               if existsb (fun Existing =>
                             FIntVector_eqb (ChunkCoords Existing) Coords) cs
               then Some cs
               else
                 let NewChunk :=
                   spawn_chunk w (ix Coords) (iy Coords) (iz Coords) in
                 let ChunkFile :=
                   path_join (path_join (ProjectSavedDir disk) "TerrainChunks")
                     ("TerrainChunks_" +:+ Name NewChunk +:+ ".json") in
                 NewChunk ←
                   (if FileExists disk ChunkFile then
                      c ← LoadDensityFromJSON disk ChunkFile NewChunk;
                      RebuildMeshFromCurrentDensity c
                    else
                      c ← BuildDensityField (ChunkSize w) (TerrainScale w)
                            (NoiseScale w) (HeightBias w) (NoiseStrength w)
                            NewChunk;
                      RebuildMeshFromCurrentDensity c);
                 Some (cs ++ [NewChunk])) cs;
        Some (with_Chunks cs w)
  end.

(** *** The events of a world *)

(** What can happen to a world: the two lifecycle callbacks, the run of a
    scheduled task, a tick of the streaming timer (with the position of the
    player's pawn, if any) and a dig request. *)
Inductive Event : Type :=
| EvOnConstruction
| EvBeginPlay
| EvTask (i : nat)
| EvStreamingTimer (Pawn : option (FVector F))
| EvDigAt (WorldPosition : FVector F) (Radius Strength : F).

Definition step (disk : Disk F) (e : Event) (w : AProceduralTerrainWorld)
  : option AProceduralTerrainWorld :=
  match e with
  | EvOnConstruction => OnConstruction disk w
  | EvBeginPlay => BeginPlay disk w
  | EvTask i => step_task i w
  | EvStreamingTimer Pawn =>
      if StreamingTimer w then UpdateStreamedChunks disk Pawn w else Some w
  | EvDigAt WorldPosition Radius Strength =>
      DigAt WorldPosition Radius Strength w
  end.

Definition run (disk : Disk F) (es : list Event) (w : AProceduralTerrainWorld)
  : option AProceduralTerrainWorld :=
  for_each es (step disk) w.

(** The full-grid passes that still have a task to run. *)
Definition passes_in_flight (w : AProceduralTerrainWorld) : list nat :=
  remove_dups (map task_pass (Pending w)).

(** *** EndPlay and RefreshTerrain *)

Context `{FileManager F}.

(** The component a pointer of [PersistentChunks] refers to.  The pointers
    are object names here, so the component is looked up among the live
    chunks; a pointer to a component that is not among them is outside this
    model. *)
Definition chunk_named (w : AProceduralTerrainWorld) (name : string)
  : option (UProceduralTerrain F) :=
  snd <$> list_find (fun c => Name c = name) (Chunks w).

(** Saves every persistent chunk under its own file.  ([MakeDirectory] acts
    on directories, which [Disk] does not record.) *)
Definition EndPlay (disk : Disk F) (w : AProceduralTerrainWorld)
  : option (Disk F) :=
  for_each (PersistentChunks w) (fun name disk =>
    Chunk ← chunk_named w name;
    Some (SaveDensityToJSON disk (ChunkFile (Name Chunk)) Chunk)) disk.

Definition RefreshTerrain (disk : Disk F) (w : AProceduralTerrainWorld)
  : option AProceduralTerrainWorld :=
  cs ← mapM (fun Chunk =>
               let ChunkFile := ChunkFile (Name Chunk) in
               let FullPath := path_join (ProjectSavedDir disk) ChunkFile in
               if FileExists disk FullPath
               then LoadDensityFromJSON disk ChunkFile Chunk
               else Some Chunk) (Chunks w);
  Some (with_Chunks cs w).
End World.
Arguments AProceduralTerrainWorld F : clear implicits.
Arguments Event F : clear implicits.
End World.

(** ** AProceduralTerrainActor *)

Module Actor.
Import Terrain.
Section Actor.
Context {F : Type} `{Scalar F} `{MCTables} `{Noise F} `{FileManager F}.

Record AProceduralTerrainActor := mkActor {
  (** The component pointer, which the callbacks test before use. *)
  ProceduralTerrain : option (UProceduralTerrain F);
  TerrainSize : Z;
  TerrainScale : F;
  NoiseScale : F;
  HeightBias : F;
  NoiseStrength : F;
  IsoLevel : F
}.

Definition with_ProceduralTerrain (t : UProceduralTerrain F)
    (a : AProceduralTerrainActor) :=
  mkActor (Some t) (TerrainSize a) (TerrainScale a) (NoiseScale a)
          (HeightBias a) (NoiseStrength a) (IsoLevel a).

(** The constructor: the component is the root of the actor, placed by the
    actor's transform. *)
Definition Construct (t : FTransform F) (TerrainSize : Z)
    (TerrainScale NoiseScale HeightBias NoiseStrength IsoLevel : F) :=
  mkActor (Some (NewObject "ProceduralTerrain" t)) TerrainSize TerrainScale
          NoiseScale HeightBias NoiseStrength IsoLevel.

(** [OnConstruction]: loads the saved terrain when its file exists,
    creates a new one otherwise. *)
Definition OnConstruction (disk : Disk F) (a : AProceduralTerrainActor)
  : option AProceduralTerrainActor :=
  match ProceduralTerrain a with
  | None => Some a
  | Some Terrain =>
      let FileName := "TerrainDensity.json" in
      let SavePath := path_join (ProjectSavedDir disk) FileName in
      Terrain ←
        (if bool_decide (is_Some (Files disk !! SavePath))
         then LoadDensityFromJSON disk FileName Terrain
         else CreateProceduralTerrain3D (TerrainSize a) (TerrainScale a)
                (NoiseScale a) (HeightBias a) (NoiseStrength a) (IsoLevel a)
                Terrain);
      Some (with_ProceduralTerrain Terrain a)
  end.

(** [BeginPlay]: the same decision at the start of play. *)
Definition BeginPlay (disk : Disk F) (a : AProceduralTerrainActor)
  : option AProceduralTerrainActor :=
  match ProceduralTerrain a with
  | None => Some a
  | Some Terrain =>
      let FileName := "TerrainDensity.json" in
      let SavePath := path_join (ProjectSavedDir disk) FileName in
      Terrain ←
        (if bool_decide (is_Some (Files disk !! SavePath))
         then LoadDensityFromJSON disk FileName Terrain
         else CreateProceduralTerrain3D (TerrainSize a) (TerrainScale a)
                (NoiseScale a) (HeightBias a) (NoiseStrength a) (IsoLevel a)
                Terrain);
      Some (with_ProceduralTerrain Terrain a)
  end.

Definition EndPlay (disk : Disk F) (a : AProceduralTerrainActor) : Disk F :=
  match ProceduralTerrain a with
  | Some Terrain => SaveDensityToJSON disk "TerrainDensity.json" Terrain
  | None => disk
  end.

Definition RefreshInEditor (disk : Disk F) (a : AProceduralTerrainActor)
  : option AProceduralTerrainActor :=
  match ProceduralTerrain a with
  | Some Terrain =>
      Terrain ← RefreshTerrain disk Terrain;
      Some (with_ProceduralTerrain Terrain a)
  | None => Some a
  end.
End Actor.
Arguments AProceduralTerrainActor F : clear implicits.
End Actor.


(** ** Statements used by the theorems *)

Module Spec.
Section Spec.
Context {F : Type} `{Scalar F} `{Noise F}.

(** [populate] as the specification words it:
    [(worldZ / scale - heightBias) + noise3D(worldPos * noiseFrequency) * noiseStrength]
    with [worldPos = origin + (x, y, z) * scale]. *)
Definition populate_density (origin : FVector F)
    (scale noiseFrequency heightBias noiseStrength : F) (x y z : Z) : F :=
  let worldPos := vadd origin (vscale (of_ints x y z) scale) in
  ((vz worldPos / scale - heightBias)
   + PerlinNoise3D (vscale worldPos noiseFrequency) * noiseStrength)%F.

(** The same with the height term taken from the grid index [z] of the cell
    instead of its world height. *)
Definition grid_density (origin : FVector F)
    (scale noiseFrequency heightBias noiseStrength : F) (x y z : Z) : F :=
  let worldPos :=
    vadd origin (mkVector (of_int x * scale)%F (of_int y * scale)%F
                          (of_int z * scale)%F) in
  ((of_int z - heightBias)
   + PerlinNoise3D (vscale worldPos noiseFrequency) * noiseStrength)%F.

(** "Every emitted normal has length 1 within tolerance." *)
Definition unit_length (n : FVector F) : bool :=
  (fabs (SizeSquared n - fone) <=? KINDA_SMALL_NUMBER)%F.

(** The flat normal of the triangle [(v0, v1, v2)]. *)
Definition face_normal (v0 v1 v2 : FVector F) : FVector F :=
  GetSafeNormal (CrossProduct (vsub v1 v0) (vsub v2 v0)).

(** What the normal of a corner of the triangle [(v0, v1, v2)] can be: the
    outcome of a successful [Normalize], or the face normal of the
    triangle. *)
Definition corner_normal (v0 v1 v2 n : FVector F) : Prop :=
  (exists Candidate, Normalize Candidate = (true, n))
  \/ n = face_normal v0 v1 v2.

(** Vertices and normals come three by three, each normal being a
    [corner_normal] of the triangle of its vertex. *)
Inductive normals_by_triangle : list (FVector F) -> list (FVector F) -> Prop :=
| nbt_nil : normals_by_triangle [] []
| nbt_cons (v0 v1 v2 n0 n1 n2 : FVector F) (vs ns : list (FVector F)) :
    corner_normal v0 v1 v2 n0 ->
    corner_normal v0 v1 v2 n1 ->
    corner_normal v0 v1 v2 n2 ->
    normals_by_triangle vs ns ->
    normals_by_triangle (v0 :: v1 :: v2 :: vs) (n0 :: n1 :: n2 :: ns).
End Spec.
End Spec.

(** ** Statements about digging *)

Module DigSpec.
Import Terrain World.
Section DigSpec.
Context {F : Type} {SF : Scalar F}.

(** The chunks that [DigAt] modifies: those that hold samples and whose box
    [[location, location + (ChunkSize - 1) * TerrainScale]] meets the dig
    sphere. *)
Definition affected (w : AProceduralTerrainWorld F) (WorldPosition : FVector F)
    (Radius : F) (Chunk : UProceduralTerrain F) : bool :=
  negb (Num (Density Chunk) =? 0)
  && SphereAABBIntersection
       (mkSphere WorldPosition Radius)
       (mkBox (GetComponentLocation Chunk)
              (vadd (GetComponentLocation Chunk)
                    (vscale (splat (of_int (i32 (ChunkSize w - 1))))
                            (TerrainScale w)))).

(** The situation in which the loop of [DigAt] and [DigSphere] see the same
    numbers: the chunk stores the world's size and scale, [DigSphere] does
    not return early, the chunk is neither rotated nor scaled, and the dig
    position falls exactly on a sample of the chunk's grid. *)
Record aligned (w : AProceduralTerrainWorld F) (WorldPosition : FVector F)
    (Radius : F) (Chunk : UProceduralTerrain F) : Prop := {
  same_size : CurrentSize Chunk = ChunkSize w;
  same_scale : CurrentScale Chunk = TerrainScale w;
  size_positive : 0 < ChunkSize w;
  scale_not_zero : IsNearlyZero (TerrainScale w) = false;
  plain_transform :
    InverseTransformPosition (ComponentToWorld Chunk) WorldPosition
    = vsub WorldPosition (GetComponentLocation Chunk);
  plain_radius :
    (Radius / Max (GetAbsMax (Scale3D (ComponentToWorld Chunk)))
                  KINDA_SMALL_NUMBER)%F = Radius;
  on_lattice :
    of_ints
      (RoundToInt (vx (vdiv (vsub WorldPosition (GetComponentLocation Chunk))
                            (TerrainScale w))))
      (RoundToInt (vy (vdiv (vsub WorldPosition (GetComponentLocation Chunk))
                            (TerrainScale w))))
      (RoundToInt (vz (vdiv (vsub WorldPosition (GetComponentLocation Chunk))
                            (TerrainScale w))))
    = vdiv (vsub WorldPosition (GetComponentLocation Chunk)) (TerrainScale w)
}.

(** What the update loops of [DigAt] take for granted of a chunk: it
    stores [ChunkSize ^ 3] samples, a count that fits an [int32], and the
    bound [centre + reach] of each of the three loops is below
    [INT32_MAX]. *)
Record dig_in_range (w : AProceduralTerrainWorld F) (WorldPosition : FVector F)
    (Radius : F) (Chunk : UProceduralTerrain F) : Prop := {
  stored_count : Num (Density Chunk) = ChunkSize w ^ 3;
  count_fits : ChunkSize w ^ 3 <= INT32_MAX;
  x_loop_exits :
    i32 (RoundToInt (vx (vdiv (vsub WorldPosition (GetComponentLocation Chunk))
                              (TerrainScale w)))
         + CeilToInt (Radius / TerrainScale w)%F) < INT32_MAX;
  y_loop_exits :
    i32 (RoundToInt (vy (vdiv (vsub WorldPosition (GetComponentLocation Chunk))
                              (TerrainScale w)))
         + CeilToInt (Radius / TerrainScale w)%F) < INT32_MAX;
  z_loop_exits :
    i32 (RoundToInt (vz (vdiv (vsub WorldPosition (GetComponentLocation Chunk))
                              (TerrainScale w)))
         + CeilToInt (Radius / TerrainScale w)%F) < INT32_MAX
}.

(** What one call of [DigAt] does to one chunk. *)
Definition dig_outcome `{MCTables} `{Noise F} (w : AProceduralTerrainWorld F)
    (WorldPosition : FVector F) (Radius Strength : F)
    (Chunk Chunk' : UProceduralTerrain F) : Prop :=
  (affected w WorldPosition Radius Chunk = false -> Chunk' = Chunk)
  /\ (affected w WorldPosition Radius Chunk = true ->
      Rebuilds Chunk' = S (Rebuilds Chunk)
      /\ (aligned w WorldPosition Radius Chunk ->
          DigSphere WorldPosition Radius Strength Chunk = Some Chunk')).
End DigSpec.
End DigSpec.

(** ** Statements about meshes, brushes and streaming *)

Module Props.
Import Terrain World.
Section Props.
Context {F : Type} {SF : Scalar F}.

(** A mesh without shared vertices: the index buffer is [0, 1, 2, ...], one
    index and one normal per vertex, and the vertices come in threes. *)
Definition triangle_soup (m : MeshData F) : Prop :=
  Triangles m = upto (Num (Vertices m))
  /\ Num (Normals m) = Num (Vertices m)
  /\ Num (Vertices m) mod 3 = 0.

(** The cube of samples that the loops of a dig visit: [Reach] samples on
    each side of the rounded centre, bounds computed on [int32]. *)
Definition in_reach (XCenter YCenter ZCenter Reach x y z : Z) : bool :=
  (i32 (XCenter - Reach) <=? x) && (x <=? i32 (XCenter + Reach))
  && (i32 (YCenter - Reach) <=? y) && (y <=? i32 (YCenter + Reach))
  && (i32 (ZCenter - Reach) <=? z) && (z <=? i32 (ZCenter + Reach)).

(** The falloff: a sample at distance [dist] from [Centre], not farther
    than [Reach], is increased by [Strength * (1 - dist / Reach)]. *)
Definition dug (Centre : FVector F) (Reach : Z) (Strength : F) (x y z : Z)
    (old : F) : F :=
  let dist := Dist (of_ints x y z) Centre in
  if (dist <=? of_int Reach)%F
  then (old + Strength * (fone - dist / of_int Reach))%F
  else old.

(** The position in sample units, and the reach in samples, that
    [DigSphere] computes from its arguments. *)
Definition LocalVoxelPosition (c : UProceduralTerrain F)
    (WorldPosition : FVector F) : FVector F :=
  vdiv (InverseTransformPosition (ComponentToWorld c) WorldPosition)
       (CurrentScale c).

Definition RadiusVoxels (c : UProceduralTerrain F) (Radius : F) : Z :=
  CeilToInt (Radius / Max (GetAbsMax (Scale3D (ComponentToWorld c)))
                          KINDA_SMALL_NUMBER
             / CurrentScale c)%F.

(** The same for [DigAt], which works from the chunk's location and the
    world's scale. *)
Definition LocalVoxelPos (w : AProceduralTerrainWorld F)
    (Chunk : UProceduralTerrain F) (WorldPosition : FVector F) : FVector F :=
  vdiv (vsub WorldPosition (GetComponentLocation Chunk)) (TerrainScale w).

(** What identifies a component: its name, its placement and its cell. *)
Definition same_component (c c' : UProceduralTerrain F) : Prop :=
  Name c' = Name c /\ ComponentToWorld c' = ComponentToWorld c
  /\ ChunkCoords c' = ChunkCoords c.

(** No character of [s] is [sep]. *)
Fixpoint free_of (sep : ascii) (s : string) : bool :=
  match s with
  | EmptyString => true
  | String a s' => negb (Ascii.eqb a sep) && free_of sep s'
  end.

(** The cells that the streaming keeps loaded around the observer at
    [PlayerPos]: those at most [StreamRadius] cells away on each horizontal
    axis, in the ground layer. *)
Definition in_stream_range (w : AProceduralTerrainWorld F)
    (PlayerPos : FVector F) (Coords : FIntVector) : Prop :=
  exists dx dy,
    i32 (- StreamRadius w) <= dx <= StreamRadius w
    /\ i32 (- StreamRadius w) <= dy <= StreamRadius w
    /\ Coords = mkIntVector (i32 (ix (PlayerChunkCoords w PlayerPos) + dx))
                            (i32 (iy (PlayerChunkCoords w PlayerPos) + dy)) 0.

(** Whether a streaming update acts: the centre of the observer's cell is
    not within half a chunk width of the recorded one. *)
Definition moved_away (w : AProceduralTerrainWorld F) (PlayerPos : FVector F)
  : bool :=
  negb (Dist (PlayerChunkCenter w PlayerPos) (LastPlayerChunkCenter w)
        <? vx (ChunkWorldSize w) * fhalf)%F.
End Props.

(** *** The parts of the rebuild and of UpdateStreamedChunks *)

Section Loops.
Context {F : Type} {SF : Scalar F} {TB : MCTables} {NS : Noise F}.

(** What [march_cube] does once the eight corners of the cube are read:
    the lookups in the two tables and the triangles they give.  Neither
    [Density] nor [Gradients] is read here. *)
Definition triangulate (IsoLevel : F) (cs : list (Corner F))
    (m : MeshData F) : option (MeshData F) :=
  let cubeIndex := cubeIndex_of IsoLevel cs in
  if edgeTable cubeIndex =? 0 then Some m
  else vertList ← make_vertList IsoLevel (edgeTable cubeIndex) cs;
       emit_triangles (triTable cubeIndex) vertList m.

(** "Determine which chunks should remain active". *)
Definition DesiredChunks_of (w : AProceduralTerrainWorld F)
    (Coords0 : FIntVector) : option (list FIntVector) :=
  let R := StreamRadius w in
  for_from_to (i32 (- R)) R (fun dx =>
  for_from_to (i32 (- R)) R (fun dy Desired =>
    Some (TSet_Add (mkIntVector (i32 (ix Coords0 + dx))
                                (i32 (iy Coords0 + dy)) 0)
                   Desired))) [].

(** Whether the eviction loop keeps a chunk: its cell is desired, or the
    chunk is persistent. *)
Definition kept_by (w : AProceduralTerrainWorld F) (D : list FIntVector)
    (c : UProceduralTerrain F) : bool :=
  TSet_Contains D (ChunkCoords c)
  || existsb (String.eqb (Name c)) (PersistentChunks w).

(** "Remove distant chunks". *)
Definition remove_distant (w : AProceduralTerrainWorld F)
    (DesiredChunks : list FIntVector) : option (list (UProceduralTerrain F)) :=
  for_each (rev (upto (Num (Chunks w)))) (fun i cs =>
    Chunk ← arr_get cs i;
    if negb (TSet_Contains DesiredChunks (ChunkCoords Chunk))
    then
      if existsb (String.eqb (Name Chunk)) (PersistentChunks w)
      then Some cs
      else Some (delete (Z.to_nat i) cs)
    else Some cs) (Chunks w).

(** The path at which the streaming tests for the saved record of the chunk
    called [name]. *)
Definition streamed_file (disk : Disk F) (name : string) : string :=
  path_join (path_join (ProjectSavedDir disk) "TerrainChunks")
            ("TerrainChunks_" +:+ name +:+ ".json").

(** The chunk that "create missing chunks" adds for a cell. *)
Definition streamed_chunk (disk : Disk F) (w : AProceduralTerrainWorld F)
    (Coords : FIntVector) : option (UProceduralTerrain F) :=
  let NewChunk := spawn_chunk w (ix Coords) (iy Coords) (iz Coords) in
  let ChunkFile :=
    path_join (path_join (ProjectSavedDir disk) "TerrainChunks")
      ("TerrainChunks_" +:+ Name NewChunk +:+ ".json") in
  if FileExists disk ChunkFile then
    c ← LoadDensityFromJSON disk ChunkFile NewChunk;
    RebuildMeshFromCurrentDensity c
  else
    c ← BuildDensityField (ChunkSize w) (TerrainScale w)
          (NoiseScale w) (HeightBias w) (NoiseStrength w)
          NewChunk;
    RebuildMeshFromCurrentDensity c.

(** "Create missing chunks". *)
Definition create_missing (disk : Disk F) (w : AProceduralTerrainWorld F)
    (DesiredChunks : list FIntVector) (cs : list (UProceduralTerrain F))
  : option (list (UProceduralTerrain F)) :=
  for_each DesiredChunks (fun Coords cs =>
    if existsb (fun Existing => FIntVector_eqb (ChunkCoords Existing) Coords) cs
    then Some cs
    else NewChunk ← streamed_chunk disk w Coords;
         Some (cs ++ [NewChunk])) cs.
End Loops.
End Props.

(** ** Concrete inputs *)

Module Examples.
Import Terrain World F64.

(** Modelled from the spec: [MarchingCubesTables.h] is not among the sources;
    section 4.2 says the tables are the standard 256-case marching-cubes
    lookup tables.  Only the rows of the cube cases 0, 1, 15 and 255 are
    written out.  The other rows are not given: their edge mask is set and
    their triangle row is empty, which [emit_triangles] rejects, so a
    rebuild that met one of them would not return. *)
#[export] Instance StandardRows : MCTables := {|
  edgeTable := fun i =>
    match i with 0 => 0 | 1 => 265 | 15 => 3840 | 255 => 0 | _ => -1 end;
  triTable := fun i =>
    match i with
    | 0 | 255 =>
        [-1; -1; -1; -1; -1; -1; -1; -1; -1; -1; -1; -1; -1; -1; -1; -1]
    | 1 => [0; 8; 3; -1; -1; -1; -1; -1; -1; -1; -1; -1; -1; -1; -1; -1]
    | 15 => [9; 8; 10; 10; 8; 11; -1; -1; -1; -1; -1; -1; -1; -1; -1; -1]
    | _ => []
    end
|}.

(** The engine's Perlin noise at the origin, where it is 0; the evaluations
    below sample it nowhere else (their [NoiseScale] is 0), and any other
    point is answered with NaN. *)
#[export] Instance NoiseAtOrigin : Noise float := {|
  PerlinNoise3D := fun v =>
    if PrimFloat.eqb (vx v) 0 && PrimFloat.eqb (vy v) 0 && PrimFloat.eqb (vz v) 0
    then 0%float else nan
|}.

Definition vec (x y z : float) : FVector float := mkVector x y z.

(** A component at world position [o], unrotated and unscaled. *)
Definition placed (o : FVector float) : FTransform float := AttachedAt None o.

(** A chunk of 2 x 2 x 2 samples with the given densities. *)
Definition chunk2 (o : FVector float) (scale : float) (d : list float)
  : UProceduralTerrain float :=
  with_Density d (with_params 2 scale 0%float (NewObject "Chunk_0_0_0" (placed o))).

Definition no_files : Disk float := mkDisk float "Saved" ∅.

(** A saved record that announces a size of 3 (27 samples) and holds one
    sample. *)
Definition short_record : gmap string (FJsonValue float) :=
  <["Size" := JsonNumber 3%float]>
    (<["Scale" := JsonNumber 2%float]>
       (<["IsoLevel" := JsonNumber 1%float]>
          (<["Density" := JsonArray [JsonNumber 7%float]]> ∅))).

Definition short_record_disk : Disk float :=
  mkDisk float "Saved" {[ "Saved/TerrainDensity.json" := JsonText short_record ]}.

(** The field that [BuildDensityField] produces for two layers of samples
    around the iso level: the lower layer solid, the upper layer empty. *)
Definition two_layers : UProceduralTerrain float :=
  chunk2 (mkVector 0 0 0)%float 1%float
         [-0.5; -0.5; -0.5; -0.5; 0.5; 0.5; 0.5; 0.5]%float.

(** A saved field of 2 x 2 x 2 samples, with the default spacing of 50, that
    is level with the iso surface except for one corner that lies just below
    it (by 0.00005). *)
Definition flat_corner_record : gmap string (FJsonValue float) :=
  <["Size" := JsonNumber 2%float]>
    (<["Scale" := JsonNumber 50%float]>
       (<["IsoLevel" := JsonNumber 0%float]>
          (<["Density" :=
               JsonArray (JsonNumber (-0x1.a36e2eb1c432dp-15)%float
                          :: replicate 7 (JsonNumber 0%float))]> ∅))).

Definition flat_corner_disk : Disk float :=
  mkDisk float "Saved"
         {[ "Saved/TerrainDensity.json" := JsonText flat_corner_record ]}.

(** A field with one solid corner. *)
Definition one_corner : UProceduralTerrain float :=
  chunk2 (mkVector 0 0 0)%float 1%float
         [-0.5; 0.5; 0.5; 0.5; 0.5; 0.5; 0.5; 0.5]%float.

(** A world of chunks of 2 x 2 x 2 samples with unit spacing, one chunk in
    its grid, stream radius 0, nothing built yet. *)
Definition small_world : AProceduralTerrainWorld float :=
  mkWorld 2 1%float 0%float 0.5%float 0%float 0%float 1 1 1 [] 0 []
          (vec 0 0 0) false false 0 None [] 0.

(** A world whose grid is two chunks high, with flat terrain (no noise, no
    height bias). *)
Definition tall_world : AProceduralTerrainWorld float :=
  mkWorld 2 1%float 0%float 0%float 0%float 0%float 1 1 2 [] 0 []
          (vec 0 0 0) false false 0 None [] 0.

(** The same world once its chunk holds the two layers. *)
Definition one_chunk_world : AProceduralTerrainWorld float :=
  with_Chunks [two_layers] small_world.

(** A platform on which every file can be written and deleted, and whose
    JSON reader returns the object that the writer was given. *)
#[export] Instance ExactFiles : FileManager float := {|
  Serialize := JsonText;
  CanSave := fun _ => true;
  CanDelete := fun _ => true
|}.

(** The engine's 2D Perlin noise on the integer lattice, where gradient
    noise is 0; the evaluation below samples it nowhere else (its
    [NoiseScale] is 1), and any other point is answered with NaN. *)
#[export] Instance NoiseOnLattice : Noise2D float := {|
  PerlinNoise2D := fun x y =>
    if PrimFloat.eqb (from_int (to_int Lt x)) x
       && PrimFloat.eqb (from_int (to_int Lt y)) y
    then 0%float else nan
|}.

(** A component as the constructor of the actor creates it. *)
Definition new_terrain : UProceduralTerrain float :=
  NewObject "ProceduralTerrain" (placed (vec 0 0 0)).

(** An actor at the end of a session, its terrain holding the two layers. *)
Definition played_actor : Actor.AProceduralTerrainActor float :=
  Actor.mkActor (Some two_layers) 2 1%float 0%float 0.5%float 0%float 0%float.

(** An actor as it is placed, with the default settings of the class. *)
Definition placed_actor : Actor.AProceduralTerrainActor float :=
  Actor.Construct (placed (vec 0 0 0)) 32 50%float
                  0x1.999999999999ap-4%float 20%float 10%float 0%float.



(** A disk that holds a record for the chunk of cell (1, 0, 0), where the
    world saves it. *)
Definition neighbour_saved : Disk float :=
  mkDisk float "Saved"
    {[ "Saved/TerrainChunks/TerrainChunks_Chunk_1_0_0.json"
       := JsonText flat_corner_record ]}.
End Examples.

(** * Theorems *)

Local Open Scope Z_scope.

(** ** Integers, arrays and loops *)

Lemma i32_id (z : Z) : INT32_MIN <= z <= INT32_MAX -> i32 z = z.
Proof.
  unfold INT32_MIN, INT32_MAX, i32. intros Hz.
  rewrite Z.mod_small by lia. lia.
Qed.

Lemma i32_range (z : Z) : INT32_MIN <= i32 z <= INT32_MAX.
Proof.
  unfold INT32_MIN, INT32_MAX, i32.
  pose proof (Z.mod_pos_bound (z + 2147483648) 4294967296 ltac:(lia)). lia.
Qed.

Lemma arr_get_Some {A} (a : list A) (i : Z) :
  0 <= i < Num a -> is_Some (arr_get a i).
Proof.
  unfold arr_get, Num. intros Hi.
  rewrite bool_decide_eq_true_2 by lia.
  apply lookup_lt_is_Some_2. lia.
Qed.

Lemma arr_set_length {A} (a a' : list A) (i : Z) (v : A) :
  arr_set a i v = Some a' -> length a' = length a.
Proof.
  unfold arr_set. case_bool_decide; [|discriminate].
  intros [= <-]. apply length_insert.
Qed.

Lemma arr_get_set_eq {A} (a a' : list A) (i : Z) (v : A) :
  arr_set a i v = Some a' -> arr_get a' i = Some v.
Proof.
  unfold arr_set, arr_get. case_bool_decide as Hi; [|discriminate].
  intros [= <-]. rewrite bool_decide_eq_true_2 by lia.
  apply list_lookup_insert_eq. lia.
Qed.

Lemma arr_get_set_ne {A} (a a' : list A) (i j : Z) (v : A) :
  arr_set a i v = Some a' -> i <> j -> arr_get a' j = arr_get a j.
Proof.
  unfold arr_set, arr_get. case_bool_decide as Hi; [|discriminate].
  intros [= <-] Hne. case_bool_decide; [|done].
  apply list_lookup_insert_ne. lia.
Qed.

Lemma for_each_app {A S} (l1 l2 : list A) (body : A -> S -> option S) (s : S) :
  for_each (l1 ++ l2) body s = s' ← for_each l1 body s; for_each l2 body s'.
Proof.
  revert s. induction l1 as [|i l1 IH]; intros s; simpl; [done|].
  destruct (body i s) as [t|]; simpl; [apply IH|done].
Qed.

(** Nested loops are one loop over the concatenated iteration space. *)
Lemma for_each_bind {A B S} (l : list A) (f : A -> list B)
    (body : B -> S -> option S) (s : S) :
  for_each (l ≫= f) body s = for_each l (fun a => for_each (f a) body) s.
Proof.
  revert s. induction l as [|a l IH]; intros s; simpl; [done|].
  rewrite for_each_app. destruct (for_each (f a) body s); simpl; [apply IH|done].
Qed.

(** A property that every iteration preserves holds after the loop. *)
Lemma for_each_inv {A S} (P : S -> Prop) (l : list A)
    (body : A -> S -> option S) (s s' : S) :
  P s ->
  (forall i t t', i ∈ l -> P t -> body i t = Some t' -> P t') ->
  for_each l body s = Some s' -> P s'.
Proof.
  revert s. induction l as [|i l IH]; intros s Hs Hstep; simpl.
  - by intros [= <-].
  - destruct (body i s) as [t|] eqn:Hb; simpl; [|discriminate].
    apply IH.
    + eapply Hstep; [left|exact Hs|exact Hb].
    + intros j u u' Hj. apply Hstep. by right.
Qed.

(** A loop whose iterations all succeed while a property holds returns. *)
Lemma for_each_total {A S} (P : S -> Prop) (l : list A)
    (body : A -> S -> option S) (s : S) :
  P s ->
  (forall i t, i ∈ l -> P t -> exists t', body i t = Some t' /\ P t') ->
  exists s', for_each l body s = Some s' /\ P s'.
Proof.
  revert s. induction l as [|i l IH]; intros s Hs Hstep; simpl.
  - by exists s.
  - destruct (Hstep i s) as (t & Hb & Ht); [left|done|].
    rewrite Hb. simpl. apply IH; [done|].
    intros j u Hj. apply Hstep. by right.
Qed.

Lemma for_each_ext {A S} (l : list A) (b1 b2 : A -> S -> option S) (s : S) :
  (forall i t, i ∈ l -> b1 i t = b2 i t) ->
  for_each l b1 s = for_each l b2 s.
Proof.
  revert s. induction l as [|i l IH]; intros s Hb; simpl; [done|].
  rewrite Hb by left. destruct (b2 i s); simpl; [|done].
  apply IH. intros j u Hj. apply Hb. by right.
Qed.

Lemma elem_of_upto (n i : Z) : i ∈ upto n <-> 0 <= i < n.
Proof. unfold upto. rewrite elem_of_seqZ. lia. Qed.

Lemma for_each_nest3 {S} (zs ys xs : list Z)
    (body : Z -> Z -> Z -> S -> option S) (s : S) :
  for_each zs (fun z => for_each ys (fun y => for_each xs (fun x => body x y z))) s
  = for_each (cells zs ys xs) (fun t => body t.1.1 t.1.2 t.2) s.
Proof.
  unfold cells. rewrite for_each_bind.
  apply for_each_ext. intros z s1 _.
  rewrite for_each_bind. apply for_each_ext. intros y s2 _.
  rewrite for_each_bind. apply for_each_ext. intros x s3 _.
  simpl. by destruct (body x y z s3).
Qed.

Lemma elem_of_cells (zs ys xs : list Z) (t : Z * Z * Z) :
  t ∈ cells zs ys xs <-> t.1.1 ∈ xs /\ t.1.2 ∈ ys /\ t.2 ∈ zs.
Proof.
  unfold cells. destruct t as [[x y] z]. simpl.
  rewrite list_elem_of_bind. split.
  - intros (z' & Hin & Hz). apply list_elem_of_bind in Hin as (y' & Hin & Hy).
    apply list_elem_of_bind in Hin as (x' & Hin & Hx).
    apply list_elem_of_singleton in Hin. by simplify_eq.
  - intros (Hx & Hy & Hz). exists z. split; [|done].
    apply list_elem_of_bind. exists y. split; [|done].
    apply list_elem_of_bind. exists x. split; [|done].
    by apply list_elem_of_singleton.
Qed.

(** A loop of array writes: when iteration [k] stores [val k] at [idx k] and
    touches no other element, the array ends up holding [val k] at [idx k]
    for every [k] whose slot no other iteration fills differently, and the
    slots that no iteration addresses are as before. *)
Lemma for_each_writes {K A} (idx : K -> Z) (val : K -> A) (n : Z)
    (body : K -> list A -> option (list A)) (l : list K) :
  (forall k D, k ∈ l -> Num D = n ->
     exists D', body k D = Some D' /\ Num D' = n
                /\ arr_get D' (idx k) = Some (val k)
                /\ forall j, j <> idx k -> arr_get D' j = arr_get D j) ->
  forall D, Num D = n ->
  exists D', for_each l body D = Some D' /\ Num D' = n
    /\ (forall k, k ∈ l ->
          (forall k', k' ∈ l -> idx k' = idx k -> val k' = val k) ->
          arr_get D' (idx k) = Some (val k))
    /\ (forall j, (forall k, k ∈ l -> idx k <> j) -> arr_get D' j = arr_get D j).
Proof.
  induction l as [|k0 l IH]; intros Hbody D HD.
  - exists D. simpl. split; [done|]. split; [done|]. split; [|done].
    intros k Hk. by apply elem_of_nil in Hk.
  - destruct (Hbody k0 D) as (D1 & Hb & HD1 & Hget & Hframe); [left|done|].
    destruct (IH (fun k D Hk => Hbody k D (list_elem_of_further _ _ _ Hk)) D1 HD1)
      as (D' & Hrun & HD' & Hval & Hrest).
    exists D'. simpl. rewrite Hb. simpl.
    split; [done|]. split; [done|]. split.
    + intros k Hk Hagree.
      destruct (decide (Exists (fun k' => idx k' = idx k) l)) as [Hex|Hno].
      * apply Exists_exists in Hex as (k' & Hk' & Hsame).
        rewrite <- Hsame, <- (Hagree k' (list_elem_of_further _ _ _ Hk') Hsame).
        apply Hval; [done|].
        intros k'' Hk'' Heq.
        rewrite (Hagree k'' (list_elem_of_further _ _ _ Hk'')) by congruence.
        symmetry. by apply Hagree; [right|].
      * assert (Hk0 : k = k0).
        { apply elem_of_cons in Hk as [->|Hk]; [done|].
          exfalso. apply Hno, Exists_exists. by exists k. }
        subst k. rewrite Hrest; [done|].
        intros k' Hk' Heq. apply Hno, Exists_exists. by exists k'.
    + intros j Hj. rewrite Hrest.
      * apply Hframe. intros ->. by apply (Hj k0); [left|].
      * intros k Hk. apply Hj. by right.
Qed.

Lemma elem_of_from_to (lo hi i : Z) : i ∈ from_to lo hi <-> lo <= i <= hi.
Proof. unfold from_to. rewrite elem_of_seqZ. lia. Qed.

Lemma NoDup_cells (zs ys xs : list Z) :
  NoDup zs -> NoDup ys -> NoDup xs -> NoDup (cells zs ys xs).
Proof.
  intros Hz Hy Hx. unfold cells.
  apply NoDup_bind; [| |exact Hz].
  - intros z1 z2 t _ _ H1 H2.
    apply list_elem_of_bind in H1 as (y1 & H1 & _).
    apply list_elem_of_bind in H1 as (x1 & H1 & _).
    apply list_elem_of_bind in H2 as (y2 & H2 & _).
    apply list_elem_of_bind in H2 as (x2 & H2 & _).
    apply list_elem_of_singleton in H1, H2. congruence.
  - intros z _. apply NoDup_bind; [| |exact Hy].
    + intros y1 y2 t _ _ H1 H2.
      apply list_elem_of_bind in H1 as (x1 & H1 & _).
      apply list_elem_of_bind in H2 as (x2 & H2 & _).
      apply list_elem_of_singleton in H1, H2. congruence.
    + intros y _. apply NoDup_bind; [| |exact Hx].
      * intros x1 x2 t _ _ H1 H2.
        apply list_elem_of_singleton in H1, H2. congruence.
      * intros x _. apply NoDup_singleton.
Qed.

(** A loop of in-place updates: iteration [k] either leaves the array alone
    ([idx k = None]) or replaces the element at [idx k] by [upd k] of it.
    When no two iterations address the same element, every addressed
    element ends up updated once and the others are as before. *)
Lemma for_each_updates {K A} (idx : K -> option Z) (upd : K -> A -> A) (n : Z)
    (body : K -> list A -> option (list A)) (l : list K) :
  NoDup l ->
  (forall k k' i, k ∈ l -> k' ∈ l -> idx k = Some i -> idx k' = Some i -> k = k') ->
  (forall k D, k ∈ l -> Num D = n ->
     match idx k with
     | None => body k D = Some D
     | Some i =>
         exists old D', arr_get D i = Some old /\ body k D = Some D'
           /\ Num D' = n /\ arr_get D' i = Some (upd k old)
           /\ forall j, j <> i -> arr_get D' j = arr_get D j
     end) ->
  forall D, Num D = n ->
  exists D', for_each l body D = Some D' /\ Num D' = n
    /\ (forall k i, k ∈ l -> idx k = Some i ->
          exists old, arr_get D i = Some old /\ arr_get D' i = Some (upd k old))
    /\ (forall j, (forall k, k ∈ l -> idx k <> Some j) ->
          arr_get D' j = arr_get D j).
Proof.
  induction l as [|k0 l IH]; intros Hnd Hinj Hbody D HD.
  - exists D. simpl. split; [done|]. split; [done|]. split; [|done].
    intros k i Hk. by apply elem_of_nil in Hk.
  - apply NoDup_cons in Hnd as [Hk0 Hnd].
    assert (Hinj' : forall k k' i, k ∈ l -> k' ∈ l ->
                      idx k = Some i -> idx k' = Some i -> k = k').
    { intros k k' i Hk Hk'. apply Hinj; by right. }
    assert (Hbody' : forall k D, k ∈ l -> Num D = n ->
              match idx k with
              | None => body k D = Some D
              | Some i =>
                  exists old D', arr_get D i = Some old /\ body k D = Some D'
                    /\ Num D' = n /\ arr_get D' i = Some (upd k old)
                    /\ forall j, j <> i -> arr_get D' j = arr_get D j
              end).
    { intros k D0 Hk. apply Hbody. by right. }
    pose proof (Hbody k0 D ltac:(left) HD) as Hstep.
    destruct (idx k0) as [i0|] eqn:Hi0.
    + destruct Hstep as (old0 & D1 & Hold0 & Hb & HD1 & Hnew & Hframe).
      destruct (IH Hnd Hinj' Hbody' D1 HD1) as (D' & Hrun & HD' & Hval & Hrest).
      exists D'. simpl. rewrite Hb. simpl.
      split; [done|]. split; [done|]. split.
      * intros k i Hk Hi. apply elem_of_cons in Hk as [->|Hk].
        -- assert (i = i0) as -> by congruence.
           exists old0. split; [done|]. rewrite Hrest; [done|].
           intros k Hk Hidx. apply Hk0.
           by rewrite <- (Hinj k k0 i0 ltac:(by right) ltac:(left) Hidx Hi0).
        -- assert (Hne : i <> i0).
           { intros ->. apply Hk0.
             by rewrite <- (Hinj k k0 i0 ltac:(by right) ltac:(left) Hi Hi0). }
           destruct (Hval k i Hk Hi) as (old & Hold & Hnew').
           exists old. split; [|done]. by rewrite <- (Hframe i Hne).
      * intros j Hj. rewrite Hrest.
        -- apply Hframe. intros ->. by apply (Hj k0); [left|].
        -- intros k Hk. apply Hj. by right.
    + destruct (IH Hnd Hinj' Hbody' D HD) as (D' & Hrun & HD' & Hval & Hrest).
      exists D'. simpl. rewrite Hstep. simpl.
      split; [done|]. split; [done|]. split.
      * intros k i Hk Hi. apply elem_of_cons in Hk as [->|Hk]; [congruence|].
        by apply Hval.
      * intros j Hj. apply Hrest. intros k Hk. apply Hj. by right.
Qed.

(** Below the bound of [int32] the loop [for (v = lo; v <= hi; v++)] runs
    its body for [lo], ..., [hi]; at the bound it has no exit. *)
Lemma for_from_to_exits {S} (lo hi : Z) (body : Z -> S -> option S) (s : S) :
  hi < INT32_MAX -> for_from_to lo hi body s = for_each (from_to lo hi) body s.
Proof.
  intros Hhi. unfold for_from_to.
  by destruct (Z.leb_spec INT32_MAX hi); [lia|].
Qed.

Lemma for_from_to_Some {S} (lo hi : Z) (body : Z -> S -> option S) (s s' : S) :
  for_from_to lo hi body s = Some s' ->
  hi < INT32_MAX /\ for_each (from_to lo hi) body s = Some s'.
Proof.
  unfold for_from_to. by destruct (Z.leb_spec INT32_MAX hi); [discriminate|].
Qed.

Lemma for_from_to_no_exit {S} (lo : Z) (body : Z -> S -> option S) (s : S) :
  for_from_to lo INT32_MAX body s = None.
Proof. reflexivity. Qed.

Lemma for_from_to_nest3 {S} (lz hz ly hy lx hx : Z)
    (body : Z -> Z -> Z -> S -> option S) (s : S) :
  hz < INT32_MAX -> hy < INT32_MAX -> hx < INT32_MAX ->
  for_from_to lz hz (fun z =>
  for_from_to ly hy (fun y =>
  for_from_to lx hx (fun x => body x y z))) s
  = for_each (cells (from_to lz hz) (from_to ly hy) (from_to lx hx))
             (fun t => body t.1.1 t.1.2 t.2) s.
Proof.
  intros Hz Hy Hx. rewrite for_from_to_exits by done.
  rewrite <- for_each_nest3. apply for_each_ext. intros z s1 _.
  rewrite for_from_to_exits by done. apply for_each_ext. intros y s2 _.
  by apply for_from_to_exits.
Qed.

(** A loop that does not return was stopped by one of its iterations. *)
Lemma for_each_None {A S} (l : list A) (body : A -> S -> option S) (s : S) :
  for_each l body s = None -> exists i t, i ∈ l /\ body i t = None.
Proof.
  revert s. induction l as [|i l IH]; intros s; simpl; [discriminate|].
  destruct (body i s) as [t|] eqn:Hb; simpl.
  - intros (j & u & Hj & Hu)%IH. exists j, u. split; [by right|done].
  - intros _. exists i, s. split; [left|done].
Qed.

(** ** The component: indices, guards and interpolation *)

Module TerrainFacts.
Import Terrain Props.
Section Facts.
Context {F : Type} {SF : Scalar F} {TB : MCTables} {NS : Noise F}.

Lemma cube_bounds (Size x y z : Z) :
  0 <= x < Size -> 0 <= y < Size -> 0 <= z < Size ->
  0 <= y * Size <= Size ^ 3 /\ 0 <= z * Size <= Size ^ 3
  /\ 0 <= z * Size * Size <= Size ^ 3
  /\ 0 <= x + y * Size + z * Size * Size < Size ^ 3.
Proof.
  intros Hx Hy Hz.
  replace (Size ^ 3) with (Size * Size * Size) by ring.
  assert (0 <= y * Size <= (Size - 1) * Size) by nia.
  assert (0 <= z * Size <= (Size - 1) * Size) by nia.
  assert (0 <= z * Size * Size <= (Size - 1) * Size * Size) by nia.
  assert (1 <= Size) by lia.
  assert (Size <= Size * Size) by nia.
  assert (Size * Size <= Size * Size * Size) by nia.
  repeat split; nia.
Qed.

(** Inside the grid, and when the cube of the size fits an [int32], the
    index arithmetic does not wrap. *)
Lemma GetIndex_exact (Size x y z : Z) :
  Size ^ 3 <= INT32_MAX ->
  0 <= x < Size -> 0 <= y < Size -> 0 <= z < Size ->
  GetIndex Size x y z = x + y * Size + z * Size * Size.
Proof.
  intros Hfit Hx Hy Hz.
  destruct (cube_bounds Size x y z Hx Hy Hz) as (B1 & B2 & B3 & B4).
  unfold INT32_MAX in Hfit. unfold GetIndex.
  assert (Hid : forall v, 0 <= v <= Size ^ 3 -> i32 v = v).
  { intros v Hv. apply i32_id. unfold INT32_MIN, INT32_MAX. lia. }
  rewrite (Hid (y * Size)) by lia.
  rewrite (Hid (z * Size)) by lia.
  rewrite (Hid (z * Size * Size)) by lia.
  rewrite (Hid (x + y * Size)) by nia.
  apply Hid. lia.
Qed.

Lemma Cubed_exact (Size : Z) :
  0 <= Size -> Size ^ 3 <= INT32_MAX -> Cubed Size = Size ^ 3.
Proof.
  intros H0 Hfit. unfold Cubed, INT32_MAX in *.
  replace (Size ^ 3) with (Size * Size * Size) in * by ring.
  assert (0 <= Size * Size) by nia.
  assert (Size * Size <= Size * Size * Size \/ Size = 0) as [Hle| ->] by nia;
    [|reflexivity].
  rewrite (i32_id (Size * Size)) by (unfold INT32_MIN, INT32_MAX; lia).
  apply i32_id. unfold INT32_MIN, INT32_MAX. nia.
Qed.

Lemma Clamp_range (v lo hi : Z) : lo <= hi -> lo <= Clamp v lo hi <= hi.
Proof.
  intros Hle. unfold Clamp.
  destruct (Z.ltb_spec v lo); [lia|].
  destruct (Z.ltb_spec v hi); lia.
Qed.

Lemma SampleDensity_in_bounds (Size : Z) (D : list F) (sx sy sz : Z) :
  1 < Size -> Num D = Size ^ 3 -> Num D <= INT32_MAX ->
  0 <= GetIndex Size (Clamp sx 0 (Size - 1)) (Clamp sy 0 (Size - 1))
                     (Clamp sz 0 (Size - 1)) < Size ^ 3
  /\ is_Some (SampleDensity Size D sx sy sz).
Proof.
  intros Hsize Hnum Hfit.
  pose proof (Clamp_range sx 0 (Size - 1) ltac:(lia)) as Hx.
  pose proof (Clamp_range sy 0 (Size - 1) ltac:(lia)) as Hy.
  pose proof (Clamp_range sz 0 (Size - 1) ltac:(lia)) as Hz.
  assert (Hin : 0 <= GetIndex Size (Clamp sx 0 (Size - 1))
                  (Clamp sy 0 (Size - 1)) (Clamp sz 0 (Size - 1)) < Size ^ 3).
  { rewrite GetIndex_exact by lia. apply cube_bounds; lia. }
  split; [exact Hin|].
  unfold SampleDensity. apply arr_get_Some. lia.
Qed.

Lemma gradient_at_Some (Size : Z) (Scale : F) (D : list F) (x y z : Z) :
  1 < Size -> Num D = Size ^ 3 -> Num D <= INT32_MAX ->
  is_Some (gradient_at Size Scale D x y z).
Proof.
  intros Hsize Hnum Hfit. unfold gradient_at.
  destruct (SampleDensity_in_bounds Size D (x + 1) y z) as [_ [? ->]]; [done..|].
  destruct (SampleDensity_in_bounds Size D (x - 1) y z) as [_ [? ->]]; [done..|].
  destruct (SampleDensity_in_bounds Size D x (y + 1) z) as [_ [? ->]]; [done..|].
  destruct (SampleDensity_in_bounds Size D x (y - 1) z) as [_ [? ->]]; [done..|].
  destruct (SampleDensity_in_bounds Size D x y (z + 1)) as [_ [? ->]]; [done..|].
  destruct (SampleDensity_in_bounds Size D x y (z - 1)) as [_ [? ->]]; [done..|].
  simpl. eauto.
Qed.

(** The gradient pass returns, with one gradient per sample. *)
Lemma ComputeGradients_total (Size : Z) (Scale : F) (D : list F) :
  1 < Size -> Num D = Size ^ 3 -> Num D <= INT32_MAX ->
  exists G, ComputeGradients Size Scale D = Some G /\ Num G = Size ^ 3.
Proof.
  intros Hsize Hnum Hfit. unfold ComputeGradients.
  set (P := fun G : list (FVector F) => Num G = Size ^ 3).
  apply (for_each_total P).
  { unfold P, Num in *. rewrite length_replicate. exact Hnum. }
  intros z G1 Hz%elem_of_upto HG1.
  apply (for_each_total P); [exact HG1|].
  intros y G2 Hy%elem_of_upto HG2.
  apply (for_each_total P); [exact HG2|].
  intros x G3 Hx%elem_of_upto HG3.
  destruct (gradient_at_Some Size Scale D x y z) as [g ->]; [done..|]. simpl.
  unfold arr_set. rewrite bool_decide_eq_true_2.
  - eexists. split; [reflexivity|]. unfold P, Num in *.
    rewrite length_insert. exact HG3.
  - rewrite GetIndex_exact by lia. unfold P, Num in HG3. rewrite HG3.
    apply cube_bounds; lia.
Qed.

Lemma corner_offset_range (o : Z * Z * Z) :
  o ∈ CornerOffsets ->
  0 <= o.1.1 <= 1 /\ 0 <= o.1.2 <= 1 /\ 0 <= o.2 <= 1.
Proof.
  unfold CornerOffsets. rewrite !elem_of_cons, elem_of_nil.
  intros [->|[->|[->|[->|[->|[->|[->|[->|[]]]]]]]]]; simpl; lia.
Qed.

Lemma fetch_corner_in_bounds (Size : Z) (Scale : F) (D : list F)
    (G : list (FVector F)) (x y z : Z) (o : Z * Z * Z) :
  1 < Size -> Num D = Size ^ 3 -> Num D <= INT32_MAX -> Num G = Size ^ 3 ->
  0 <= x < Size - 1 -> 0 <= y < Size - 1 -> 0 <= z < Size - 1 ->
  o ∈ CornerOffsets ->
  0 <= GetIndex Size (x + o.1.1) (y + o.1.2) (z + o.2) < Size ^ 3
  /\ is_Some (fetch_corner Size Scale D G x y z o).
Proof.
  intros Hsize Hnum Hfit HG Hx Hy Hz Ho.
  destruct (corner_offset_range o Ho) as (Hdx & Hdy & Hdz).
  destruct o as [[dx dy] dz]; simpl in *.
  assert (Hin : 0 <= GetIndex Size (x + dx) (y + dy) (z + dz) < Size ^ 3).
  { rewrite GetIndex_exact by lia. apply cube_bounds; lia. }
  split; [exact Hin|].
  destruct (arr_get_Some D (GetIndex Size (x + dx) (y + dy) (z + dz)))
    as [v ->]; [lia|].
  destruct (arr_get_Some G (GetIndex Size (x + dx) (y + dy) (z + dz)))
    as [g ->]; [lia|].
  simpl. eauto.
Qed.

(** The cube pass stops only in the table lookups of a cube whose eight
    corners it has read. *)
Lemma march_cubes_None (Size : Z) (Scale IsoLevel : F) (D : list F)
    (G : list (FVector F)) :
  1 < Size -> Num D = Size ^ 3 -> Num D <= INT32_MAX -> Num G = Size ^ 3 ->
  march_cubes Size Scale IsoLevel D G = None ->
  exists x y z cs m,
    0 <= x < Size - 1 /\ 0 <= y < Size - 1 /\ 0 <= z < Size - 1
    /\ mapM (fetch_corner Size Scale D G x y z) CornerOffsets = Some cs
    /\ triangulate IsoLevel cs m = None.
Proof.
  intros Hsize Hnum Hfit HG Hrun. unfold march_cubes in Hrun.
  apply for_each_None in Hrun as (z & m1 & Hz%elem_of_upto & Hrun).
  apply for_each_None in Hrun as (y & m2 & Hy%elem_of_upto & Hrun).
  apply for_each_None in Hrun as (x & m & Hx%elem_of_upto & Hrun).
  unfold march_cube in Hrun.
  destruct (mapM_is_Some_2 (fetch_corner Size Scale D G x y z) CornerOffsets)
    as [cs Hcs].
  { apply Forall_forall. intros o Ho.
    by apply (fetch_corner_in_bounds Size Scale D G x y z o). }
  rewrite Hcs in Hrun. simpl in Hrun. by exists x, y, z, cs, m.
Qed.

(** C9.  Let the size be above 1 and the number of samples be its cube.
    Either that count exceeds what an [int32] holds, and then the guard of
    the rebuild stops it before any read; or the guard lets the rebuild
    proceed and every read of the density array is in range: the clamped
    reads of the gradient pass, for any requested coordinates, and the
    eight corner reads of every unit cube.  In the second case the gradient
    pass returns one gradient per sample, so the corner reads of the
    gradient array are in range too, and the pass over the [(size - 1)^3]
    unit cubes, as the rebuild runs it, is never stopped by a read: either
    it returns the mesh that the rebuild installs, or it stops in the table
    lookups of a cube whose eight corners have been read. *)
Theorem C9_rebuild_reads_in_bounds (c : UProceduralTerrain F) :
  1 < CurrentSize c ->
  Num (Density c) = CurrentSize c ^ 3 ->
  (INT32_MAX < Num (Density c)
   /\ RebuildMeshFromCurrentDensity c
      = Some (ClearAllMeshSections (count_rebuild c)))
  \/ (inconsistent c = false
      /\ (forall sx sy sz,
            0 <= GetIndex (CurrentSize c) (Clamp sx 0 (CurrentSize c - 1))
                          (Clamp sy 0 (CurrentSize c - 1))
                          (Clamp sz 0 (CurrentSize c - 1)) < Num (Density c)
            /\ is_Some (SampleDensity (CurrentSize c) (Density c) sx sy sz))
      /\ (exists G,
            ComputeGradients (CurrentSize c) (CurrentScale c) (Density c)
            = Some G
            /\ Num G = Num (Density c)
            /\ (forall x y z o,
                  0 <= x < CurrentSize c - 1 -> 0 <= y < CurrentSize c - 1 ->
                  0 <= z < CurrentSize c - 1 -> o ∈ CornerOffsets ->
                  0 <= GetIndex (CurrentSize c) (x + o.1.1) (y + o.1.2)
                                (z + o.2) < Num (Density c)
                  /\ is_Some (fetch_corner (CurrentSize c) (CurrentScale c)
                                           (Density c) G x y z o))
            /\ match march_cubes (CurrentSize c) (CurrentScale c)
                                 (CurrentIsoLevel c) (Density c) G with
               | Some m =>
                   RebuildMeshFromCurrentDensity c
                   = Some (CreateMeshSection m
                             (ClearAllMeshSections (count_rebuild c)))
               | None =>
                   RebuildMeshFromCurrentDensity c = None
                   /\ exists x y z cs m,
                        0 <= x < CurrentSize c - 1
                        /\ 0 <= y < CurrentSize c - 1
                        /\ 0 <= z < CurrentSize c - 1
                        /\ mapM (fetch_corner (CurrentSize c) (CurrentScale c)
                                              (Density c) G x y z)
                                CornerOffsets = Some cs
                        /\ triangulate (CurrentIsoLevel c) cs m = None
               end)).
Proof.
  intros Hsize Hnum.
  destruct (Z_le_gt_dec (Num (Density c)) INT32_MAX) as [Hfit|Hbig].
  - right.
    assert (Hok : inconsistent c = false).
    { unfold inconsistent. rewrite Cubed_exact by lia.
      destruct (Z.leb_spec (CurrentSize c) 1); [lia|]. simpl.
      apply negb_false_iff, Z.eqb_eq, Hnum. }
    split; [exact Hok|]. split.
    + intros sx sy sz. rewrite Hnum. by apply SampleDensity_in_bounds.
    + destruct (ComputeGradients_total (CurrentSize c) (CurrentScale c)
                  (Density c)) as (G & HG & HnG); [done..|].
      exists G. split; [exact HG|]. split; [lia|]. split.
      * intros x y z o Hx Hy Hz Ho. rewrite Hnum.
        by apply fetch_corner_in_bounds.
      * assert (Hrun : RebuildMeshFromCurrentDensity c
                       = m ← march_cubes (CurrentSize c) (CurrentScale c)
                               (CurrentIsoLevel c) (Density c) G;
                         Some (CreateMeshSection m
                                 (ClearAllMeshSections (count_rebuild c)))).
        { unfold RebuildMeshFromCurrentDensity.
          change (inconsistent (count_rebuild c)) with (inconsistent c).
          rewrite Hok. simpl. by rewrite HG. }
        rewrite Hrun.
        destruct (march_cubes _ _ _ _ G) as [m|] eqn:Hm; simpl; [done|].
        split; [done|]. by apply march_cubes_None.
  - left. split; [lia|].
    unfold RebuildMeshFromCurrentDensity.
    assert (Hguard : inconsistent (count_rebuild c) = true); [|by rewrite Hguard].
    unfold inconsistent. simpl. apply orb_true_iff. right.
    apply negb_true_iff, Z.eqb_neq.
    pose proof (i32_range (i32 (CurrentSize c * CurrentSize c) * CurrentSize c)).
    unfold Cubed. lia.
Qed.

(** C10.  On the degenerate branch (no samples, a size that is not positive,
    or a scale that is nearly zero) [DigSphere] returns with the component
    exactly as it was: same density, same mesh section, no rebuild
    counted. *)
Theorem C10_DigSphere_degenerate_unchanged (c : UProceduralTerrain F)
    (WorldPosition : FVector F) (Radius Strength : F) :
  Density c = [] \/ CurrentSize c <= 0
    \/ IsNearlyZero (CurrentScale c) = true ->
  DigSphere WorldPosition Radius Strength c = Some c.
Proof.
  intros Hdeg. unfold DigSphere.
  assert (Hd : degenerate c = true); [|by rewrite Hd].
  unfold degenerate. destruct Hdeg as [Hempty|[Hsize|Hscale]].
  - rewrite Hempty. reflexivity.
  - apply orb_true_iff. left. apply orb_true_iff. right.
    by apply Z.leb_le.
  - rewrite Hscale. apply orb_true_r.
Qed.

(** C7 (amended).  The position that [VertexInterp] returns: corner 1
    unmodified when the iso level is nearly the value at corner 1; else
    corner 2 when it is nearly the value at corner 2; else corner 1 when the
    two values are nearly equal; and only otherwise
    [p1 + mu * (p2 - p1)] with [mu = (IsoLevel - valp1) / (valp2 - valp1)].
    So the division is evaluated only when [|valp1 - valp2|] is not nearly
    zero. *)
Theorem C7_VertexInterp_position (IsoLevel : F) (p1 p2 : FVector F)
    (valp1 valp2 : F) (n1 n2 : FVector F) :
  let near := fun a b : F => (fabs (a - b) <? KINDA_SMALL_NUMBER)%F in
  let r := Position (VertexInterp IsoLevel p1 p2 valp1 valp2 n1 n2) in
  (near IsoLevel valp1 = true -> r = p1)
  /\ (near IsoLevel valp1 = false -> near IsoLevel valp2 = true -> r = p2)
  /\ (near IsoLevel valp1 = false -> near IsoLevel valp2 = false ->
      near valp1 valp2 = true -> r = p1)
  /\ (near IsoLevel valp1 = false -> near IsoLevel valp2 = false ->
      near valp1 valp2 = false ->
      r = vadd p1 (vscale (vsub p2 p1)
                          ((IsoLevel - valp1) / (valp2 - valp1))%F)).
Proof.
  cbv zeta. unfold VertexInterp.
  destruct (fabs (IsoLevel - valp1) <? KINDA_SMALL_NUMBER)%F eqn:E1.
  { repeat split; intros; try discriminate; reflexivity. }
  destruct (fabs (IsoLevel - valp2) <? KINDA_SMALL_NUMBER)%F eqn:E2.
  { repeat split; intros; try discriminate; reflexivity. }
  destruct (fabs (valp1 - valp2) <? KINDA_SMALL_NUMBER)%F eqn:E3.
  { repeat split; intros; try discriminate; reflexivity. }
  repeat split; intros; try discriminate.
  destruct (Normalize _) as [ok N]. reflexivity.
Qed.

Lemma SetNum_Some {A} (d : A) (n : Z) (a : list A) :
  0 <= n -> exists a', SetNum d n a = Some a' /\ Num a' = n.
Proof.
  intros Hn. unfold SetNum. rewrite bool_decide_eq_true_2 by done.
  eexists. split; [reflexivity|]. unfold Num.
  rewrite length_app, length_take, length_replicate. lia.
Qed.

Lemma index_injective (Size x y z x' y' z' : Z) :
  0 <= x < Size -> 0 <= y < Size -> 0 <= z < Size ->
  0 <= x' < Size -> 0 <= y' < Size -> 0 <= z' < Size ->
  x + y * Size + z * Size * Size = x' + y' * Size + z' * Size * Size ->
  x = x' /\ y = y' /\ z = z'.
Proof.
  intros Hx Hy Hz Hx' Hy' Hz' Heq.
  assert (Hxx : x = x').
  { assert (x - x' = Size * ((y' - y) + Size * (z' - z))) as Hk by lia.
    destruct (Z.lt_trichotomy ((y' - y) + Size * (z' - z)) 0) as [Hlt|[H0|Hgt]];
      nia. }
  subst x'.
  assert (Hyy : y = y').
  { assert (Size * (y - y') = Size * (Size * (z' - z))) as Hk by lia.
    assert (y - y' = Size * (z' - z)) as Hk' by nia.
    destruct (Z.lt_trichotomy (z' - z) 0) as [Hlt|[H0|Hgt]]; nia. }
  subst y'. repeat split. nia.
Qed.

(** One iteration of the populate loop stores its value at its cell and
    nowhere else. *)
Lemma populate_step (Size : Z) (v : F) (x y z : Z) (D : list F) :
  Size ^ 3 <= INT32_MAX ->
  0 <= x < Size -> 0 <= y < Size -> 0 <= z < Size -> Num D = Size ^ 3 ->
  exists D',
    (let Index := GetIndex Size x y z in
     if negb ((0 <=? Index) && (Index <? Num D)) then None
     else D ← arr_set D Index v; arr_set D (GetIndex Size x y z) v) = Some D'
    /\ Num D' = Size ^ 3
    /\ arr_get D' (x + y * Size + z * Size * Size) = Some v
    /\ forall j, j <> x + y * Size + z * Size * Size ->
                 arr_get D' j = arr_get D j.
Proof.
  intros Hfit Hx Hy Hz HD. cbv zeta.
  rewrite GetIndex_exact by done.
  destruct (cube_bounds Size x y z Hx Hy Hz) as (_ & _ & _ & Hin).
  set (i := x + y * Size + z * Size * Size) in *.
  rewrite (proj2 (Z.leb_le 0 i)) by lia.
  rewrite (proj2 (Z.ltb_lt i (Num D))) by lia. simpl.
  destruct (arr_set D i v) as [D1|] eqn:E1.
  2:{ unfold arr_set in E1. rewrite bool_decide_eq_true_2 in E1; [done|].
      unfold Num in HD. lia. }
  simpl. pose proof (arr_set_length _ _ _ _ E1) as HL1.
  destruct (arr_set D1 i v) as [D2|] eqn:E2.
  2:{ unfold arr_set in E2. rewrite bool_decide_eq_true_2 in E2; [done|].
      unfold Num in HD. lia. }
  pose proof (arr_set_length _ _ _ _ E2) as HL2.
  exists D2. split; [done|]. split; [unfold Num in *; lia|].
  split; [by eapply arr_get_set_eq|].
  intros j Hj. rewrite (arr_get_set_ne _ _ _ _ _ E2) by done.
  by apply (arr_get_set_ne _ _ _ _ _ E1).
Qed.

(** C6 (amended).  [BuildDensityField] returns for every positive size
    whose cube fits an [int32]; it stores the size and the scale, leaves
    [Size ^ 3] samples, and the sample of every cell [(x, y, z)] of the grid
    is [(z - HeightBias) + noise3D(worldPos * NoiseScale) * NoiseStrength]
    with [worldPos = origin + (x, y, z) * Scale], where the height term uses
    the grid index [z] of the cell. *)
Theorem C6_BuildDensityField_cells (Size : Z)
    (Scale NoiseScale HeightBias NoiseStrength : F)
    (c : UProceduralTerrain F) :
  0 < Size -> Size ^ 3 <= INT32_MAX ->
  exists c',
    BuildDensityField Size Scale NoiseScale HeightBias NoiseStrength c
    = Some c'
    /\ CurrentSize c' = Size /\ CurrentScale c' = Scale
    /\ Num (Density c') = Size ^ 3
    /\ forall x y z,
         0 <= x < Size -> 0 <= y < Size -> 0 <= z < Size ->
         arr_get (Density c') (x + y * Size + z * Size * Size)
         = Some (Spec.grid_density (GetComponentLocation c) Scale NoiseScale
                                   HeightBias NoiseStrength x y z).
Proof.
  intros Hpos Hfit. unfold BuildDensityField.
  assert (Hcube : 0 <= Size ^ 3) by (apply Z.pow_nonneg; lia).
  rewrite Cubed_exact by lia.
  destruct (SetNum_Some fzero (Size ^ 3)
              (Density (with_params Size Scale (CurrentIsoLevel c) c)))
    as (D0 & HS & HD0); [done|].
  rewrite HS. simpl.
  rewrite (proj2 (Z.eqb_eq _ _) HD0). simpl.
  rewrite (proj2 (Z.ltb_lt _ _) Hpos). simpl.
  rewrite for_each_nest3.
  match goal with
  | |- context [for_each ?l ?b D0] =>
      destruct (for_each_writes
                  (fun t : Z * Z * Z => t.1.1 + t.1.2 * Size + t.2 * Size * Size)
                  (fun t : Z * Z * Z =>
                     Spec.grid_density (GetComponentLocation c) Scale
                       NoiseScale HeightBias NoiseStrength t.1.1 t.1.2 t.2)
                  (Size ^ 3) b l) with (D := D0)
        as (D' & Hrun & HD' & Hval & _)
  end.
  - intros [[x y] z] D Hin HD. apply elem_of_cells in Hin as (Hx & Hy & Hz).
    simpl in Hx, Hy, Hz. apply elem_of_upto in Hx, Hy, Hz. simpl.
    by apply populate_step.
  - exact HD0.
  - rewrite Hrun. simpl. eexists. split; [reflexivity|]. simpl.
    split; [done|]. split; [done|]. split; [done|].
    intros x y z Hx Hy Hz.
    apply (Hval (x, y, z)).
    + apply elem_of_cells. simpl. by rewrite !elem_of_upto.
    + intros [[x' y'] z'] Hin Heq. simpl in Heq.
      apply elem_of_cells in Hin as (Hx' & Hy' & Hz'). simpl in Hx', Hy', Hz'.
      apply elem_of_upto in Hx', Hy', Hz'.
      destruct (index_injective Size x' y' z' x y z) as (-> & -> & ->); done.
Qed.

(** *** Loading a record *)

Lemma Rebuild_counts (c c' : UProceduralTerrain F) :
  RebuildMeshFromCurrentDensity c = Some c' -> Rebuilds c' = S (Rebuilds c).
Proof.
  unfold RebuildMeshFromCurrentDensity.
  destruct (inconsistent (count_rebuild c)); [by intros [= <-]|].
  destruct (ComputeGradients _ _ _) as [G|]; simpl; [|discriminate].
  destruct (march_cubes _ _ _ _ _) as [m|]; simpl; [|discriminate].
  by intros [= <-].
Qed.

(** [SetNum] followed by the copy loop leaves exactly the numbers of the
    record's array. *)
Lemma load_array (arr : list (FJsonValue F)) (D : list F) :
  (D0 ← SetNum fzero (Num arr) D;
   for_each (upto (Num arr)) (fun i D =>
     v ← arr_get arr i; arr_set D i (AsNumber v)) D0)
  = Some (AsNumber <$> arr).
Proof.
  destruct (SetNum_Some fzero (Num arr) D) as (D0 & -> & HD0);
    [unfold Num; lia|]. simpl.
  destruct (for_each_writes
              (fun i : Z => i)
              (fun i : Z => from_option AsNumber fzero (arr_get arr i))
              (Num arr)
              (fun i D => v ← arr_get arr i; arr_set D i (AsNumber v))
              (upto (Num arr))) with (D := D0)
    as (D' & -> & HD' & Hval & _); [|exact HD0|].
  - intros i Di Hi%elem_of_upto HD.
    destruct (arr_get_Some arr i Hi) as [v Hv]. rewrite Hv. simpl.
    destruct (arr_set Di i (AsNumber v)) as [D1|] eqn:E1.
    2:{ unfold arr_set in E1. rewrite bool_decide_eq_true_2 in E1; [done|].
        unfold Num in *. lia. }
    exists D1. split; [done|].
    split; [unfold Num in *; by rewrite (arr_set_length _ _ _ _ E1)|].
    split; [by eapply arr_get_set_eq|].
    intros j Hj. by apply (arr_get_set_ne _ _ _ _ _ E1).
  - f_equal. apply list_eq. intros k.
    destruct (decide (Z.of_nat k < Num arr)) as [Hk|Hk].
    + specialize (Hval (Z.of_nat k)). unfold arr_get in Hval.
      rewrite bool_decide_eq_true_2, Nat2Z.id in Hval by lia.
      rewrite Hval;
        [|apply elem_of_upto; lia
         |intros k' _ ->; by rewrite bool_decide_eq_true_2, Nat2Z.id by lia].
      rewrite list_lookup_fmap.
      destruct (lookup_lt_is_Some_2 arr k) as [v ->]; [unfold Num in Hk; lia|].
      reflexivity.
    + rewrite !lookup_ge_None_2; [done| |].
      * rewrite length_fmap. unfold Num in Hk. lia.
      * unfold Num in HD', Hk. lia.
Qed.

(** Every load whose record parses and holds a [Density] array copies the
    record into the component and then calls the rebuild. *)
Lemma LoadDensityFromJSON_parsed (disk : Disk F) (FileName : string)
    (c : UProceduralTerrain F) (obj : gmap string (FJsonValue F))
    (arr : list (FJsonValue F)) :
  Files disk !! path_join (ProjectSavedDir disk) FileName = Some (JsonText obj) ->
  TryGetArrayField obj "Density" = Some arr ->
  LoadDensityFromJSON disk FileName c
  = RebuildMeshFromCurrentDensity
      (with_Density (AsNumber <$> arr)
         (with_params (GetIntegerField obj "Size") (GetNumberField obj "Scale")
                      (GetNumberField obj "IsoLevel") c)).
Proof.
  intros Hfile Harr. unfold LoadDensityFromJSON. rewrite Hfile, Harr.
  pose proof (load_array arr (Density c)) as Hload.
  simpl in *. destruct (SetNum fzero (Num arr) (Density c)) as [D0|];
    simpl in *; [|discriminate].
  by rewrite Hload.
Qed.

(** C1 (amended).  When the record parses and holds a density array whose
    length is not the cube of the declared size (or the declared size is at
    most 1), the load is not rolled back: the stored size, scale and iso
    level become those of the record, the density array becomes the
    record's array, the rebuild is called (once) and its guard clears the
    mesh. *)
Theorem C1_load_mismatch_overwrites (disk : Disk F) (FileName : string)
    (c : UProceduralTerrain F) (obj : gmap string (FJsonValue F))
    (arr : list (FJsonValue F)) :
  Files disk !! path_join (ProjectSavedDir disk) FileName = Some (JsonText obj) ->
  TryGetArrayField obj "Density" = Some arr ->
  GetIntegerField obj "Size" <= 1
    \/ Num arr <> Cubed (GetIntegerField obj "Size") ->
  LoadDensityFromJSON disk FileName c
  = Some (mkTerrain (Name c) (ComponentToWorld c) (ChunkCoords c)
                    (GetIntegerField obj "Size") (GetNumberField obj "Scale")
                    (GetNumberField obj "IsoLevel") (AsNumber <$> arr)
                    None (S (Rebuilds c))).
Proof.
  intros Hfile Harr Hbad.
  rewrite (LoadDensityFromJSON_parsed disk FileName c obj arr Hfile Harr).
  unfold RebuildMeshFromCurrentDensity.
  assert (Hguard : inconsistent
            (count_rebuild
               (with_Density (AsNumber <$> arr)
                  (with_params (GetIntegerField obj "Size")
                     (GetNumberField obj "Scale")
                     (GetNumberField obj "IsoLevel") c))) = true).
  { unfold inconsistent. simpl. apply orb_true_iff.
    destruct Hbad as [Hsmall|Hlen]; [left; by apply Z.leb_le|right].
    apply negb_true_iff, Z.eqb_neq. unfold Num in *.
    by rewrite length_fmap. }
  by rewrite Hguard.
Qed.

(** *** The normals of a rebuilt mesh *)

Lemma normals_by_triangle_app (vs ns vs' ns' : list (FVector F)) :
  Spec.normals_by_triangle vs ns ->
  Spec.normals_by_triangle vs' ns' ->
  Spec.normals_by_triangle (vs ++ vs') (ns ++ ns').
Proof.
  intros Hfirst Hthen. induction Hfirst as [|v0 v1 v2 n0 n1 n2 vs ns ? ? ? ? IH].
  - exact Hthen.
  - simpl. by constructor.
Qed.

Lemma AddNormal_spec (FaceNormal Candidate : FVector F) (Ns : list (FVector F)) :
  exists n,
    AddNormal FaceNormal Candidate Ns = Ns ++ [n]
    /\ ((exists Candidate', Normalize Candidate' = (true, n)) \/ n = FaceNormal).
Proof.
  unfold AddNormal. destruct (Normalize Candidate) as [ok R] eqn:E.
  destruct ok.
  - exists R. split; [done|]. left. by exists Candidate.
  - exists FaceNormal. split; [done|]. by right.
Qed.

Lemma emit_triangle_normals (r0 r1 r2 : FVertexInterpResult F) (m : MeshData F) :
  Spec.normals_by_triangle (Vertices m) (Normals m) ->
  Spec.normals_by_triangle (Vertices (emit_triangle r0 r1 r2 m))
                           (Normals (emit_triangle r0 r1 r2 m)).
Proof.
  intros Hm. unfold emit_triangle. simpl.
  set (face := GetSafeNormal _).
  destruct (AddNormal_spec face (Normal r0) (Normals m)) as (n0 & -> & H0).
  destruct (AddNormal_spec face (Normal r1) (Normals m ++ [n0]))
    as (n1 & -> & H1).
  destruct (AddNormal_spec face (Normal r2) ((Normals m ++ [n0]) ++ [n1]))
    as (n2 & -> & H2).
  rewrite <- !app_assoc. simpl.
  apply normals_by_triangle_app; [exact Hm|].
  constructor; [exact H0|exact H1|exact H2|constructor].
Qed.

Lemma emit_triangles_normals (n : nat) :
  forall (row : list Z) (vertList : list (option (FVertexInterpResult F)))
         (m m' : MeshData F),
  (length row <= n)%nat ->
  Spec.normals_by_triangle (Vertices m) (Normals m) ->
  emit_triangles row vertList m = Some m' ->
  Spec.normals_by_triangle (Vertices m') (Normals m').
Proof.
  induction n as [|n IH]; intros row vertList m m' Hlen Hm.
  - destruct row; [discriminate|simpl in Hlen; lia].
  - destruct row as [|e0 [|e1 [|e2 row']]]; simpl; try discriminate.
    + destruct (e0 =? -1); [by intros [= <-]|discriminate].
    + destruct (e0 =? -1); [by intros [= <-]|discriminate].
    + destruct (e0 =? -1); [by intros [= <-]|].
      destruct (vert_at vertList e0) as [r0|]; simpl; [|discriminate].
      destruct (vert_at vertList e1) as [r1|]; simpl; [|discriminate].
      destruct (vert_at vertList e2) as [r2|]; simpl; [|discriminate].
      apply IH; [simpl in Hlen; lia|]. by apply emit_triangle_normals.
Qed.

Lemma march_cube_normals (Size : Z) (Scale IsoLevel : F) (D : list F)
    (G : list (FVector F)) (x y z : Z) (m m' : MeshData F) :
  Spec.normals_by_triangle (Vertices m) (Normals m) ->
  march_cube Size Scale IsoLevel D G x y z m = Some m' ->
  Spec.normals_by_triangle (Vertices m') (Normals m').
Proof.
  intros Hm. unfold march_cube.
  destruct (mapM _ CornerOffsets) as [cs|]; simpl; [|discriminate].
  destruct (edgeTable (cubeIndex_of IsoLevel cs) =? 0); [by intros [= <-]|].
  destruct (make_vertList _ _ _) as [vl|]; simpl; [|discriminate].
  by apply (emit_triangles_normals (length (triTable (cubeIndex_of IsoLevel cs)))).
Qed.

Lemma march_cubes_normals (Size : Z) (Scale IsoLevel : F) (D : list F)
    (G : list (FVector F)) (m : MeshData F) :
  march_cubes Size Scale IsoLevel D G = Some m ->
  Spec.normals_by_triangle (Vertices m) (Normals m).
Proof.
  unfold march_cubes.
  set (P := fun m : MeshData F =>
              Spec.normals_by_triangle (Vertices m) (Normals m)).
  apply (for_each_inv P); [constructor|].
  intros z m1 m1' _ Hm1. apply (for_each_inv P); [done|].
  intros y m2 m2' _ Hm2. apply (for_each_inv P); [done|].
  intros x m3 m3' _ Hm3. by apply march_cube_normals.
Qed.

(** C2 (amended).  In every mesh that the rebuild produces, vertices and
    normals come three by three, and the normal of each vertex is either
    the outcome of a successful [Normalize] of a candidate, or the flat face
    normal of the triangle the vertex belongs to, computed from the three
    assembled vertices.  A blend of the two corner gradients that cannot be
    normalised is replaced by the up vector inside [VertexInterp]; the face
    normal is what [AddNormal] stores when the candidate it receives cannot
    be normalised. *)
Theorem C2_emitted_normals (c c' : UProceduralTerrain F) (m : MeshData F) :
  RebuildMeshFromCurrentDensity c = Some c' ->
  MeshSection0 c' = Some m ->
  Spec.normals_by_triangle (Vertices m) (Normals m)
  /\ (forall IsoLevel p1 p2 valp1 valp2 n1 n2,
        (fabs (IsoLevel - valp1) <? KINDA_SMALL_NUMBER)%F = false ->
        (fabs (IsoLevel - valp2) <? KINDA_SMALL_NUMBER)%F = false ->
        (fabs (valp1 - valp2) <? KINDA_SMALL_NUMBER)%F = false ->
        (Normalize (vadd n1 (vscale (vsub n2 n1)
                      ((IsoLevel - valp1) / (valp2 - valp1))%F))).1 = false ->
        Normal (VertexInterp IsoLevel p1 p2 valp1 valp2 n1 n2) = UpVector)
  /\ (forall FaceNormal Candidate Ns,
        (Normalize Candidate).1 = false ->
        AddNormal FaceNormal Candidate Ns = Ns ++ [FaceNormal]).
Proof.
  intros Hrun Hmesh. split; [|split].
  - revert Hrun. unfold RebuildMeshFromCurrentDensity.
    destruct (inconsistent (count_rebuild c)).
    { intros [= <-]. simpl in Hmesh. discriminate. }
    destruct (ComputeGradients _ _ _) as [G|]; simpl; [|discriminate].
    destruct (march_cubes _ _ _ _ _) as [m0|] eqn:Hm0; simpl; [|discriminate].
    intros [= <-]. simpl in Hmesh. injection Hmesh as <-.
    by eapply march_cubes_normals.
  - intros IsoLevel p1 p2 valp1 valp2 n1 n2 E1 E2 E3 Hfail.
    unfold VertexInterp. rewrite E1, E2, E3.
    destruct (Normalize _) as [ok N]. simpl in Hfail. by subst ok.
  - intros FaceNormal Candidate Ns Hfail. unfold AddNormal.
    destruct (Normalize Candidate) as [ok R]. simpl in Hfail. by subst ok.
Qed.
End Facts.
End TerrainFacts.

(** ** The world: streaming, generation and digging *)

Module WorldFacts.
Import Terrain World Props DigSpec TerrainFacts.
Section Facts.
Context {F : Type} {SF : Scalar F} {TB : MCTables} {NS : Noise F}.

(** The streaming update changes nothing but the recorded centre and the
    list of chunks. *)
Lemma UpdateStreamedChunks_shape (disk : Disk F) (PlayerPos : FVector F)
    (w w1 : AProceduralTerrainWorld F) :
  UpdateStreamedChunks disk (Some PlayerPos) w = Some w1 ->
  w1 = w
  \/ exists cs, w1 = with_Chunks cs
                      (with_LastPlayerChunkCenter (PlayerChunkCenter w PlayerPos) w).
Proof.
  unfold UpdateStreamedChunks.
  destruct (Dist _ _ <? _)%F; [intros [= <-]; by left|].
  destruct (for_from_to _ _ _ []) as [Desired|]; simpl; [|discriminate].
  destruct (for_each (rev _) _ _) as [cs1|]; simpl; [|discriminate].
  destruct (for_each Desired _ cs1) as [cs2|]; simpl; [|discriminate].
  intros [= <-]. right. by exists cs2.
Qed.

(** C3 (amended).  When the observer is in the same chunk cell at two
    consecutive calls (the same [floor(pos / chunkWorldSize)] on both
    horizontal axes), the second call changes nothing: no chunk is created
    or destroyed.  The third premise says that the recorded chunk origin is
    within half a chunk width of itself, which holds whenever it is finite
    and the chunk width is positive. *)
Theorem C3_same_cell_no_update (disk : Disk F) (pos1 pos2 : FVector F)
    (w w1 : AProceduralTerrainWorld F) :
  UpdateStreamedChunks disk (Some pos1) w = Some w1 ->
  PlayerChunkCoords w pos1 = PlayerChunkCoords w pos2 ->
  (Dist (PlayerChunkCenter w pos1) (PlayerChunkCenter w pos1)
   <? vx (ChunkWorldSize w) * fhalf)%F = true ->
  UpdateStreamedChunks disk (Some pos2) w1 = Some w1.
Proof.
  intros Hfirst Hcell Hself.
  assert (Hcenter : PlayerChunkCenter w pos2 = PlayerChunkCenter w pos1).
  { unfold PlayerChunkCenter. by rewrite Hcell. }
  destruct (UpdateStreamedChunks_shape disk pos1 w w1 Hfirst) as [->|[cs ->]].
  - (* the first call left the world as it was: the second call computes
       the same thing *)
    unfold UpdateStreamedChunks in Hfirst |- *.
    rewrite Hcenter, <- Hcell. exact Hfirst.
  - (* the first call recorded the centre of the cell *)
    unfold UpdateStreamedChunks.
    change (PlayerChunkCenter (with_Chunks cs _) pos2)
      with (PlayerChunkCenter w pos2).
    change (ChunkWorldSize (with_Chunks cs _)) with (ChunkWorldSize w).
    change (LastPlayerChunkCenter (with_Chunks cs _))
      with (PlayerChunkCenter w pos1).
    by rewrite Hcenter, Hself.
Qed.

(** The guard that [OnConstruction] has: a call that arrives while the
    world is generating changes nothing. *)
Lemma OnConstruction_while_generating (disk : Disk F)
    (w : AProceduralTerrainWorld F) :
  bIsGenerating w = true -> OnConstruction disk w = Some w.
Proof. intros Hgen. unfold OnConstruction. by rewrite Hgen. Qed.

(** [BeginPlay] has no such guard: when the file of some chunk is missing it
    queues one more task per chunk, whatever the flag says. *)
Lemma BeginPlay_load_queues (disk : Disk F)
    (todo done : list (UProceduralTerrain F)) (w w' : AProceduralTerrainWorld F) :
  Exists (fun Chunk =>
            FileExists disk (path_join (ProjectSavedDir disk)
                                       (ChunkFile (Name Chunk))) = false) todo ->
  BeginPlay_load disk todo done w = Some w' ->
  Passes w' = S (Passes w)
  /\ bIsGenerating w' = bIsGenerating w
  /\ exists names, length names = length (done ++ todo)
       /\ Pending w' = Pending w
                        ++ map (fun n => DensityTask n (S (Passes w))) names.
Proof.
  revert done. induction todo as [|Chunk rest IH]; intros done Hmissing.
  - by apply Exists_nil in Hmissing.
  - simpl.
    destruct (FileExists disk _) eqn:Hfile.
    + apply Exists_cons in Hmissing as [Habs|Hrest]; [congruence|].
      destruct (LoadDensityFromJSON _ _ _) as [c|]; simpl; [|discriminate].
      intros Hrun. destruct (IH _ Hrest Hrun) as (Hp & Hg & names & Hlen & Hq).
      split; [done|]. split; [done|]. exists names. split; [|done].
      rewrite Hlen, !length_app. simpl. lia.
    + intros [= <-]. simpl. split; [done|]. split; [done|].
      exists (map Name (done ++ Chunk :: rest)).
      split; [by rewrite length_map|]. by rewrite map_map.
Qed.

(** *** DigAt *)

(** The loop that [DigSphere] and [DigAt] share, on a field of [S ^ 3]
    samples and with bounds below [INT32_MAX]: it exits, makes no
    out-of-range access, and updates each sample in reach once. *)
Lemma dig_loop (S XC YC ZC R : Z) (P : FVector F) (Strength : F) (D : list F) :
  Num D = S ^ 3 -> S ^ 3 <= INT32_MAX ->
  i32 (XC + R) < INT32_MAX -> i32 (YC + R) < INT32_MAX ->
  i32 (ZC + R) < INT32_MAX ->
  exists D',
    for_from_to (i32 (ZC - R)) (i32 (ZC + R)) (fun z =>
    for_from_to (i32 (YC - R)) (i32 (YC + R)) (fun y =>
    for_from_to (i32 (XC - R)) (i32 (XC + R)) (fun x D =>
      if (x <? 0) || (y <? 0) || (z <? 0) || (S <=? x) || (S <=? y) || (S <=? z)
      then Some D
      else
        let VoxelPos := of_ints x y z in
        let dist := Dist VoxelPos P in
        if (dist <=? of_int R)%F
        then
          let Idx := GetIndex S x y z in
          old ← arr_get D Idx;
          arr_set D Idx (old + Strength * (fone - dist / of_int R))%F
        else Some D))) D = Some D'
    /\ Num D' = Num D
    /\ forall x y z, 0 <= x < S -> 0 <= y < S -> 0 <= z < S ->
         exists old,
           arr_get D (x + y * S + z * S * S) = Some old
           /\ arr_get D' (x + y * S + z * S * S)
              = Some (if in_reach XC YC ZC R x y z
                      then dug P R Strength x y z old else old).
Proof.
  intros HD Hfit HxR HyR HzR. rewrite for_from_to_nest3 by done.
  set (l := cells _ _ _).
  set (ingrid := fun t : Z * Z * Z =>
         negb ((t.1.1 <? 0) || (t.1.2 <? 0) || (t.2 <? 0) || (S <=? t.1.1)
               || (S <=? t.1.2) || (S <=? t.2))).
  set (idx := fun t : Z * Z * Z =>
         if ingrid t && (Dist (of_ints t.1.1 t.1.2 t.2) P <=? of_int R)%F
         then Some (t.1.1 + t.1.2 * S + t.2 * S * S) else None).
  set (upd := fun (t : Z * Z * Z) (old : F) =>
         (old + Strength * (fone - Dist (of_ints t.1.1 t.1.2 t.2) P / of_int R))%F).
  assert (Hgrid : forall t, ingrid t = true ->
            0 <= t.1.1 < S /\ 0 <= t.1.2 < S /\ 0 <= t.2 < S).
  { intros [[x y] z]. unfold ingrid. simpl. rewrite negb_true_iff.
    rewrite !orb_false_iff, !Z.ltb_ge, !Z.leb_gt. lia. }
  assert (Hidx : forall t i, idx t = Some i ->
            ingrid t = true
            /\ (Dist (of_ints t.1.1 t.1.2 t.2) P <=? of_int R)%F = true
            /\ i = t.1.1 + t.1.2 * S + t.2 * S * S).
  { intros t i. unfold idx. destruct (ingrid t); simpl; [|discriminate].
    destruct (_ <=? _)%F; [|discriminate]. by intros [= <-]. }
  assert (Hinj : forall k k' i, idx k = Some i -> idx k' = Some i -> k = k').
  { intros [[x y] z] [[x' y'] z'] i Hk Hk'.
    apply Hidx in Hk as (Hg%Hgrid & _ & ->).
    apply Hidx in Hk' as (Hg'%Hgrid & _ & Heq). simpl in *.
    destruct (index_injective S x y z x' y' z') as (-> & -> & ->);
      [lia..|done|done]. }
  match goal with
  | |- context [for_each l ?b D] =>
      destruct (for_each_updates idx upd (S ^ 3) b l) with (D := D)
        as (D' & Hrun & HD' & Hval & Hrest)
  end.
  - apply NoDup_cells; apply NoDup_seqZ.
  - intros k k' i _ _. apply Hinj.
  - intros [[x y] z] D0 _ HD0. unfold idx, ingrid. simpl.
    destruct ((x <? 0) || (y <? 0) || (z <? 0) || (S <=? x) || (S <=? y)
              || (S <=? z)) eqn:Hout; simpl; [done|].
    destruct (Dist (of_ints x y z) P <=? of_int R)%F eqn:Hd; [|done].
    assert (Hin : 0 <= x < S /\ 0 <= y < S /\ 0 <= z < S).
    { rewrite !orb_false_iff, !Z.ltb_ge, !Z.leb_gt in Hout. lia. }
    destruct Hin as (Hx & Hy & Hz).
    rewrite GetIndex_exact by done.
    destruct (cube_bounds S x y z Hx Hy Hz) as (_ & _ & _ & Hi).
    set (i := x + y * S + z * S * S) in *.
    destruct (arr_get_Some D0 i) as [old Hold]; [lia|].
    exists old. rewrite Hold. simpl.
    destruct (arr_set D0 i (upd (x, y, z) old)) as [D1|] eqn:E1.
    2:{ unfold arr_set in E1. rewrite bool_decide_eq_true_2 in E1; [done|].
        unfold Num in HD0. lia. }
    exists D1. split; [done|]. split; [exact E1|].
    split; [unfold Num in *; by rewrite (arr_set_length _ _ _ _ E1)|].
    split; [by eapply arr_get_set_eq|].
    intros j Hj. by apply (arr_get_set_ne _ _ _ _ _ E1).
  - exact HD.
  - exists D'. split; [exact Hrun|]. split; [lia|].
    intros x y z Hx Hy Hz.
    destruct (cube_bounds S x y z Hx Hy Hz) as (_ & _ & _ & Hi).
    destruct (arr_get_Some D (x + y * S + z * S * S)) as [old Hold]; [lia|].
    exists old. split; [exact Hold|].
    assert (Hg : ingrid (x, y, z) = true).
    { unfold ingrid. simpl. rewrite negb_true_iff.
      rewrite !orb_false_iff, !Z.ltb_ge, !Z.leb_gt. lia. }
    assert (Hmem : (x, y, z) ∈ l <-> in_reach XC YC ZC R x y z = true).
    { unfold l, in_reach. rewrite elem_of_cells, !elem_of_from_to. simpl.
      rewrite !andb_true_iff, !Z.leb_le. lia. }
    assert (Hother : forall k, k ∈ l -> idx k = Some (x + y * S + z * S * S) ->
                               k = (x, y, z) /\ idx (x, y, z) = idx k).
    { intros [[x' y'] z'] _ Hk. pose proof Hk as Hk'.
      apply Hidx in Hk' as (Hg'%Hgrid & _ & Heq). simpl in *.
      destruct (index_injective S x y z x' y' z') as (-> & -> & ->);
        [lia..|done|done]. }
    destruct (in_reach XC YC ZC R x y z) eqn:Hreach.
    + unfold dug.
      destruct (Dist (of_ints x y z) P <=? of_int R)%F eqn:Hd.
      * destruct (Hval (x, y, z) (x + y * S + z * S * S)) as (old' & Hold' & Hnew).
        -- by apply Hmem.
        -- unfold idx. simpl. by rewrite Hg, Hd.
        -- assert (old' = old) as -> by congruence. by rewrite Hnew.
      * rewrite Hrest; [done|]. intros k Hk Hsame.
        destruct (Hother k Hk Hsame) as [-> _].
        unfold idx in Hsame. simpl in Hsame. by rewrite Hg, Hd in Hsame.
    + rewrite Hrest; [done|]. intros k Hk Hsame.
      destruct (Hother k Hk Hsame) as [-> _].
      apply Hmem in Hk. congruence.
Qed.

(** The loop of [DigAt] on a chunk that it digs, followed by the rebuild. *)
Lemma DigAt_chunk_loop (w : AProceduralTerrainWorld F)
    (WorldPosition : FVector F) (Radius Strength : F)
    (Chunk : UProceduralTerrain F) :
  affected w WorldPosition Radius Chunk = true ->
  dig_in_range w WorldPosition Radius Chunk ->
  exists D',
    DigAt_chunk w WorldPosition Radius Strength Chunk
    = RebuildMeshFromCurrentDensity (with_Density D' Chunk)
    /\ Num D' = Num (Density Chunk)
    /\ forall x y z,
         0 <= x < ChunkSize w -> 0 <= y < ChunkSize w -> 0 <= z < ChunkSize w ->
         let i := x + y * ChunkSize w + z * ChunkSize w * ChunkSize w in
         let P := LocalVoxelPos w Chunk WorldPosition in
         let XCenter := RoundToInt (vx P) in
         let YCenter := RoundToInt (vy P) in
         let ZCenter := RoundToInt (vz P) in
         let Reach := CeilToInt (Radius / TerrainScale w)%F in
         exists old,
           arr_get (Density Chunk) i = Some old
           /\ arr_get D' i
              = Some (if in_reach XCenter YCenter ZCenter Reach x y z
                      then dug (of_ints XCenter YCenter ZCenter) Reach Strength
                               x y z old
                      else old).
Proof.
  intros Hyes [Hnum Hfit HxR HyR HzR]. unfold affected in Hyes.
  apply andb_true_iff in Hyes as [Hsome Hbox]. apply negb_true_iff in Hsome.
  unfold DigAt_chunk. rewrite Hsome. cbv zeta. rewrite Hbox. simpl negb. cbv iota.
  fold (LocalVoxelPos w Chunk WorldPosition).
  set (P := LocalVoxelPos w Chunk WorldPosition).
  destruct (dig_loop (ChunkSize w) (RoundToInt (vx P)) (RoundToInt (vy P))
              (RoundToInt (vz P)) (CeilToInt (Radius / TerrainScale w)%F)
              (of_ints (RoundToInt (vx P)) (RoundToInt (vy P)) (RoundToInt (vz P)))
              Strength (Density Chunk) Hnum Hfit HxR HyR HzR)
    as (D' & Hrun & HD' & Hcells).
  exists D'. cbv zeta in Hrun. rewrite Hrun. simpl.
  split; [reflexivity|]. split; [exact HD'|exact Hcells].
Qed.

Lemma DigAt_chunk_unaffected (w : AProceduralTerrainWorld F)
    (WorldPosition : FVector F) (Radius Strength : F)
    (Chunk : UProceduralTerrain F) :
  affected w WorldPosition Radius Chunk = false ->
  DigAt_chunk w WorldPosition Radius Strength Chunk = Some Chunk.
Proof.
  unfold affected, DigAt_chunk. intros Hno.
  destruct (Num (Density Chunk) =? 0); [done|]. simpl in Hno.
  by rewrite Hno.
Qed.

Lemma DigAt_chunk_rebuilds_once (w : AProceduralTerrainWorld F)
    (WorldPosition : FVector F) (Radius Strength : F)
    (Chunk Chunk' : UProceduralTerrain F) :
  affected w WorldPosition Radius Chunk = true ->
  DigAt_chunk w WorldPosition Radius Strength Chunk = Some Chunk' ->
  Rebuilds Chunk' = S (Rebuilds Chunk).
Proof.
  unfold affected, DigAt_chunk. intros Hyes.
  apply andb_true_iff in Hyes as [Hnum Hbox].
  apply negb_true_iff in Hnum. rewrite Hnum, Hbox. simpl.
  destruct (for_from_to _ _ _ (Density Chunk)) as [D|]; simpl; [|discriminate].
  intros Hrun. by apply Rebuild_counts in Hrun.
Qed.

(** On an aligned chunk the loop of [DigAt] is the loop of [DigSphere]. *)
Lemma DigAt_chunk_aligned (w : AProceduralTerrainWorld F)
    (WorldPosition : FVector F) (Radius Strength : F)
    (Chunk : UProceduralTerrain F) :
  affected w WorldPosition Radius Chunk = true ->
  aligned w WorldPosition Radius Chunk ->
  DigAt_chunk w WorldPosition Radius Strength Chunk
  = DigSphere WorldPosition Radius Strength Chunk.
Proof.
  intros Hyes [Hsize Hscale Hpos Hnz Hplain Hradius Hlattice].
  unfold affected in Hyes. apply andb_true_iff in Hyes as [Hnum Hbox].
  apply negb_true_iff in Hnum.
  unfold DigAt_chunk, DigSphere, degenerate. cbv zeta.
  rewrite Hnum, Hbox, Hsize, Hscale, Hnz, Hplain, Hradius, Hlattice.
  rewrite (proj2 (Z.leb_gt _ _) Hpos). simpl.
  reflexivity.
Qed.

(** C5 (amended).  Let every chunk that [DigAt] digs (it holds samples and
    its box meets the sphere) store [ChunkSize ^ 3] samples, a count within
    [int32], with the bounds [centre + reach] of the three loops below
    [INT32_MAX].  Then the update loops make no out-of-range access and
    exit, so that the only step of [DigAt] that can fail to return is the
    rebuild of a chunk it has dug.  When [DigAt] returns, every chunk that
    holds no samples or whose box does not meet the sphere is exactly as it
    was, and every other chunk has been rebuilt exactly once.  The result
    for such a chunk is the one of [DigSphere] for the same position,
    radius and strength when the chunk is aligned: it stores the world's
    chunk size and scale, is neither rotated nor scaled, and the dig
    position falls on one of its samples.  (In general [DigAt] measures the
    falloff distance from the rounded centre, [DigSphere] from the exact
    position.) *)
Theorem C5_DigAt_outcome (WorldPosition : FVector F) (Radius Strength : F)
    (w : AProceduralTerrainWorld F) :
  Forall (fun Chunk => affected w WorldPosition Radius Chunk = true ->
                       dig_in_range w WorldPosition Radius Chunk)
         (Chunks w) ->
  match DigAt WorldPosition Radius Strength w with
  | Some w' =>
      w' = with_Chunks (Chunks w') w
      /\ Forall2 (dig_outcome w WorldPosition Radius Strength)
                 (Chunks w) (Chunks w')
  | None =>
      exists Chunk D',
        Chunk ∈ Chunks w
        /\ affected w WorldPosition Radius Chunk = true
        /\ Num D' = Num (Density Chunk)
        /\ RebuildMeshFromCurrentDensity (with_Density D' Chunk) = None
  end.
Proof.
  intros Hready. unfold DigAt.
  destruct (mapM _ (Chunks w)) as [cs|] eqn:Hcs; simpl.
  - split; [reflexivity|].
    apply mapM_Some_1 in Hcs.
    eapply Forall2_impl; [exact Hcs|].
    intros Chunk Chunk' Hdig. cbv beta in Hdig. split.
    + intros Hno. rewrite DigAt_chunk_unaffected in Hdig by done. congruence.
    + intros Hyes. split; [by eapply DigAt_chunk_rebuilds_once|].
      intros Hal.
      rewrite <- (DigAt_chunk_aligned w WorldPosition Radius Strength Chunk
                    Hyes Hal).
      exact Hdig.
  - apply mapM_None_1, Exists_exists in Hcs as (Chunk & Hin & Hnone).
    destruct (affected w WorldPosition Radius Chunk) eqn:Hyes.
    2:{ by rewrite DigAt_chunk_unaffected in Hnone. }
    pose proof (proj1 (Forall_forall _ _) Hready Chunk Hin Hyes) as Hr.
    destruct (DigAt_chunk_loop w WorldPosition Radius Strength Chunk Hyes Hr)
      as (D' & Hrun & HD' & _).
    exists Chunk, D'. split; [exact Hin|]. split; [exact Hyes|].
    split; [exact HD'|]. by rewrite <- Hrun.
Qed.
End Facts.
End WorldFacts.

(** ** Evaluations on binary64 numbers *)

Module Evaluations.
Import Terrain World DigSpec F64 Examples TerrainFacts WorldFacts.
Local Open Scope float_scope.

(** Evaluates the computation at the head of a goal
    [exists x, f = Some x /\ _] and continues with its result. *)
Ltac eval_head :=
  lazymatch goal with
  | |- exists x, ?f = Some x /\ _ =>
      let r := eval vm_compute in f in
      lazymatch r with
      | Some ?v => exists v; split; [vm_compute; reflexivity|]
      end
  end.

(** C1, the claim as stated fails: a record that parses, announces size 3
    and holds a single sample replaces the size, the scale, the iso level
    and the density of a consistent, meshed chunk, and the mesh is
    cleared. *)
Lemma C1_counterexample :
  exists c0,
    RebuildMeshFromCurrentDensity two_layers = Some c0
    /\ exists c1,
      LoadDensityFromJSON short_record_disk "TerrainDensity.json" c0 = Some c1
      /\ (CurrentSize c0, CurrentScale c0, CurrentIsoLevel c0, Density c0)
         = (2%Z, 1, 0, [-0.5; -0.5; -0.5; -0.5; 0.5; 0.5; 0.5; 0.5])
      /\ (length ∘ Triangles <$> MeshSection0 c0) = Some 6%nat
      /\ (CurrentSize c1, CurrentScale c1, CurrentIsoLevel c1, Density c1)
         = (3%Z, 2, 1, [7])
      /\ MeshSection0 c1 = None
      /\ Rebuilds c1 = S (Rebuilds c0).
Proof. eval_head. eval_head. vm_compute. repeat split. Qed.

(** C1 (amended), at the same record. *)
Lemma C1_witness :
  LoadDensityFromJSON short_record_disk "TerrainDensity.json" two_layers
  = Some (mkTerrain "Chunk_0_0_0" (placed (vec 0 0 0)) (mkIntVector 0 0 0)
                    3 2 1 [7] None 1).
Proof.
  rewrite (C1_load_mismatch_overwrites short_record_disk "TerrainDensity.json"
             two_layers short_record [JsonNumber 7]).
  - vm_compute. reflexivity.
  - vm_compute. reflexivity.
  - vm_compute. reflexivity.
  - right. vm_compute. discriminate.
Defined.

(** C2, the claim as stated fails: loading the field [flat_corner_record]
    meshes one triangle.  Its three corners come from tie-breaks, two of
    them coincide, and neither the corner gradients nor the face normal can
    be normalised; the three normals of the mesh are the zero vector. *)
Lemma C2_counterexample :
  exists c',
    LoadDensityFromJSON flat_corner_disk "TerrainDensity.json"
                        (NewObject "ProceduralTerrain" (placed (vec 0 0 0)))
    = Some c'
    /\ exists m,
      MeshSection0 c' = Some m
      /\ Vertices m = [vec 0 0 0; vec 0 0 0; vec 0 50 0]
      /\ Normals m = [vec 0 0 0; vec 0 0 0; vec 0 0 0]
      /\ forallb Spec.unit_length (Normals m) = false.
Proof. eval_head. eval_head. vm_compute. repeat split. Qed.

(** The blend of two opposite corner normals cannot be normalised; the
    normal of the interpolated vertex is then the up vector, whatever the
    triangle. *)
Example VertexInterp_opposite_normals :
  Normal (VertexInterp 0 (vec 0 0 0) (vec 1 0 0) (-1) 1 (vec 1 0 0) (vec (-1) 0 0))
  = vec 0 0 1.
Proof. vm_compute. reflexivity. Qed.

(** C2 (amended), at the field with one solid corner. *)
Lemma C2_witness :
  exists c' m,
    RebuildMeshFromCurrentDensity one_corner = Some c'
    /\ MeshSection0 c' = Some m
    /\ Spec.normals_by_triangle (Vertices m) (Normals m).
Proof.
  assert (E : exists c' m, RebuildMeshFromCurrentDensity one_corner = Some c'
                           /\ MeshSection0 c' = Some m).
  { vm_compute. do 2 eexists. split; reflexivity. }
  destruct E as (c' & m & E1 & E2). exists c', m.
  split; [exact E1|]. split; [exact E2|].
  exact (proj1 (C2_emitted_normals one_corner c' m E1 E2)).
Defined.

(** C3, the claim as stated fails: the observer moves by a quarter of a
    chunk width, from x = 1.875 to x = 2.125, across the boundary between
    two cells; the second call destroys the chunk of the first cell and
    creates the chunk of the second. *)
Lemma C3_counterexample :
  exists w1,
    UpdateStreamedChunks no_files (Some (vec 1.875 0 0)) small_world = Some w1
    /\ exists w2,
      UpdateStreamedChunks no_files (Some (vec 2.125 0 0)) w1 = Some w2
      /\ (Dist (vec 1.875 0 0) (vec 2.125 0 0)
          <? vx (ChunkWorldSize small_world) * 0.5) = true
      /\ map Name (Chunks w1) = ["Chunk_1_0_0"]
      /\ map Name (Chunks w2) = ["Chunk_2_0_0"].
Proof. eval_head. eval_head. vm_compute. repeat split. Qed.

(** C3 (amended): two positions in the cell (1, 0). *)
Lemma C3_witness :
  exists w1,
    UpdateStreamedChunks no_files (Some (vec 1.875 0 0)) small_world = Some w1
    /\ UpdateStreamedChunks no_files (Some (vec 1.5 0.25 0)) w1 = Some w1.
Proof.
  assert (E : exists w1, UpdateStreamedChunks no_files (Some (vec 1.875 0 0))
                           small_world = Some w1).
  { vm_compute. eexists. reflexivity. }
  destruct E as [w1 E]. exists w1. split; [exact E|].
  apply (C3_same_cell_no_update no_files (vec 1.875 0 0) (vec 1.5 0.25 0)
           small_world w1 E); vm_compute; reflexivity.
Defined.

(** C4.  A world without saved files, two events.  [OnConstruction]
    starts pass 1 and raises the flag; [BeginPlay], arriving while the flag
    is up and no task of pass 1 has run, queues pass 2 for the same chunk
    and leaves the flag up.  Two full-grid passes are then in flight. *)
Theorem C4_BeginPlay_starts_second_pass :
  exists w1,
    run no_files [EvOnConstruction] small_world = Some w1
    /\ exists w2,
      run no_files [EvBeginPlay] w1 = Some w2
      /\ bIsGenerating w1 = true
      /\ passes_in_flight w1 = [1]%nat
      /\ bIsGenerating w2 = true
      /\ Pending w2 = [DensityTask "Chunk_0_0_0" 1; DensityTask "Chunk_0_0_0" 2]
      /\ passes_in_flight w2 = [1; 2]%nat.
Proof. eval_head. eval_head. vm_compute. repeat split. Qed.

(** C5, the claim as stated fails: a dig at a quarter of a sample spacing
    from the first sample.  [DigAt] measures the falloff from the rounded
    centre, [DigSphere] from the position itself. *)
Lemma C5_counterexample :
  affected one_chunk_world (vec 0.25 0 0) 1 two_layers = true
  /\ (w' ← DigAt (vec 0.25 0 0) 1 (-1) one_chunk_world;
      Some (map Density (Chunks w')))
     = Some [[-1.5; -0.5; -0.5; -0.5; 0.5; 0.5; 0.5; 0.5]]
  /\ (Density <$> DigSphere (vec 0.25 0 0) 1 (-1) two_layers)
     = Some [-1.25; -0.75; -0.5; -0.5; 0.5; 0.5; 0.5; 0.5].
Proof. vm_compute. repeat split. Qed.

(** C5 (amended): a dig centred on the second sample of an aligned chunk. *)
Lemma C5_witness :
  exists w',
    DigAt (vec 1 0 0) 1 (-1) one_chunk_world = Some w'
    /\ affected one_chunk_world (vec 1 0 0) 1 two_layers = true
    /\ aligned one_chunk_world (vec 1 0 0) 1 two_layers
    /\ Forall2 (dig_outcome one_chunk_world (vec 1 0 0) 1 (-1))
               (Chunks one_chunk_world) (Chunks w').
Proof.
  assert (E : exists w', DigAt (vec 1 0 0) 1 (-1) one_chunk_world = Some w').
  { vm_compute. eexists. reflexivity. }
  destruct E as [w' E]. exists w'. split; [exact E|].
  split; [vm_compute; reflexivity|].
  split; [constructor; vm_compute; reflexivity|].
  pose proof (C5_DigAt_outcome (vec 1 0 0) 1 (-1) one_chunk_world) as H.
  rewrite E in H. apply H.
  constructor; [|constructor].
  intros _. constructor; vm_compute; first [reflexivity | discriminate].
Defined.

(** C6, the claim as stated fails: in a grid that is two chunks high, the
    upper chunk, whose origin is one chunk height above the ground, receives
    the same densities as the lower one; its first cell gets the density 0
    of its grid index, not the density 1 of its world height. *)
Lemma C6_counterexample :
  exists w,
    run no_files [EvOnConstruction; EvTask 0; EvTask 0] tall_world = Some w
    /\ map (fun c => (Name c, GetComponentLocation c, Density c)) (Chunks w)
       = [("Chunk_0_0_0", vec 0 0 0, [0; 0; 0; 0; 1; 1; 1; 1]);
          ("Chunk_0_0_1", vec 0 0 1, [0; 0; 0; 0; 1; 1; 1; 1])]
    /\ Spec.populate_density (vec 0 0 1) 1 0 0 0 0 0 0 = 1
    /\ Spec.grid_density (vec 0 0 1) 1 0 0 0 0 0 0 = 0.
Proof. eval_head. vm_compute. repeat split. Qed.

(** C6 (amended), at the upper chunk. *)
Lemma C6_witness :
  exists c',
    BuildDensityField 2 1 0 0 0 (spawn_chunk tall_world 0 0 1) = Some c'
    /\ Num (Density c') = 8%Z.
Proof.
  destruct (C6_BuildDensityField_cells 2 1 0 0 0 (spawn_chunk tall_world 0 0 1))
    as (c' & E & _ & _ & Hnum & _).
  - reflexivity.
  - vm_compute. discriminate.
  - exists c'. split; [exact E|exact Hnum].
Defined.

(** C7, the claim as stated fails: an active edge (corner 1 below the iso
    level, corner 2 not below it) whose corner values are the two infinities
    passes the three tie-breaks, and [mu] and the position are NaN.  In the
    mesh of a field with such values the three vertices are NaN. *)
Lemma C7_counterexample :
  ((neg_infinity <? 0) = true /\ (infinity <? 0) = false
   /\ Position (VertexInterp 0 (vec 0 0 0) (vec 1 0 0) neg_infinity infinity
                             (vec 0 0 1) (vec 0 0 1))
      = vec nan nan nan)
  /\ exists c',
      RebuildMeshFromCurrentDensity
        (chunk2 (vec 0 0 0) 1
                [neg_infinity; infinity; infinity; infinity;
                 infinity; infinity; infinity; infinity]) = Some c'
      /\ (Vertices <$> MeshSection0 c')
         = Some [vec nan nan nan; vec nan nan nan; vec nan nan nan].
Proof.
  split; [vm_compute; repeat split|].
  eval_head. vm_compute. reflexivity.
Qed.

(** C8.  A dig of strength 0 and radius 0 centred on the first sample of a
    consistent, meshed chunk: the sample is at distance 0 from the centre,
    the falloff is [1 - 0 / 0], and the sample becomes NaN; the rebuilt
    mesh loses its triangle. *)
Theorem C8_zero_strength_zero_radius :
  exists c1,
    RebuildMeshFromCurrentDensity one_corner = Some c1
    /\ exists c2,
      DigSphere (vec 0 0 0) 0 0 c1 = Some c2
      /\ Density c1 = [-0.5; 0.5; 0.5; 0.5; 0.5; 0.5; 0.5; 0.5]
      /\ Density c2 = [nan; 0.5; 0.5; 0.5; 0.5; 0.5; 0.5; 0.5]
      /\ (Triangles <$> MeshSection0 c1) = Some [0; 1; 2]%Z
      /\ (Triangles <$> MeshSection0 c2) = Some [].
Proof. eval_head. eval_head. vm_compute. repeat split. Qed.

(** With a radius of one sample spacing the same dig of strength 0 changes
    neither the samples nor the mesh. *)
Example DigSphere_zero_strength_unit_radius :
  exists c1,
    RebuildMeshFromCurrentDensity one_corner = Some c1
    /\ exists c2,
      DigSphere (vec 0 0 0) 1 0 c1 = Some c2
      /\ Density c2 = Density c1 /\ MeshSection0 c2 = MeshSection0 c1.
Proof. eval_head. eval_head. vm_compute. repeat split. Qed.

(** C9, at a consistent chunk of 2 x 2 x 2 samples: the rebuild reads the
    eight corners of the one cube and installs a mesh. *)
Lemma C9_witness :
  exists m,
    RebuildMeshFromCurrentDensity
      (chunk2 (vec 0 0 0) 1 [-0.5; 0.5; 0.5; 0.5; 0.5; 0.5; 0.5; 0.5])
    = Some (CreateMeshSection m
              (ClearAllMeshSections
                 (count_rebuild
                    (chunk2 (vec 0 0 0) 1
                            [-0.5; 0.5; 0.5; 0.5; 0.5; 0.5; 0.5; 0.5])))).
Proof.
  set (c := chunk2 (vec 0 0 0) 1 [-0.5; 0.5; 0.5; 0.5; 0.5; 0.5; 0.5; 0.5]).
  pose proof (C9_rebuild_reads_in_bounds c) as H.
  assert (H1 : (1 < CurrentSize c)%Z) by reflexivity.
  assert (H2 : Num (Density c) = (CurrentSize c ^ 3)%Z) by reflexivity.
  destruct (H H1 H2) as [[Hbig _]|(_ & _ & G & HG & _ & _ & Hm)].
  - vm_compute in Hbig. discriminate.
  - vm_compute in HG. injection HG as <-.
    destruct (march_cubes _ _ _ _ _) as [m|] eqn:E.
    + exists m. exact Hm.
    + vm_compute in E. discriminate.
Defined.

(** C10, at a component without samples. *)
Lemma C10_witness :
  DigSphere (vec 1 2 3) 4 (-20) (NewObject "Chunk_0_0_0" (placed (vec 0 0 0)))
  = Some (NewObject "Chunk_0_0_0" (placed (vec 0 0 0))).
Proof.
  apply C10_DigSphere_degenerate_unchanged. left. reflexivity.
Defined.
End Evaluations.

(** * Further properties of the code

    What follows covers the parts of the two classes that the statements
    above leave out, and the third class, [AProceduralTerrainActor]. *)

(** ** More about loops, lists and strings *)

Lemma upto_snoc3 (n : Z) :
  0 <= n -> upto (n + 3) = upto n ++ [n; n + 1; n + 2].
Proof.
  intros Hn. unfold upto.
  rewrite seqZ_app by lia. f_equal.
  unfold seqZ. simpl.
  assert (E : forall a b c : Z, a = n -> b = n + 1 -> c = n + 2 ->
                                [a; b; c] = [n; n + 1; n + 2])
    by (by intros ??? -> -> ->).
  apply E; lia.
Qed.

Lemma for_each_nest2 {S} (xs ys : list Z)
    (body : Z -> Z -> S -> option S) (s : S) :
  for_each xs (fun x => for_each ys (fun y => body x y)) s
  = for_each (x ← xs; y ← ys; [(x, y)]) (fun p => body p.1 p.2) s.
Proof.
  rewrite for_each_bind. apply for_each_ext. intros x s1 _.
  rewrite for_each_bind. apply for_each_ext. intros y s2 _.
  simpl. by destruct (body x y s2).
Qed.

Lemma for_from_to_nest2 {S} (lx hx ly hy : Z)
    (body : Z -> Z -> S -> option S) (s : S) :
  hx < INT32_MAX -> hy < INT32_MAX ->
  for_from_to lx hx (fun x => for_from_to ly hy (fun y => body x y)) s
  = for_each (x ← from_to lx hx; y ← from_to ly hy; [(x, y)])
             (fun p => body p.1 p.2) s.
Proof.
  intros Hx Hy. rewrite for_from_to_exits by done.
  rewrite <- for_each_nest2. apply for_each_ext. intros x s1 _.
  by apply for_from_to_exits.
Qed.

(** What an iteration establishes, and no later iteration destroys, holds
    after the loop. *)
Lemma for_each_established {A S} (Q : A -> S -> Prop) (l : list A)
    (body : A -> S -> option S) (s s' : S) :
  (forall i t t', i ∈ l -> body i t = Some t' -> Q i t') ->
  (forall i j t t', i ∈ l -> j ∈ l -> Q i t -> body j t = Some t' -> Q i t') ->
  for_each l body s = Some s' -> forall i, i ∈ l -> Q i s'.
Proof.
  revert s. induction l as [|a l IH]; intros s Hest Hkeep; simpl.
  - intros _ i Hi. by apply elem_of_nil in Hi.
  - destruct (body a s) as [t|] eqn:Hb; simpl; [|discriminate].
    intros Hrun i Hi. apply elem_of_cons in Hi as [->|Hi].
    + apply (for_each_inv (Q a) l body t s'); [|
        |exact Hrun].
      * eapply Hest; [left|exact Hb].
      * intros j u u' Hj Hu Hbj. eapply (Hkeep a j); [left|by right|done|done].
    + apply (IH t); [| |exact Hrun|exact Hi].
      * intros j u u' Hj. apply Hest. by right.
      * intros j k u u' Hj Hk. apply Hkeep; by right.
Qed.

Lemma upto_snoc (n : Z) : 0 <= n -> upto (n + 1) = upto n ++ [n].
Proof.
  intros Hn. unfold upto. rewrite seqZ_app by lia. f_equal.
Qed.

(** A loop that appends one element per iteration builds the image of its
    iteration space. *)
Lemma for_each_append {A B} (f : A -> B) (l : list A) (s : list B) :
  for_each l (fun a s => Some (s ++ [f a])) s = Some (s ++ (f <$> l)).
Proof.
  revert s. induction l as [|a l IH]; intros s; simpl.
  - by rewrite app_nil_r.
  - rewrite IH, <- app_assoc. reflexivity.
Qed.

Lemma length_upto (n : Z) : length (upto n) = Z.to_nat n.
Proof. unfold upto. apply length_seqZ. Qed.

Lemma length_bind_const {A B} (f : A -> list B) (n : nat) (l : list A) :
  (forall a, length (f a) = n) -> length (l ≫= f) = (length l * n)%nat.
Proof.
  intros Hf. induction l as [|a l IH]; [done|].
  rewrite bind_cons, length_app, Hf, IH. simpl. lia.
Qed.

Lemma length_cells (zs ys xs : list Z) :
  length (cells zs ys xs) = (length zs * (length ys * length xs))%nat.
Proof.
  unfold cells. apply length_bind_const. intros z.
  apply length_bind_const. intros y.
  rewrite (length_bind_const _ 1%nat); [lia|done].
Qed.

Lemma for_each_extend {A B} (f : A -> list B) (l : list A) (s : list B) :
  for_each l (fun a s => Some (s ++ f a)) s = Some (s ++ (l ≫= f)).
Proof.
  revert s. induction l as [|a l IH]; intros s.
  - simpl. by rewrite app_nil_r.
  - rewrite bind_cons, app_assoc, <- IH. reflexivity.
Qed.

(** Element [j] of row [i] of a concatenation of rows of equal length. *)
Lemma lookup_bind_rows {A B} (f : A -> list B) (n : nat) (l : list A)
    (i j : nat) :
  (forall a, length (f a) = n) -> (j < n)%nat ->
  (l ≫= f) !! (i * n + j)%nat = l !! i ≫= (fun a => f a !! j).
Proof.
  intros Hf Hj. revert i. induction l as [|a l IH]; intros i.
  - by rewrite lookup_nil.
  - rewrite bind_cons. destruct i as [|i]; simpl.
    + rewrite lookup_app_l by (rewrite Hf; lia). reflexivity.
    + rewrite lookup_app_r by (rewrite Hf; lia). rewrite Hf.
      replace (n + i * n + j - n)%nat with (i * n + j)%nat by lia. apply IH.
Qed.

Lemma lookup_upto (n i : Z) : 0 <= i < n -> upto n !! Z.to_nat i = Some i.
Proof.
  intros Hi. unfold upto. rewrite lookup_seqZ. split; [lia|lia].
Qed.

Lemma lookup_pairs (H W x y : Z) :
  0 <= x < W -> 0 <= y < H ->
  (a ← upto H; b ← upto W; [(a, b)]) !! Z.to_nat (x + y * W) = Some (y, x).
Proof.
  intros Hx Hy.
  replace (Z.to_nat (x + y * W))
    with (Z.to_nat y * Z.to_nat W + Z.to_nat x)%nat by nia.
  rewrite (lookup_bind_rows _ (Z.to_nat W)).
  - rewrite lookup_upto by done. simpl.
    replace (Z.to_nat x) with (Z.to_nat x * 1 + 0)%nat by lia.
    rewrite (lookup_bind_rows _ 1%nat); [|done|lia].
    by rewrite lookup_upto.
  - intros a. rewrite (length_bind_const _ 1%nat) by done.
    rewrite length_upto. lia.
  - lia.
Qed.

Lemma length_pairs (H W : Z) :
  0 <= H -> 0 <= W ->
  Z.of_nat (length (a ← upto H; b ← upto W; [(a, b)])) = H * W.
Proof.
  intros HH HW. rewrite (length_bind_const _ (Z.to_nat W)).
  - rewrite length_upto. nia.
  - intros a. rewrite (length_bind_const _ 1%nat) by done.
    rewrite length_upto. lia.
Qed.

Lemma elem_of_pairs (H W : Z) (p : Z * Z) :
  p ∈ (a ← upto H; b ← upto W; [(a, b)]) <-> 0 <= p.1 < H /\ 0 <= p.2 < W.
Proof.
  destruct p as [a b]. simpl. rewrite list_elem_of_bind. split.
  - intros (a' & Hin & Ha). apply list_elem_of_bind in Hin as (b' & Hin & Hb).
    apply list_elem_of_singleton in Hin. injection Hin as -> ->.
    apply elem_of_upto in Ha, Hb. done.
  - intros [Ha Hb]. exists a. split; [|by apply elem_of_upto].
    apply list_elem_of_bind. exists b. split; [|by apply elem_of_upto].
    by apply list_elem_of_singleton.
Qed.

Lemma arr_get_elem {A} (a : list A) (i : Z) (v : A) :
  arr_get a i = Some v -> v ∈ a.
Proof.
  unfold arr_get. case_bool_decide; [|discriminate].
  apply list_elem_of_lookup_2.
Qed.

Lemma arr_set_Some {A} (a : list A) (i : Z) (v : A) :
  0 <= i < Num a -> exists a', arr_set a i v = Some a' /\ Num a' = Num a.
Proof.
  intros Hi. unfold arr_set, Num in *. rewrite bool_decide_eq_true_2 by lia.
  eexists. split; [reflexivity|]. by rewrite length_insert.
Qed.

Lemma elem_of_by_threes (n i : Z) :
  i ∈ by_threes n <-> exists k, i = 3 * k /\ 0 <= k /\ 3 * k < n.
Proof.
  unfold by_threes. rewrite list_elem_of_fmap. split.
  - intros (k & -> & Hk%elem_of_upto). exists k. split; [done|].
    split; [lia|]. assert (3 * ((n + 2) / 3) <= n + 2) by (apply Z.mul_div_le; lia).
    lia.
  - intros (k & -> & Hk0 & Hk). exists k. split; [done|]. apply elem_of_upto.
    assert (k + 1 <= (n + 2) / 3) by (apply Z.div_le_lower_bound; lia). lia.
Qed.

Lemma existsb_eqb_elem (n : string) (l : list string) :
  existsb (String.eqb n) l = true <-> n ∈ l.
Proof.
  rewrite existsb_exists. split.
  - intros (x & Hin & ->%String.eqb_eq). by apply list_elem_of_In.
  - intros Hin. exists n. split; [by apply list_elem_of_In|].
    apply String.eqb_refl.
Qed.

(** ** The rebuilt mesh *)

Module MeshFacts.
Import Terrain Props TerrainFacts.
Section Facts.
Context {F : Type} {SF : Scalar F} {TB : MCTables} {NS : Noise F}.

Lemma AddNormal_length (FaceNormal Candidate : FVector F) (Ns : list (FVector F)) :
  Num (AddNormal FaceNormal Candidate Ns) = Num Ns + 1.
Proof.
  destruct (AddNormal_spec FaceNormal Candidate Ns) as (n & -> & _).
  unfold Num. rewrite length_app. simpl. lia.
Qed.

Lemma emit_triangle_soup (r0 r1 r2 : FVertexInterpResult F) (m : MeshData F) :
  triangle_soup m -> triangle_soup (emit_triangle r0 r1 r2 m).
Proof.
  intros (Htri & Hnorm & Hmod). unfold triangle_soup, emit_triangle. simpl.
  rewrite !AddNormal_length.
  assert (HV : Num (Vertices m ++ [Position r0; Position r1; Position r2])
               = Num (Vertices m) + 3).
  { unfold Num. rewrite length_app. simpl. lia. }
  rewrite HV. split; [|split].
  - rewrite upto_snoc3 by (unfold Num; lia). by rewrite Htri.
  - lia.
  - rewrite <- Hmod. replace (Num (Vertices m) + 3) with (Num (Vertices m) + 1 * 3) by lia.
    apply Z.mod_add. lia.
Qed.

Lemma emit_triangles_soup (n : nat) :
  forall (row : list Z) (vertList : list (option (FVertexInterpResult F)))
         (m m' : MeshData F),
  (length row <= n)%nat ->
  triangle_soup m ->
  emit_triangles row vertList m = Some m' ->
  triangle_soup m'.
Proof.
  induction n as [|n IH]; intros row vertList m m' Hlen Hm.
  - destruct row; [discriminate|simpl in Hlen; lia].
  - destruct row as [|e0 [|e1 [|e2 row']]]; simpl; try discriminate.
    + destruct (e0 =? -1); [by intros [= <-]|discriminate].
    + destruct (e0 =? -1); [by intros [= <-]|discriminate].
    + destruct (e0 =? -1); [by intros [= <-]|].
      destruct (vert_at vertList e0) as [r0|]; simpl; [|discriminate].
      destruct (vert_at vertList e1) as [r1|]; simpl; [|discriminate].
      destruct (vert_at vertList e2) as [r2|]; simpl; [|discriminate].
      apply IH; [simpl in Hlen; lia|]. by apply emit_triangle_soup.
Qed.

Lemma march_cube_soup (Size : Z) (Scale IsoLevel : F) (D : list F)
    (G : list (FVector F)) (x y z : Z) (m m' : MeshData F) :
  triangle_soup m ->
  march_cube Size Scale IsoLevel D G x y z m = Some m' ->
  triangle_soup m'.
Proof.
  intros Hm. unfold march_cube.
  destruct (mapM _ CornerOffsets) as [cs|]; simpl; [|discriminate].
  destruct (edgeTable (cubeIndex_of IsoLevel cs) =? 0); [by intros [= <-]|].
  destruct (make_vertList _ _ _) as [vl|]; simpl; [|discriminate].
  by apply (emit_triangles_soup (length (triTable (cubeIndex_of IsoLevel cs)))).
Qed.

Lemma march_cubes_soup (Size : Z) (Scale IsoLevel : F) (D : list F)
    (G : list (FVector F)) (m : MeshData F) :
  march_cubes Size Scale IsoLevel D G = Some m -> triangle_soup m.
Proof.
  unfold march_cubes.
  apply (for_each_inv triangle_soup); [by repeat split|].
  intros z m1 m1' _ Hm1. apply (for_each_inv triangle_soup); [done|].
  intros y m2 m2' _ Hm2. apply (for_each_inv triangle_soup); [done|].
  intros x m3 m3' _ Hm3. by apply march_cube_soup.
Qed.

(** What a rebuild changes: the mesh section and the count of rebuilds. *)
Lemma Rebuild_frame (c c' : UProceduralTerrain F) :
  RebuildMeshFromCurrentDensity c = Some c' ->
  c' = with_Mesh (MeshSection0 c') (count_rebuild c).
Proof.
  unfold RebuildMeshFromCurrentDensity.
  destruct (inconsistent (count_rebuild c)); [by intros [= <-]|].
  destruct (ComputeGradients _ _ _) as [G|]; simpl; [|discriminate].
  destruct (march_cubes _ _ _ _ _) as [m|]; simpl; [|discriminate].
  by intros [= <-].
Qed.

(** X1.  Every mesh that the rebuild produces is a triangle soup: the index
    buffer is [0, 1, 2, ...] in order, there is one index and one normal
    per vertex, and the vertices come in threes.  No vertex is shared
    between two triangles. *)
Theorem X1_Rebuild_triangle_soup (c c' : UProceduralTerrain F) (m : MeshData F) :
  RebuildMeshFromCurrentDensity c = Some c' ->
  MeshSection0 c' = Some m ->
  triangle_soup m.
Proof.
  unfold RebuildMeshFromCurrentDensity.
  destruct (inconsistent (count_rebuild c)).
  { intros [= <-]. discriminate. }
  destruct (ComputeGradients _ _ _) as [G|]; simpl; [|discriminate].
  destruct (march_cubes _ _ _ _ _) as [m0|] eqn:Hm0; simpl; [|discriminate].
  intros [= <-]. simpl. intros [= <-]. by eapply march_cubes_soup.
Qed.

Lemma fetch_corner_val (Size : Z) (Scale : F) (D : list F)
    (G : list (FVector F)) (x y z : Z) (o : Z * Z * Z) (cr : Corner F) :
  fetch_corner Size Scale D G x y z o = Some cr -> val cr ∈ D.
Proof.
  destruct o as [[dx dy] dz]. unfold fetch_corner.
  destruct (arr_get D _) as [v|] eqn:E; simpl; [|discriminate].
  destruct (arr_get G _) as [g|]; simpl; [|discriminate].
  intros [= <-]. simpl. unfold arr_get in E.
  case_bool_decide; [|discriminate]. by eapply list_elem_of_lookup_2.
Qed.

Lemma cubeIndex_of_none (IsoLevel : F) (cs : list (Corner F)) :
  Forall (fun cr => (val cr <? IsoLevel)%F = false) cs ->
  cubeIndex_of IsoLevel cs = 0.
Proof.
  unfold cubeIndex_of. generalize [1; 2; 4; 8; 16; 32; 64; 128]. generalize 0.
  intros acc bits Hall. revert acc bits.
  induction Hall as [|cr cs Hcr _ IH]; intros acc [|b bits]; simpl; try done.
  rewrite Hcr. apply IH.
Qed.

Lemma cubeIndex_of_all (IsoLevel : F) (cs : list (Corner F)) :
  length cs = 8%nat ->
  Forall (fun cr => (val cr <? IsoLevel)%F = true) cs ->
  cubeIndex_of IsoLevel cs = 255.
Proof.
  intros Hlen Hall.
  do 8 (destruct cs as [|? cs]; [discriminate|]).
  destruct cs; [|discriminate].
  repeat match goal with
         | H : Forall _ (_ :: _) |- _ => apply Forall_cons in H as [? H]
         end.
  unfold cubeIndex_of. simpl.
  repeat match goal with H : (_ <? _)%F = true |- _ => rewrite H; clear H end.
  reflexivity.
Qed.

(** A cube none of whose corners, or all of whose corners, lie below the
    iso level adds nothing to the mesh. *)
Lemma march_cube_flat (Size : Z) (Scale IsoLevel : F) (D : list F)
    (G : list (FVector F)) (x y z : Z) (m : MeshData F) (below : bool) :
  1 < Size -> Num D = Size ^ 3 -> Num D <= INT32_MAX -> Num G = Size ^ 3 ->
  0 <= x < Size - 1 -> 0 <= y < Size - 1 -> 0 <= z < Size - 1 ->
  edgeTable (if below then 255 else 0) = 0 ->
  Forall (fun d => (d <? IsoLevel)%F = below) D ->
  march_cube Size Scale IsoLevel D G x y z m = Some m.
Proof.
  intros Hsize Hnum Hfit HG Hx Hy Hz Hrow Hflat. unfold march_cube.
  destruct (mapM (fetch_corner Size Scale D G x y z) CornerOffsets)
    as [cs|] eqn:Hcs.
  2:{ exfalso. apply eq_None_not_Some in Hcs. apply Hcs, mapM_is_Some.
      apply Forall_forall. intros o Ho.
      by apply fetch_corner_in_bounds. }
  simpl. apply mapM_Some_1 in Hcs.
  assert (Hvals : Forall (fun cr => (val cr <? IsoLevel)%F = below) cs).
  { apply Forall_forall. intros cr Hin.
    apply list_elem_of_lookup in Hin as [i Hi].
    destruct (Forall2_lookup_r _ _ _ _ _ Hcs Hi) as (o & _ & Ho).
    apply fetch_corner_val in Ho.
    by apply (proj1 (Forall_forall _ _) Hflat). }
  assert (Hidx : cubeIndex_of IsoLevel cs = if below then 255 else 0).
  { destruct below.
    - apply cubeIndex_of_all; [|done].
      by rewrite <- (Forall2_length _ _ _ Hcs).
    - by apply cubeIndex_of_none. }
  by rewrite Hidx, Hrow.
Qed.

(** X2.  A consistent field (size above 1, [size ^ 3] samples) that the iso
    level does not cross gives an empty mesh.  When no sample lies below
    the iso level and entry 0 of the edge table is 0 ([below = false]), or
    every sample lies below it and entry 255 is 0 ([below = true]), the
    rebuild returns and section 0 holds no vertex, no index and no
    normal. *)
Theorem X2_Rebuild_without_crossing (c : UProceduralTerrain F) (below : bool) :
  1 < CurrentSize c ->
  Num (Density c) = CurrentSize c ^ 3 ->
  Num (Density c) <= INT32_MAX ->
  edgeTable (if below then 255 else 0) = 0 ->
  Forall (fun d => (d <? CurrentIsoLevel c)%F = below) (Density c) ->
  RebuildMeshFromCurrentDensity c
  = Some (CreateMeshSection (mkMesh [] [] [])
            (ClearAllMeshSections (count_rebuild c))).
Proof.
  intros Hsize Hnum Hfit Hrow Hflat. unfold RebuildMeshFromCurrentDensity.
  assert (Hok : inconsistent (count_rebuild c) = false).
  { unfold inconsistent. simpl. rewrite Cubed_exact by lia.
    destruct (Z.leb_spec (CurrentSize c) 1); [lia|]. simpl.
    apply negb_false_iff, Z.eqb_eq, Hnum. }
  rewrite Hok. simpl.
  destruct (ComputeGradients_total (CurrentSize c) (CurrentScale c) (Density c))
    as (G & -> & HG); [done..|]. simpl.
  assert (Hm : march_cubes (CurrentSize c) (CurrentScale c) (CurrentIsoLevel c)
                 (Density c) G = Some (mkMesh [] [] [])); [|by rewrite Hm].
  unfold march_cubes.
  set (P := fun m : MeshData F => m = mkMesh [] [] []).
  destruct (for_each_total P (upto (CurrentSize c - 1))
              (fun z => for_each (upto (CurrentSize c - 1)) (fun y =>
                 for_each (upto (CurrentSize c - 1)) (fun x =>
                   march_cube (CurrentSize c) (CurrentScale c)
                     (CurrentIsoLevel c) (Density c) G x y z)))
              (mkMesh [] [] [])) as (m & Hrun & ->); [done| |exact Hrun].
  intros z m1 Hz%elem_of_upto ->. apply (for_each_total P); [done|].
  intros y m2 Hy%elem_of_upto ->. apply (for_each_total P); [done|].
  intros x m3 Hx%elem_of_upto ->.
  exists (mkMesh [] [] []). split; [|done].
  by apply (march_cube_flat _ _ _ _ _ _ _ _ _ below).
Qed.

End Facts.
End MeshFacts.

(** ** Digging *)

Module DigFacts.
Import Terrain World Props DigSpec TerrainFacts MeshFacts WorldFacts.
Section Facts.
Context {F : Type} {SF : Scalar F} {TB : MCTables} {NS : Noise F}.

(** X3.  [DigSphere] on a component that is not degenerate and holds
    [size ^ 3] samples, when the bound [centre + RadiusVoxels] of each of
    the three loops is below [INT32_MAX] (at that bound the loop has no
    exit): the loops exit and make no out-of-range access, the number of
    samples is kept, and the rebuild is then called on the new field.  The
    sample of a cell changes only when the cell is within [RadiusVoxels]
    samples of the rounded centre on each axis and at a distance
    [d <= RadiusVoxels] from the position itself (not rounded); it is then
    increased by [Strength * (1 - d / RadiusVoxels)]. *)
Theorem X3_DigSphere_samples (WorldPosition : FVector F) (Radius Strength : F)
    (c : UProceduralTerrain F) :
  degenerate c = false ->
  Num (Density c) = CurrentSize c ^ 3 ->
  CurrentSize c ^ 3 <= INT32_MAX ->
  i32 (RoundToInt (vx (LocalVoxelPosition c WorldPosition))
       + RadiusVoxels c Radius) < INT32_MAX ->
  i32 (RoundToInt (vy (LocalVoxelPosition c WorldPosition))
       + RadiusVoxels c Radius) < INT32_MAX ->
  i32 (RoundToInt (vz (LocalVoxelPosition c WorldPosition))
       + RadiusVoxels c Radius) < INT32_MAX ->
  exists D',
    DigSphere WorldPosition Radius Strength c
    = RebuildMeshFromCurrentDensity (with_Density D' c)
    /\ Num D' = Num (Density c)
    /\ forall x y z,
         0 <= x < CurrentSize c -> 0 <= y < CurrentSize c ->
         0 <= z < CurrentSize c ->
         let i := x + y * CurrentSize c + z * CurrentSize c * CurrentSize c in
         let P := LocalVoxelPosition c WorldPosition in
         exists old,
           arr_get (Density c) i = Some old
           /\ arr_get D' i
              = Some (if in_reach (RoundToInt (vx P)) (RoundToInt (vy P))
                                  (RoundToInt (vz P)) (RadiusVoxels c Radius)
                                  x y z
                      then dug P (RadiusVoxels c Radius) Strength x y z old
                      else old).
Proof.
  intros Hdeg Hnum Hfit HxR HyR HzR. unfold DigSphere. rewrite Hdeg. cbv zeta.
  fold (LocalVoxelPosition c WorldPosition). fold (RadiusVoxels c Radius).
  destruct (dig_loop (CurrentSize c)
              (RoundToInt (vx (LocalVoxelPosition c WorldPosition)))
              (RoundToInt (vy (LocalVoxelPosition c WorldPosition)))
              (RoundToInt (vz (LocalVoxelPosition c WorldPosition)))
              (RadiusVoxels c Radius) (LocalVoxelPosition c WorldPosition)
              Strength (Density c) Hnum Hfit HxR HyR HzR)
    as (D' & Hrun & HD' & Hcells).
  exists D'. cbv zeta in Hrun. rewrite Hrun. simpl.
  split; [reflexivity|]. split; [exact HD'|exact Hcells].
Qed.

(** X4.  [DigAt] on a chunk that holds samples, meets the sphere and stores
    [ChunkSize ^ 3] of them, when the bound [centre + reach] of each of the
    three loops is below [INT32_MAX] (at that bound the loop has no exit):
    the loops exit and make no out-of-range access, the number of samples
    is kept, and the rebuild is then called on the new field.  The sample
    of a cell changes only when the cell is within
    [ceil(Radius / TerrainScale)] samples of the rounded centre on each
    axis and at a distance [d] from the rounded centre that is at most that
    reach; it is then increased by [Strength * (1 - d / reach)].  The cells
    are addressed with the size of the world, not the one the chunk
    stores. *)
Theorem X4_DigAt_samples (w : AProceduralTerrainWorld F)
    (WorldPosition : FVector F) (Radius Strength : F)
    (Chunk : UProceduralTerrain F) :
  affected w WorldPosition Radius Chunk = true ->
  Num (Density Chunk) = ChunkSize w ^ 3 ->
  ChunkSize w ^ 3 <= INT32_MAX ->
  i32 (RoundToInt (vx (LocalVoxelPos w Chunk WorldPosition))
       + CeilToInt (Radius / TerrainScale w)%F) < INT32_MAX ->
  i32 (RoundToInt (vy (LocalVoxelPos w Chunk WorldPosition))
       + CeilToInt (Radius / TerrainScale w)%F) < INT32_MAX ->
  i32 (RoundToInt (vz (LocalVoxelPos w Chunk WorldPosition))
       + CeilToInt (Radius / TerrainScale w)%F) < INT32_MAX ->
  exists D',
    DigAt_chunk w WorldPosition Radius Strength Chunk
    = RebuildMeshFromCurrentDensity (with_Density D' Chunk)
    /\ Num D' = Num (Density Chunk)
    /\ forall x y z,
         0 <= x < ChunkSize w -> 0 <= y < ChunkSize w -> 0 <= z < ChunkSize w ->
         let i := x + y * ChunkSize w + z * ChunkSize w * ChunkSize w in
         let P := LocalVoxelPos w Chunk WorldPosition in
         let XCenter := RoundToInt (vx P) in
         let YCenter := RoundToInt (vy P) in
         let ZCenter := RoundToInt (vz P) in
         let Reach := CeilToInt (Radius / TerrainScale w)%F in
         exists old,
           arr_get (Density Chunk) i = Some old
           /\ arr_get D' i
              = Some (if in_reach XCenter YCenter ZCenter Reach x y z
                      then dug (of_ints XCenter YCenter ZCenter) Reach Strength
                               x y z old
                      else old).
Proof.
  intros Hyes Hnum Hfit HxR HyR HzR.
  apply DigAt_chunk_loop; [exact Hyes|].
  constructor; [exact Hnum|exact Hfit|exact HxR|exact HyR|exact HzR].
Qed.

End Facts.
End DigFacts.

(** ** Generation: the voxel field and the height map *)

Module GenerationFacts.
Import Terrain Props TerrainFacts MeshFacts.
Section Field.
Context {F : Type} {SF : Scalar F} {TB : MCTables} {NS : Noise F}.

(** X5.  [CreateProceduralTerrain3D] with a size that is not negative and
    whose cube fits an [int32]: the size, the scale and the iso level are
    stored, the field gets [Size ^ 3] samples, the sample of cell
    [(x, y, z)] is [(z - HeightBias) + noise3D((x, y, z) * NoiseScale) *
    NoiseStrength], whatever the component held before and wherever it is
    placed, and the rebuild is called on the result.  The noise is sampled
    at the grid coordinates: neither the scale nor the location of the
    component enters the samples. *)
Theorem X5_CreateProceduralTerrain3D_cells (Size : Z)
    (Scale NoiseScale HeightBias NoiseStrength IsoLevel : F)
    (c : UProceduralTerrain F) :
  0 <= Size -> Size ^ 3 <= INT32_MAX ->
  exists D,
    CreateProceduralTerrain3D Size Scale NoiseScale HeightBias NoiseStrength
                              IsoLevel c
    = RebuildMeshFromCurrentDensity
        (with_Density D (with_params Size Scale IsoLevel c))
    /\ Num D = Size ^ 3
    /\ forall x y z,
         0 <= x < Size -> 0 <= y < Size -> 0 <= z < Size ->
         arr_get D (x + y * Size + z * Size * Size)
         = Some ((of_int z - HeightBias)
                 + PerlinNoise3D (vscale (of_ints x y z) NoiseScale)
                   * NoiseStrength)%F.
Proof.
  intros Hpos Hfit. unfold CreateProceduralTerrain3D.
  assert (Hcube : 0 <= Size ^ 3) by (apply Z.pow_nonneg; lia).
  rewrite Cubed_exact by lia.
  destruct (SetNum_Some fzero (Size ^ 3)
              (Density (with_params Size Scale IsoLevel c)))
    as (D0 & HS & HD0); [done|].
  rewrite HS. simpl. rewrite for_each_nest3.
  match goal with
  | |- context [for_each ?l ?b D0] =>
      destruct (for_each_writes
                  (fun t : Z * Z * Z => t.1.1 + t.1.2 * Size + t.2 * Size * Size)
                  (fun t : Z * Z * Z =>
                     ((of_int t.2 - HeightBias)
                      + PerlinNoise3D (vscale (of_ints t.1.1 t.1.2 t.2) NoiseScale)
                        * NoiseStrength)%F)
                  (Size ^ 3) b l) with (D := D0)
        as (D' & Hrun & HD' & Hval & _)
  end.
  - intros [[x y] z] D Hin HD. apply elem_of_cells in Hin as (Hx & Hy & Hz).
    simpl in Hx, Hy, Hz. apply elem_of_upto in Hx, Hy, Hz. simpl.
    rewrite GetIndex_exact by done.
    destruct (cube_bounds Size x y z Hx Hy Hz) as (_ & _ & _ & Hi).
    match goal with |- context [arr_set D ?i ?v] =>
      destruct (arr_set D i v) as [D1|] eqn:E1 end.
    2:{ unfold arr_set in E1. rewrite bool_decide_eq_true_2 in E1; [done|].
        unfold Num in HD. lia. }
    exists D1. split; [done|].
    split; [unfold Num in *; by rewrite (arr_set_length _ _ _ _ E1)|].
    split; [by eapply arr_get_set_eq|].
    intros j Hj. by apply (arr_get_set_ne _ _ _ _ _ E1).
  - exact HD0.
  - exists D'. rewrite Hrun. simpl. split; [done|]. split; [done|].
    intros x y z Hx Hy Hz.
    apply (Hval (x, y, z)).
    + apply elem_of_cells. simpl. by rewrite !elem_of_upto.
    + intros [[x' y'] z'] Hin Heq. simpl in Heq.
      apply elem_of_cells in Hin as (Hx' & Hy' & Hz'). simpl in Hx', Hy', Hz'.
      apply elem_of_upto in Hx', Hy', Hz'.
      destruct (index_injective Size x' y' z' x y z) as (-> & -> & ->); done.
Qed.

End Field.

Section HeightMap.
Context {F : Type} {SF : Scalar F} {N2 : Noise2D F}.

(** One step of the accumulation loop: add [n] to the normal of vertex
    [i]. *)
Lemma accumulate_step (Normals : list (FVector F)) (i : Z) (n : FVector F) :
  0 <= i < Num Normals ->
  exists Normals',
    (v ← arr_get Normals i; arr_set Normals i (vadd v n)) = Some Normals'
    /\ Num Normals' = Num Normals.
Proof.
  intros Hi. destruct (arr_get_Some Normals i Hi) as [v ->]. simpl.
  by apply arr_set_Some.
Qed.

(** X6.  [CreateProceduralTerrain] on a grid of at least 1 x 1 points whose
    count fits an [int32] returns without an out-of-range access, whatever
    the array of normals held when it was sized.  The mesh has
    [Height * Width] vertices and as many normals, two triangles per grid
    square ([6 * (Height - 1) * (Width - 1)] indices), every index names a
    vertex, and the vertex of the grid point [(x, y)] is at position
    [x + y * Width] with the coordinates
    [(x * Scale, y * Scale, noise2D((x, y) * NoiseScale) * MaxHeight)]. *)
Theorem X6_CreateProceduralTerrain_mesh (Uninitialized : Z -> FVector F)
    (Height Width : Z) (NoiseScale MaxHeight Scale : F)
    (c : UProceduralTerrain F) :
  1 <= Height -> 1 <= Width -> Height * Width <= INT32_MAX ->
  exists m,
    CreateProceduralTerrain Uninitialized Height Width NoiseScale MaxHeight
                            Scale c
    = Some (CreateMeshSection m c)
    /\ Num (Vertices m) = Height * Width
    /\ Num (Normals m) = Height * Width
    /\ Num (Triangles m) = 6 * ((Height - 1) * (Width - 1))
    /\ Forall (fun i => 0 <= i < Height * Width) (Triangles m)
    /\ forall x y,
         0 <= x < Width -> 0 <= y < Height ->
         arr_get (Vertices m) (x + y * Width)
         = Some (mkVector (of_int x * Scale)%F (of_int y * Scale)%F
                   (PerlinNoise2D (of_int x * NoiseScale)%F
                                  (of_int y * NoiseScale)%F * MaxHeight)%F).
Proof.
  intros HH HW Hfit. unfold INT32_MAX in Hfit.
  assert (HleH : Height <= Height * Width) by nia.
  assert (HleW : Width <= Height * Width) by nia.
  assert (Hid : forall v, 0 <= v <= Height * Width -> i32 v = v).
  { intros v Hv. apply i32_id. unfold INT32_MIN, INT32_MAX. lia. }
  unfold CreateProceduralTerrain. cbv zeta.
  set (vertex := fun p : Z * Z =>
         mkVector (of_int p.2 * Scale)%F (of_int p.1 * Scale)%F
           (PerlinNoise2D (of_int p.2 * NoiseScale)%F
                          (of_int p.1 * NoiseScale)%F * MaxHeight)%F).
  set (V := vertex <$> (a ← upto Height; b ← upto Width; [(a, b)])).
  assert (HV : for_each (upto Height) (fun y =>
                 for_each (upto Width) (fun x Vertices =>
                   let NoiseValue :=
                     PerlinNoise2D (of_int x * NoiseScale)%F
                                   (of_int y * NoiseScale)%F in
                   let Zh := (NoiseValue * MaxHeight)%F in
                   Some (Vertices
                         ++ [mkVector (of_int x * Scale)%F (of_int y * Scale)%F
                                      Zh]))) [] = Some V).
  { etransitivity; [apply for_each_nest2|].
    exact (for_each_append vertex _ []). }
  cbv zeta in HV. rewrite HV. clear HV. simpl.
  assert (HnV : Num V = Height * Width).
  { unfold Num, V. rewrite length_fmap. apply length_pairs; lia. }
  rewrite (Hid (Height - 1)), (Hid (Width - 1)) by lia.
  set (tri := fun p : Z * Z =>
         let i := i32 (p.2 + i32 (p.1 * Width)) in
         [i; i32 (i + Width); i32 (i32 (i + Width) + 1);
          i; i32 (i32 (i + Width) + 1); i32 (i + 1)]).
  set (T := (a ← upto (Height - 1); b ← upto (Width - 1); [(a, b)]) ≫= tri).
  assert (HT : for_each (upto (Height - 1)) (fun y =>
                 for_each (upto (Width - 1)) (fun x Triangles =>
                   let i := i32 (x + i32 (y * Width)) in
                   Some ((Triangles
                          ++ [i; i32 (i + Width); i32 (i32 (i + Width) + 1)])
                         ++ [i; i32 (i32 (i + Width) + 1); i32 (i + 1)])))
               [] = Some T).
  { etransitivity; [apply for_each_nest2|].
    etransitivity; [|exact (for_each_extend tri _ [])].
    apply for_each_ext. intros p s _. cbv zeta. unfold tri.
    by rewrite <- app_assoc. }
  cbv zeta in HT. rewrite HT. clear HT. simpl.
  assert (HnT : Num T = 6 * ((Height - 1) * (Width - 1))).
  { unfold Num, T. rewrite (length_bind_const _ 6%nat) by done.
    pose proof (length_pairs (Height - 1) (Width - 1) ltac:(lia) ltac:(lia)).
    lia. }
  assert (HrT : Forall (fun i => 0 <= i < Height * Width) T).
  { apply Forall_forall. intros t Ht. unfold T in Ht.
    apply list_elem_of_bind in Ht as ([y x] & Ht & Hp).
    apply elem_of_pairs in Hp as [Hy Hx]. simpl in Hy, Hx.
    unfold tri in Ht. simpl in Ht.
    assert (E1 : i32 (y * Width) = y * Width) by (apply Hid; nia).
    rewrite E1 in Ht.
    assert (E2 : i32 (x + y * Width) = x + y * Width) by (apply Hid; nia).
    rewrite E2 in Ht.
    assert (E3 : i32 (x + y * Width + Width) = x + y * Width + Width)
      by (apply Hid; nia).
    rewrite E3 in Ht.
    assert (E4 : i32 (x + y * Width + Width + 1) = x + y * Width + Width + 1)
      by (apply Hid; nia).
    rewrite E4 in Ht.
    assert (E5 : i32 (x + y * Width + 1) = x + y * Width + 1)
      by (apply Hid; nia).
    rewrite E5 in Ht.
    rewrite !elem_of_cons, elem_of_nil in Ht.
    destruct Ht as [->|[->|[->|[->|[->|[->|[]]]]]]]; nia. }
  set (N0 := Uninitialized <$> upto (Num V)).
  assert (HN0 : Num N0 = Height * Width).
  { unfold Num at 1. unfold N0. rewrite length_fmap, length_upto. lia. }
  destruct (for_each_total (fun N : list (FVector F) => Num N = Height * Width)
              (by_threes (Num T))
              (fun i Normals =>
                 i0 ← arr_get T i;
                 i1 ← arr_get T (i + 1);
                 i2 ← arr_get T (i + 2);
                 V0 ← arr_get V i0;
                 V1 ← arr_get V i1;
                 V2 ← arr_get V i2;
                 let Edge1 := vsub V1 V0 in
                 let Edge2 := vsub V2 V0 in
                 let Normal := GetSafeNormal (CrossProduct Edge1 Edge2) in
                 n ← arr_get Normals i0;
                 Normals ← arr_set Normals i0 (vadd n Normal);
                 n ← arr_get Normals i1;
                 Normals ← arr_set Normals i1 (vadd n Normal);
                 n ← arr_get Normals i2; arr_set Normals i2 (vadd n Normal))
              N0 HN0) as (N1 & HN1 & HnN1).
  { intros i N (k & -> & Hk0 & Hk)%elem_of_by_threes HN.
    destruct (arr_get_Some T (3 * k)) as [i0 Hi0]; [lia|].
    destruct (arr_get_Some T (3 * k + 1)) as [i1 Hi1]; [lia|].
    destruct (arr_get_Some T (3 * k + 2)) as [i2 Hi2]; [lia|].
    rewrite Hi0, Hi1, Hi2. simpl.
    pose proof (proj1 (Forall_forall _ _) HrT i0 (arr_get_elem _ _ _ Hi0)) as R0.
    pose proof (proj1 (Forall_forall _ _) HrT i1 (arr_get_elem _ _ _ Hi1)) as R1.
    pose proof (proj1 (Forall_forall _ _) HrT i2 (arr_get_elem _ _ _ Hi2)) as R2.
    cbv beta in R0, R1, R2.
    destruct (arr_get_Some V i0) as [V0 ->]; [lia|].
    destruct (arr_get_Some V i1) as [V1 ->]; [lia|].
    destruct (arr_get_Some V i2) as [V2 ->]; [lia|]. simpl.
    set (n := GetSafeNormal _).
    destruct (accumulate_step N i0 n) as (Na & Ea & HNa); [lia|].
    destruct (accumulate_step Na i1 n) as (Nb & Eb & HNb); [lia|].
    destruct (accumulate_step Nb i2 n) as (Nc & Ec & HNc); [lia|].
    exists Nc. split; [|lia].
    destruct (arr_get N i0) as [v0|]; simpl in Ea |- *; [|discriminate].
    rewrite Ea. simpl.
    destruct (arr_get Na i1) as [v1|]; simpl in Eb |- *; [|discriminate].
    rewrite Eb. simpl. exact Ec. }
  cbv zeta in HN1. fold N0. rewrite HN1. simpl.
  eexists. split; [reflexivity|]. simpl.
  split; [exact HnV|]. split.
  { unfold Num. rewrite length_fmap. exact HnN1. }
  split; [exact HnT|]. split; [exact HrT|].
  intros x y Hx Hy. unfold arr_get. rewrite bool_decide_eq_true_2 by nia.
  unfold V. rewrite list_lookup_fmap, lookup_pairs by done. reflexivity.
Qed.

End HeightMap.
End GenerationFacts.

(** ** Names and files *)

Module NameFacts.
Import Terrain World Props.

(** ** Names and paths *)

Lemma append_cancel_l (p s t : string) : p +:+ s = p +:+ t -> s = t.
Proof. induction p as [|a p IH]; simpl; [done|]. intros [= E]. by apply IH. Qed.

Lemma length_append (s t : string) :
  String.length (s +:+ t) = (String.length s + String.length t)%nat.
Proof. induction s as [|a s IH]; simpl; [done|]. by rewrite IH. Qed.

Lemma append_cancel_r (s s' t : string) : s +:+ t = s' +:+ t -> s = s'.
Proof.
  revert s'. induction s as [|a s IH]; intros [|a' s']; simpl.
  - done.
  - intros E. apply (f_equal String.length) in E.
    rewrite ?length_append in E. simpl in E. rewrite ?length_append in E. lia.
  - intros E. apply (f_equal String.length) in E.
    rewrite ?length_append in E. simpl in E. rewrite ?length_append in E. lia.
  - intros [= -> E]. f_equal. by apply IH.
Qed.

(** A separator that occurs in neither prefix splits a string in one way
    only. *)
Lemma split_unique (sep : Ascii.ascii) (a a' t t' : string) :
  free_of sep a = true -> free_of sep a' = true ->
  a +:+ String sep t = a' +:+ String sep t' -> a = a' /\ t = t'.
Proof.
  revert a'. induction a as [|c a IH]; intros [|c' a']; simpl.
  - by intros _ _ [= ->].
  - intros _ Hfree [= <- _].
    by rewrite Ascii.eqb_refl in Hfree.
  - intros Hfree _ [= -> _].
    by rewrite Ascii.eqb_refl in Hfree.
  - intros [_ Ha]%andb_true_iff [_ Ha']%andb_true_iff [= -> E].
    destruct (IH a' Ha Ha' E) as [-> ->]. done.
Qed.

Lemma to_int_not_nil (z : Z) :
  Z.to_int z <> Decimal.Pos Decimal.Nil /\ Z.to_int z <> Decimal.Neg Decimal.Nil.
Proof.
  destruct z as [|p|p]; simpl; split; try discriminate;
    intros [= E]; by apply DecimalPos.Unsigned.to_uint_nonnil in E.
Qed.

Lemma string_of_uint_free (d : Decimal.uint) :
  free_of "_"%char (NilEmpty.string_of_uint d) = true.
Proof. induction d; simpl; auto. Qed.

Lemma dec_inj (a b : Z) : dec a = dec b -> a = b.
Proof.
  unfold dec. intros E. apply DecimalZ.to_int_inj.
  destruct (to_int_not_nil a) as [Ha1 Ha2].
  destruct (to_int_not_nil b) as [Hb1 Hb2].
  pose proof (NilZero.isi _ Ha1 Ha2) as Ia.
  pose proof (NilZero.isi _ Hb1 Hb2) as Ib.
  rewrite E in Ia. congruence.
Qed.

Lemma dec_free (z : Z) : free_of "_"%char (dec z) = true.
Proof.
  unfold dec. destruct (Z.to_int z) as [d|d]; simpl.
  - destruct d; try apply string_of_uint_free. reflexivity.
  - destruct d; try apply string_of_uint_free. reflexivity.
Qed.

Lemma ChunkName_inj (x y z x' y' z' : Z) :
  ChunkName x y z = ChunkName x' y' z' -> x = x' /\ y = y' /\ z = z'.
Proof.
  unfold ChunkName. intros E.
  apply (append_cancel_l "Chunk_") in E.
  apply split_unique in E as [Ex E]; [|apply dec_free..].
  apply split_unique in E as [Ey Ez]; [|apply dec_free..].
  by rewrite (dec_inj _ _ Ex), (dec_inj _ _ Ey), (dec_inj _ _ Ez).
Qed.

Lemma ChunkFile_inj (n n' : string) : ChunkFile n = ChunkFile n' -> n = n'.
Proof.
  unfold ChunkFile, path_join, SaveDir. intros E.
  apply (append_cancel_l "TerrainChunks") in E.
  apply (append_cancel_l "/TerrainChunks_") in E.
  by apply append_cancel_r in E.
Qed.

Lemma path_join_inj (d a b : string) : path_join d a = path_join d b -> a = b.
Proof.
  unfold path_join. intros E. apply append_cancel_l in E.
  by apply (append_cancel_l "/") in E.
Qed.

(** X10.  Chunks at different cells have different names and different save
    files: the path under which a chunk is saved determines its three
    coordinates. *)
Theorem X10_chunk_files_distinct (dir : string) (x y z x' y' z' : Z) :
  path_join dir (ChunkFile (ChunkName x y z))
  = path_join dir (ChunkFile (ChunkName x' y' z')) ->
  x = x' /\ y = y' /\ z = z'.
Proof.
  intros E. by apply ChunkName_inj, ChunkFile_inj, (path_join_inj dir).
Qed.

End NameFacts.

(** ** Persistence of one component *)

Module PersistenceFacts.
Import Terrain Props TerrainFacts MeshFacts.
Section Facts.
Context {F : Type} {SF : Scalar F} {TB : MCTables} {NS : Noise F}
        {FM : FileManager F}.

Lemma SavedRecord_fields (c : UProceduralTerrain F) :
  GetIntegerField (SavedRecord c) "Size" = TruncToInt (of_int (CurrentSize c))
  /\ GetNumberField (SavedRecord c) "Scale" = CurrentScale c
  /\ GetNumberField (SavedRecord c) "IsoLevel" = CurrentIsoLevel c
  /\ TryGetArrayField (SavedRecord c) "Density"
     = Some (JsonNumber <$> Density c).
Proof.
  unfold GetIntegerField, GetNumberField, TryGetArrayField, SavedRecord.
  split; [|split; [|split]];
    rewrite ?lookup_insert_ne by done; by rewrite lookup_insert_eq.
Qed.

(** The mesh of a rebuild depends on the size, the scale, the iso level and
    the samples only. *)
Lemma Rebuild_mesh_ext (c1 c2 : UProceduralTerrain F) :
  CurrentSize c1 = CurrentSize c2 -> CurrentScale c1 = CurrentScale c2 ->
  CurrentIsoLevel c1 = CurrentIsoLevel c2 -> Density c1 = Density c2 ->
  MeshSection0 <$> RebuildMeshFromCurrentDensity c1
  = MeshSection0 <$> RebuildMeshFromCurrentDensity c2.
Proof.
  intros Hs Hsc Hi Hd. unfold RebuildMeshFromCurrentDensity, inconsistent.
  simpl. rewrite Hs, Hsc, Hi, Hd.
  destruct (_ || _); [done|].
  destruct (ComputeGradients _ _ _) as [G|]; simpl; [|done].
  by destruct (march_cubes _ _ _ _ _).
Qed.

Lemma Saved_file (disk : Disk F) (FileName : string) (c : UProceduralTerrain F) :
  Density c <> [] ->
  CanSave (path_join (ProjectSavedDir disk) FileName) = true ->
  ProjectSavedDir (SaveDensityToJSON disk FileName c) = ProjectSavedDir disk
  /\ Files (SaveDensityToJSON disk FileName c)
     = <[path_join (ProjectSavedDir disk) FileName := Serialize (SavedRecord c)]>
         (Files disk).
Proof.
  intros Hne Hcan. unfold SaveDensityToJSON.
  destruct (Num (Density c) =? 0) eqn:E.
  { apply Z.eqb_eq in E. unfold Num in E. destruct (Density c); [done|].
    simpl in E. lia. }
  by rewrite Hcan.
Qed.

(** Loading the record that a save wrote for [c] gives any component the
    parameters and the samples of [c], and rebuilds its mesh. *)
Lemma Load_saved_record (disk : Disk F) (FileName : string)
    (c c0 : UProceduralTerrain F) :
  Files disk !! path_join (ProjectSavedDir disk) FileName
    = Some (Serialize (SavedRecord c)) ->
  Serialize (SavedRecord c) = JsonText (SavedRecord c) ->
  TruncToInt (of_int (CurrentSize c)) = CurrentSize c ->
  LoadDensityFromJSON disk FileName c0
  = RebuildMeshFromCurrentDensity
      (with_Density (Density c)
         (with_params (CurrentSize c) (CurrentScale c) (CurrentIsoLevel c) c0)).
Proof.
  intros Hfile Hexact Hsize.
  destruct (SavedRecord_fields c) as (Fsize & Fscale & Fiso & Farr).
  rewrite (LoadDensityFromJSON_parsed disk FileName c0 (SavedRecord c)
             (JsonNumber <$> Density c)).
  - rewrite Fsize, Fscale, Fiso, Hsize. do 2 f_equal.
    rewrite <- list_fmap_compose. apply list_fmap_id.
  - by rewrite Hfile, Hexact.
  - exact Farr.
Qed.

(** X7.  Saving a component that holds samples and loading the file into any
    component gives that component the size, the scale, the iso level and
    the samples that were saved, and rebuilds its mesh; the mesh is the one
    that a rebuild of the saved component gives.  The premises: the file
    can be written, the reader returns the object that the writer was
    given, and the stored size survives the conversion to a JSON number and
    back. *)
Theorem X7_Save_then_Load (disk : Disk F) (FileName : string)
    (c c0 : UProceduralTerrain F) :
  Density c <> [] ->
  CanSave (path_join (ProjectSavedDir disk) FileName) = true ->
  Serialize (SavedRecord c) = JsonText (SavedRecord c) ->
  TruncToInt (of_int (CurrentSize c)) = CurrentSize c ->
  LoadDensityFromJSON (SaveDensityToJSON disk FileName c) FileName c0
  = RebuildMeshFromCurrentDensity
      (with_Density (Density c)
         (with_params (CurrentSize c) (CurrentScale c) (CurrentIsoLevel c) c0))
  /\ MeshSection0
       <$> LoadDensityFromJSON (SaveDensityToJSON disk FileName c) FileName c0
     = MeshSection0 <$> RebuildMeshFromCurrentDensity c.
Proof.
  intros Hne Hcan Hexact Hsize.
  destruct (Saved_file disk FileName c Hne Hcan) as [Hdir Hfiles].
  rewrite (Load_saved_record _ FileName c c0); [|
    by rewrite Hdir, Hfiles, lookup_insert_eq|done|done].
  split; [reflexivity|]. by apply Rebuild_mesh_ext.
Qed.

(** X8.  The single-terrain actor across two sessions.  After [EndPlay] has
    saved a terrain that holds samples, [BeginPlay], [OnConstruction] and
    [RefreshInEditor] of any actor on the resulting disk all load it: the
    component gets the saved size, scale, iso level and samples, whatever
    the generation settings of the actor, and its mesh is rebuilt; no new
    terrain is generated. *)
Theorem X8_EndPlay_then_BeginPlay (disk : Disk F)
    (a a0 : Actor.AProceduralTerrainActor F) (t t0 : UProceduralTerrain F) :
  Actor.ProceduralTerrain a = Some t ->
  Actor.ProceduralTerrain a0 = Some t0 ->
  Density t <> [] ->
  CanSave (path_join (ProjectSavedDir disk) "TerrainDensity.json") = true ->
  Serialize (SavedRecord t) = JsonText (SavedRecord t) ->
  TruncToInt (of_int (CurrentSize t)) = CurrentSize t ->
  let restored :=
    t' ← RebuildMeshFromCurrentDensity
           (with_Density (Density t)
              (with_params (CurrentSize t) (CurrentScale t)
                           (CurrentIsoLevel t) t0));
    Some (Actor.with_ProceduralTerrain t' a0) in
  Actor.BeginPlay (Actor.EndPlay disk a) a0 = restored
  /\ Actor.OnConstruction (Actor.EndPlay disk a) a0 = restored
  /\ Actor.RefreshInEditor (Actor.EndPlay disk a) a0 = restored.
Proof.
  intros Ha Ha0 Hne Hcan Hexact Hsize restored.
  destruct (Saved_file disk "TerrainDensity.json" t Hne Hcan) as [Hdir Hfiles].
  assert (Hfile : Files (Actor.EndPlay disk a)
                    !! path_join (ProjectSavedDir (Actor.EndPlay disk a))
                                 "TerrainDensity.json"
                  = Some (Serialize (SavedRecord t))).
  { unfold Actor.EndPlay. rewrite Ha, Hdir, Hfiles. apply lookup_insert_eq. }
  pose proof (Load_saved_record _ "TerrainDensity.json" t t0 Hfile Hexact Hsize)
    as Hload.
  unfold Actor.BeginPlay, Actor.OnConstruction, Actor.RefreshInEditor,
    RefreshTerrain.
  rewrite Ha0, Hfile, Hload.
  rewrite bool_decide_eq_true_2 by eauto. done.
Qed.

(** X9.  [ClearMesh] deletes the saved file and the mesh but not the
    samples.  A rebuild of the cleared component gives the mesh that a
    rebuild gave before, and an [EndPlay] that follows writes the file
    again: the disk is then the same as if [ClearMesh] had not been
    called. *)
Theorem X9_ClearMesh_keeps_samples (disk : Disk F)
    (a : Actor.AProceduralTerrainActor F) (t : UProceduralTerrain F) :
  Actor.ProceduralTerrain a = Some t ->
  Density t <> [] ->
  CanSave (path_join (ProjectSavedDir disk) "TerrainDensity.json") = true ->
  MeshSection0 <$> RebuildMeshFromCurrentDensity (ClearMesh disk t).2
  = MeshSection0 <$> RebuildMeshFromCurrentDensity t
  /\ Actor.EndPlay (ClearMesh disk t).1
                   (Actor.with_ProceduralTerrain (ClearMesh disk t).2 a)
     = Actor.EndPlay disk a.
Proof.
  intros Ha Hne Hcan. split; [by apply Rebuild_mesh_ext|].
  unfold Actor.EndPlay. rewrite Ha. simpl.
  unfold SaveDensityToJSON. simpl.
  destruct (Num (Density t) =? 0) eqn:E.
  { apply Z.eqb_eq in E. unfold Num in E. destruct (Density t); [done|].
    simpl in E. lia. }
  destruct (Files disk !! _) as [data|]; [|done].
  destruct (CanDelete _); [|done]. simpl. rewrite Hcan.
  by rewrite insert_delete_eq.
Qed.

End Facts.
End PersistenceFacts.

(** ** The grid and its generation pass *)

Module GridFacts.
Import Terrain World Props TerrainFacts MeshFacts WorldFacts NameFacts.
Section Facts.
Context {F : Type} {SF : Scalar F} {TB : MCTables} {NS : Noise F}.

(** The loading loop of [OnConstruction] when no chunk has a file. *)
Lemma load_loop_no_files (disk : Disk F) (cs acc : list (UProceduralTerrain F))
    (b : bool) :
  Forall (fun Chunk =>
            FileExists disk (path_join (ProjectSavedDir disk)
                                       (ChunkFile (Name Chunk))) = false) cs ->
  for_each cs (fun Chunk (st : list (UProceduralTerrain F) * bool) =>
      if FileExists disk (path_join (ProjectSavedDir disk)
                                    (ChunkFile (Name Chunk))) then
        c ← LoadDensityFromJSON disk (ChunkFile (Name Chunk)) Chunk;
        c ← RebuildMeshFromCurrentDensity c;
        Some (fst st ++ [c], true)
      else Some (fst st ++ [Chunk], snd st)) (acc, b)
  = Some (acc ++ cs, b).
Proof.
  intros Hall. revert acc. induction Hall as [|c cs Hc _ IH]; intros acc; simpl.
  - by rewrite app_nil_r.
  - rewrite Hc. simpl. rewrite IH, <- app_assoc. reflexivity.
Qed.

(** X11.  [OnConstruction] on a world that is not generating, when no chunk
    has a saved file: the world gets one new, empty chunk per cell of the
    grid, in the order z, y, x, [max(0, ChunksZ) * max(0, ChunksY) *
    max(0, ChunksX)] in all, with pairwise different names; the flag is
    raised, the counter of completed chunks is reset, and one density task
    per chunk is queued, all of the same new pass. *)
Theorem X11_OnConstruction_fresh_grid (disk : Disk F)
    (w : AProceduralTerrainWorld F) :
  bIsGenerating w = false ->
  (forall x y z,
     FileExists disk (path_join (ProjectSavedDir disk)
                                (ChunkFile (ChunkName x y z))) = false) ->
  exists w',
    OnConstruction disk w = Some w'
    /\ Chunks w'
       = (fun t : Z * Z * Z => spawn_chunk w t.1.1 t.1.2 t.2)
           <$> cells (upto (ChunksZ w)) (upto (ChunksY w)) (upto (ChunksX w))
    /\ Num (Chunks w')
       = Z.max 0 (ChunksZ w) * (Z.max 0 (ChunksY w) * Z.max 0 (ChunksX w))
    /\ NoDup (Name <$> Chunks w')
    /\ bIsGenerating w' = true /\ CompletedChunks w' = 0
    /\ Passes w' = S (Passes w)
    /\ Pending w'
       = Pending w
         ++ ((fun c => DensityTask (Name c) (S (Passes w))) <$> Chunks w').
Proof.
  intros Hidle Hnone. unfold OnConstruction. rewrite Hidle. cbv zeta.
  simpl. rewrite for_each_nest3.
  rewrite (for_each_append (fun t : Z * Z * Z => spawn_chunk _ t.1.1 t.1.2 t.2)).
  simpl.
  set (grid := (fun t : Z * Z * Z => spawn_chunk _ t.1.1 t.1.2 t.2) <$> _).
  rewrite (load_loop_no_files disk grid [] false).
  2:{ apply Forall_forall. intros c (t & -> & _)%list_elem_of_fmap. apply Hnone. }
  simpl. eexists. split; [reflexivity|]. simpl.
  split; [reflexivity|]. split; [|split]; [| |done].
  - unfold Num, grid. rewrite length_fmap, length_cells, !length_upto. lia.
  - unfold grid. rewrite <- list_fmap_compose.
    apply NoDup_fmap_2_strong.
    + intros [[x y] z] [[x' y'] z'] _ _ E. simpl in E.
      by apply ChunkName_inj in E as (-> & -> & ->).
    + apply NoDup_cells; apply NoDup_seqZ.
Qed.

Lemma on_chunk_length (name : string)
    (f : UProceduralTerrain F -> option (UProceduralTerrain F))
    (cs cs' : list (UProceduralTerrain F)) :
  on_chunk name f cs = Some cs' -> length cs' = length cs.
Proof.
  revert cs'. induction cs as [|c cs IH]; intros cs'; simpl; [discriminate|].
  destruct (String.eqb (Name c) name).
  - destruct (f c) as [c'|]; simpl; [|discriminate]. by intros [= <-].
  - destruct (on_chunk name f cs) as [cs''|]; simpl; [|discriminate].
    intros [= <-]. simpl. f_equal. by apply IH.
Qed.

(** What one scheduled task does to the counters of the actor. *)
Lemma step_task_counts (i : nat) (w w' : AProceduralTerrainWorld F) :
  step_task i w = Some w' ->
  Num (Chunks w') = Num (Chunks w)
  /\ ((CompletedChunks w' = CompletedChunks w
       /\ Num (Pending w') = Num (Pending w)
       /\ bIsGenerating w' = bIsGenerating w)
      \/ (CompletedChunks w' = i32 (CompletedChunks w + 1)
          /\ Num (Pending w') = Num (Pending w) - 1
          /\ bIsGenerating w'
             = if Num (Chunks w) <=? i32 (CompletedChunks w + 1)
               then false else bIsGenerating w)).
Proof.
  unfold step_task.
  destruct (Pending w !! i) as [t|] eqn:Ht; simpl; [|discriminate].
  assert (Hdel : Num (delete i (Pending w)) = Num (Pending w) - 1).
  { unfold Num. rewrite length_delete by eauto.
    apply lookup_lt_Some in Ht. lia. }
  destruct t as [n pass|n pass]; simpl.
  - destruct (on_chunk n _ (Chunks w)) as [cs|] eqn:Hcs; simpl; [|discriminate].
    intros [= <-]. simpl. apply on_chunk_length in Hcs.
    split; [unfold Num; by rewrite Hcs|]. left.
    split; [done|]. split; [|done].
    unfold Num in *. rewrite length_app. simpl. lia.
  - destruct (on_chunk n _ (Chunks w)) as [cs|] eqn:Hcs; simpl; [|discriminate].
    apply on_chunk_length in Hcs.
    assert (HN : Num cs = Num (Chunks w)) by (unfold Num; by rewrite Hcs).
    rewrite HN.
    destruct (Num (Chunks w) <=? i32 (CompletedChunks w + 1)) eqn:E;
      intros [= <-]; simpl; (split; [done|]); right; by rewrite ?E.
Qed.

(** X12.  The accounting of one generation pass.  Start from a world whose
    pending tasks and completed chunks add up to the number of chunks (as
    after [OnConstruction] with an empty queue), with at least one task
    pending.  Whatever the order in which the scheduler runs tasks, as long
    as they return: no chunk is added or removed, pending and completed
    still add up to the number of chunks, and, the flag being up at the
    start, it is down exactly when no task is left. *)
Theorem X12_single_pass_completes (schedule : list nat)
    (w w' : AProceduralTerrainWorld F) :
  CompletedChunks w + Num (Pending w) = Num (Chunks w) ->
  0 <= CompletedChunks w ->
  Pending w <> [] ->
  Num (Chunks w) <= INT32_MAX ->
  for_each schedule step_task w = Some w' ->
  Num (Chunks w') = Num (Chunks w)
  /\ CompletedChunks w' + Num (Pending w') = Num (Chunks w)
  /\ (bIsGenerating w = true ->
      (bIsGenerating w' = false <-> Pending w' = [])).
Proof.
  intros Hsum Hpos Hne Hfit Hrun.
  set (N := Num (Chunks w)) in *.
  set (Inv := fun v : AProceduralTerrainWorld F =>
    Num (Chunks v) = N
    /\ CompletedChunks v + Num (Pending v) = N
    /\ 0 <= CompletedChunks v
    /\ (bIsGenerating w = true ->
        (bIsGenerating v = false <-> Pending v = []))).
  assert (Hinv : Inv w').
  { revert Hrun. apply (for_each_inv Inv).
    - split; [done|]. split; [done|]. split; [done|].
      intros Hgen. rewrite Hgen. split; [discriminate|]. intros E. by destruct Hne.
    - intros i v v' _ (HvN & Hvsum & Hvpos & Hvflag) Hstep.
      destruct (step_task_counts i v v' Hstep) as [HN' Hcase].
      assert (Hnil : forall u : AProceduralTerrainWorld F,
                Pending u = [] <-> Num (Pending u) = 0).
      { intros u. unfold Num. destruct (Pending u); simpl; split; try done; lia. }
      assert (Hlen : 0 <= Num (Pending v)) by (unfold Num; lia).
      destruct Hcase as [(Hc & Hp & Hg)|(Hc & Hp & Hg)].
      + split; [lia|]. split; [lia|]. split; [lia|].
        intros Hgen. rewrite Hg, (Hnil v'), Hp, <- (Hnil v). by apply Hvflag.
      + assert (Hstill : 0 < Num (Pending v)).
        { assert (0 <= Num (Pending v')) by (unfold Num; lia). lia. }
        rewrite i32_id in Hc, Hg by (unfold INT32_MIN, INT32_MAX in *; lia).
        split; [lia|]. split; [lia|]. split; [lia|].
        intros Hgen. rewrite Hg, (Hnil v'), Hp.
        destruct (Z.leb_spec (Num (Chunks v)) (CompletedChunks v + 1)).
        * split; [lia|done].
        * specialize (Hvflag Hgen). rewrite (Hnil v) in Hvflag.
          split; [|lia]. intros Hf. apply Hvflag in Hf. lia. }
  destruct Hinv as (H1 & H2 & _ & H4). done.
Qed.

End Facts.
End GridFacts.

(** ** Streaming *)

Module StreamingFacts.
Import Terrain World Props TerrainFacts MeshFacts WorldFacts.
Section Facts.
Context {F : Type} {SF : Scalar F} {TB : MCTables} {NS : Noise F}.

Lemma FIntVector_eqb_eq (a b : FIntVector) :
  FIntVector_eqb a b = true <-> a = b.
Proof.
  destruct a as [x y z], b as [x' y' z']. unfold FIntVector_eqb. simpl.
  rewrite !andb_true_iff, !Z.eqb_eq. split; [intros [[-> ->] ->]|intros [= -> -> ->]]; done.
Qed.

Lemma TSet_Contains_elem (s : list FIntVector) (k : FIntVector) :
  TSet_Contains s k = true <-> k ∈ s.
Proof.
  unfold TSet_Contains. rewrite existsb_exists. split.
  - intros (x & Hin & ->%FIntVector_eqb_eq). by apply list_elem_of_In.
  - intros Hin. exists k. split; [by apply list_elem_of_In|].
    by apply FIntVector_eqb_eq.
Qed.

Lemma elem_of_TSet_Add (x k : FIntVector) (s : list FIntVector) :
  x ∈ TSet_Add k s <-> x = k \/ x ∈ s.
Proof.
  unfold TSet_Add. destruct (TSet_Contains s k) eqn:E.
  - apply TSet_Contains_elem in E. split; [by right|]. by intros [->|].
  - rewrite elem_of_app, list_elem_of_singleton. tauto.
Qed.

Lemma TSet_loop {K} (f : K -> FIntVector) (l : list K) (s : list FIntVector) :
  exists D,
    for_each l (fun p Desired => Some (TSet_Add (f p) Desired)) s = Some D
    /\ forall C, C ∈ D <-> C ∈ s \/ exists p, p ∈ l /\ C = f p.
Proof.
  revert s. induction l as [|p l IH]; intros s; simpl.
  - exists s. split; [done|]. intros C. split; [by left|].
    intros [H|(p & Hp & _)]; [done|]. by apply elem_of_nil in Hp.
  - destruct (IH (TSet_Add (f p) s)) as (D & -> & HD). exists D.
    split; [done|]. intros C. rewrite HD, elem_of_TSet_Add. split.
    + intros [[->|H]|(q & Hq & ->)].
      * right. exists p. split; [left|done].
      * by left.
      * right. exists q. split; [by right|done].
    + intros [H|(q & Hq & ->)]; [left; by right|].
      apply elem_of_cons in Hq as [->|Hq]; [left; by left|].
      right. by exists q.
Qed.

(** The loops that collect the desired set exit when the stream radius is
    below [INT32_MAX], and only then; the set is the square of cells around
    the observer's cell. *)
Lemma DesiredChunks_of_spec (w : AProceduralTerrainWorld F)
    (Coords0 : FIntVector) (D : list FIntVector) :
  DesiredChunks_of w Coords0 = Some D ->
  forall C, C ∈ D <->
    exists dx dy,
      i32 (- StreamRadius w) <= dx <= StreamRadius w
      /\ i32 (- StreamRadius w) <= dy <= StreamRadius w
      /\ C = mkIntVector (i32 (ix Coords0 + dx)) (i32 (iy Coords0 + dy)) 0.
Proof.
  unfold DesiredChunks_of. cbv zeta. intros Hrun.
  pose proof (for_from_to_Some _ _ _ _ _ Hrun) as [HR _].
  rewrite for_from_to_nest2 in Hrun by done.
  destruct (TSet_loop
              (fun p : Z * Z => mkIntVector (i32 (ix Coords0 + p.1))
                                            (i32 (iy Coords0 + p.2)) 0)
              (x ← from_to (i32 (- StreamRadius w)) (StreamRadius w);
               y ← from_to (i32 (- StreamRadius w)) (StreamRadius w); [(x, y)])
              []) as (D0 & HD & Hmem).
  rewrite HD in Hrun. injection Hrun as <-.
  intros C. rewrite Hmem. split.
  - intros [H|((dx & dy) & Hp & ->)]; [by apply elem_of_nil in H|].
    apply list_elem_of_bind in Hp as (x & Hp & Hx).
    apply list_elem_of_bind in Hp as (y & Hp & Hy).
    apply list_elem_of_singleton in Hp. injection Hp as -> ->.
    apply elem_of_from_to in Hx, Hy. by exists x, y.
  - intros (dx & dy & Hx & Hy & ->). right. exists (dx, dy). split; [|done].
    apply list_elem_of_bind. exists dx. split; [|by apply elem_of_from_to].
    apply list_elem_of_bind. exists dy. split; [|by apply elem_of_from_to].
    by apply list_elem_of_singleton.
Qed.

Lemma remove_loop (w : AProceduralTerrainWorld F) (D : list FIntVector)
    (l tail : list (UProceduralTerrain F)) :
  for_each (rev (upto (Num l))) (fun i cs =>
    Chunk ← arr_get cs i;
    if negb (TSet_Contains D (ChunkCoords Chunk))
    then
      if existsb (String.eqb (Name Chunk)) (PersistentChunks w)
      then Some cs
      else Some (delete (Z.to_nat i) cs)
    else Some cs) (l ++ tail)
  = Some (filter (fun c => kept_by w D c = true) l ++ tail).
Proof.
  revert tail. induction l as [|x l IH] using rev_ind; intros tail.
  - reflexivity.
  - assert (HN : Num (l ++ [x]) = Num l + 1).
    { unfold Num. rewrite length_app. simpl. lia. }
    rewrite HN, upto_snoc by (unfold Num; lia).
    rewrite rev_app_distr. simpl.
    assert (Hget : arr_get ((l ++ [x]) ++ tail) (Num l) = Some x).
    { unfold arr_get, Num. rewrite bool_decide_eq_true_2 by lia.
      rewrite Nat2Z.id, <- app_assoc. simpl. by apply list_lookup_middle. }
    rewrite Hget. simpl. rewrite filter_app, filter_cons, filter_nil.
    destruct (TSet_Contains D (ChunkCoords x)) eqn:E1; simpl.
    + rewrite decide_True by (unfold kept_by; by rewrite E1).
      rewrite <- !app_assoc. simpl. apply IH.
    + destruct (existsb _ _) eqn:E2; simpl.
      * rewrite decide_True by (unfold kept_by; by rewrite E1, E2).
        rewrite <- !app_assoc. simpl. apply IH.
      * rewrite decide_False by (unfold kept_by; by rewrite E1, E2).
        unfold Num. rewrite Nat2Z.id, <- app_assoc. simpl.
        rewrite delete_middle, app_nil_r. apply IH.
Qed.

Lemma remove_distant_filter (w : AProceduralTerrainWorld F) (D : list FIntVector) :
  remove_distant w D = Some (filter (fun c => kept_by w D c = true) (Chunks w)).
Proof.
  unfold remove_distant.
  pose proof (remove_loop w D (Chunks w) []) as H.
  by rewrite !app_nil_r in H.
Qed.

Lemma Rebuild_same_component (c c' : UProceduralTerrain F) :
  RebuildMeshFromCurrentDensity c = Some c' -> same_component c c'.
Proof. intros ->%Rebuild_frame. by repeat split. Qed.

Lemma Load_same_component (disk : Disk F) (FileName : string)
    (c c' : UProceduralTerrain F) :
  LoadDensityFromJSON disk FileName c = Some c' -> same_component c c'.
Proof.
  unfold LoadDensityFromJSON.
  destruct (Files disk !! _) as [[|obj]|]; try (intros [= <-]; by repeat split).
  destruct (TryGetArrayField obj "Density") as [arr|];
    [|intros [= <-]; by repeat split].
  destruct (SetNum _ _ _) as [D0|]; simpl; [|discriminate].
  destruct (for_each _ _ D0) as [D1|]; simpl; [|discriminate].
  intros Hr%Rebuild_same_component. exact Hr.
Qed.

Lemma Build_same_component (Size : Z)
    (Scale NoiseScale HeightBias NoiseStrength : F)
    (c c' : UProceduralTerrain F) :
  BuildDensityField Size Scale NoiseScale HeightBias NoiseStrength c = Some c' ->
  same_component c c'.
Proof.
  unfold BuildDensityField.
  destruct (SetNum _ _ _) as [D0|]; simpl; [|discriminate].
  destruct (negb (Num D0 =? Cubed Size)); [discriminate|].
  destruct (negb (0 <? Size)); [discriminate|].
  destruct (for_each _ _ D0) as [D1|]; simpl; [|discriminate].
  intros [= <-]. by repeat split.
Qed.

Lemma same_component_trans (a b c : UProceduralTerrain F) :
  same_component a b -> same_component b c -> same_component a c.
Proof. intros (?&?&?) (?&?&?). repeat split; congruence. Qed.

(** A streamed chunk is the component spawned for its cell. *)
Lemma streamed_chunk_identity (disk : Disk F) (w : AProceduralTerrainWorld F)
    (Coords : FIntVector) (c : UProceduralTerrain F) :
  streamed_chunk disk w Coords = Some c ->
  Name c = ChunkName (ix Coords) (iy Coords) (iz Coords)
  /\ ChunkCoords c = Coords.
Proof.
  unfold streamed_chunk. cbv zeta.
  set (New := spawn_chunk w (ix Coords) (iy Coords) (iz Coords)).
  assert (Hsame : same_component New c ->
                  Name c = ChunkName (ix Coords) (iy Coords) (iz Coords)
                  /\ ChunkCoords c = Coords).
  { intros (Hn & _ & Hc). split; [by rewrite Hn|]. rewrite Hc. by destruct Coords. }
  destruct (FileExists disk _).
  - destruct (LoadDensityFromJSON _ _ _) as [c1|] eqn:E1; simpl; [|discriminate].
    intros E2. apply Hsame.
    eapply same_component_trans;
      [by eapply Load_same_component|by eapply Rebuild_same_component].
  - destruct (BuildDensityField _ _ _ _ _ _) as [c1|] eqn:E1; simpl; [|discriminate].
    intros E2. apply Hsame.
    eapply same_component_trans;
      [by eapply Build_same_component|by eapply Rebuild_same_component].
Qed.

Lemma existsb_coords (cs : list (UProceduralTerrain F)) (Coords : FIntVector) :
  existsb (fun Existing => FIntVector_eqb (ChunkCoords Existing) Coords) cs = true
  <-> Coords ∈ ChunkCoords <$> cs.
Proof.
  rewrite existsb_exists, list_elem_of_fmap. split.
  - intros (c & Hin%list_elem_of_In & Heq%FIntVector_eqb_eq). by exists c.
  - intros (c & -> & Hin). exists c. split; [by apply list_elem_of_In|].
    by apply FIntVector_eqb_eq.
Qed.

(** The creation loop appends one streamed chunk for every desired cell that
    no chunk holds yet, and nothing else. *)
Lemma create_missing_spec (disk : Disk F) (w : AProceduralTerrainWorld F)
    (D : list FIntVector) :
  forall cs cs' : list (UProceduralTerrain F),
  create_missing disk w D cs = Some cs' ->
  exists created,
    cs' = cs ++ created
    /\ Forall (fun c => exists C, C ∈ D /\ streamed_chunk disk w C = Some c
                                  /\ C ∉ ChunkCoords <$> cs) created
    /\ (forall C, C ∈ D -> C ∈ ChunkCoords <$> cs')
    /\ (NoDup (ChunkCoords <$> cs) -> NoDup (ChunkCoords <$> cs')).
Proof.
  unfold create_missing.
  induction D as [|C D IH]; intros cs cs'; simpl.
  - intros [= <-]. exists []. rewrite app_nil_r.
    split; [done|]. split; [constructor|]. split; [|done].
    intros C HC. by apply elem_of_nil in HC.
  - destruct (existsb _ cs) eqn:Hex.
    + simpl. intros Hrun. destruct (IH cs cs' Hrun) as (created & -> & Hall & Hcov & Hnd).
      exists created. split; [done|]. split; [|split; [|done]].
      * eapply Forall_impl; [exact Hall|]. intros c (C' & HC' & Hs & Hfresh).
        exists C'. split; [by right|done].
      * intros C' [->|HC']%elem_of_cons; [|by apply Hcov].
        apply existsb_coords in Hex. rewrite fmap_app, elem_of_app. by left.
    + destruct (streamed_chunk disk w C) as [New|] eqn:Hnew; simpl; [|discriminate].
      intros Hrun.
      destruct (IH (cs ++ [New]) cs' Hrun) as (created & -> & Hall & Hcov & Hnd).
      destruct (streamed_chunk_identity disk w C New Hnew) as [_ Hcoords].
      assert (Hfresh : C ∉ ChunkCoords <$> cs).
      { intros Hin%existsb_coords. congruence. }
      exists (New :: created). rewrite <- app_assoc. simpl.
      split; [done|]. split; [|split].
      * constructor.
        -- exists C. split; [left|done].
        -- eapply Forall_impl; [exact Hall|]. intros c (C' & HC' & Hs & Hf).
           exists C'. split; [by right|]. split; [done|].
           intros Hin. apply Hf. rewrite fmap_app, elem_of_app. by left.
      * intros C' [->|HC']%elem_of_cons.
        -- rewrite fmap_app, elem_of_app. right. simpl. rewrite Hcoords. left.
        -- specialize (Hcov C' HC'). by rewrite <- app_assoc in Hcov.
      * intros Hcs. rewrite <- app_assoc in Hnd. simpl in Hnd. apply Hnd.
        rewrite fmap_app. simpl. rewrite Hcoords.
        apply NoDup_app. split; [done|]. split; [|apply NoDup_singleton].
        intros x Hx ->%list_elem_of_singleton. done.
Qed.

(** [UpdateStreamedChunks], with its three loops named. *)
Lemma UpdateStreamedChunks_unfold (disk : Disk F) (PlayerPos : FVector F)
    (w : AProceduralTerrainWorld F) :
  UpdateStreamedChunks disk (Some PlayerPos) w
  = if moved_away w PlayerPos
    then
      let w1 := with_LastPlayerChunkCenter (PlayerChunkCenter w PlayerPos) w in
      DesiredChunks ← DesiredChunks_of w1 (PlayerChunkCoords w PlayerPos);
      cs ← remove_distant w1 DesiredChunks;
      cs ← create_missing disk w1 DesiredChunks cs;
      Some (with_Chunks cs w1)
    else Some w.
Proof.
  unfold UpdateStreamedChunks, moved_away.
  destruct (Dist _ _ <? _)%F; reflexivity.
Qed.

(** What an update that acts does to the list of chunks. *)
Lemma UpdateStreamedChunks_acts (disk : Disk F) (PlayerPos : FVector F)
    (w w' : AProceduralTerrainWorld F) :
  UpdateStreamedChunks disk (Some PlayerPos) w = Some w' ->
  moved_away w PlayerPos = true ->
  exists D created,
    (forall C, C ∈ D <-> in_stream_range w PlayerPos C)
    /\ w' = with_Chunks
              (filter (fun c => kept_by w D c = true) (Chunks w) ++ created)
              (with_LastPlayerChunkCenter (PlayerChunkCenter w PlayerPos) w)
    /\ Forall (fun c => exists C, C ∈ D /\ streamed_chunk disk w C = Some c
                 /\ C ∉ ChunkCoords
                          <$> filter (fun c => kept_by w D c = true) (Chunks w))
              created
    /\ (forall C, C ∈ D -> C ∈ ChunkCoords <$> Chunks w')
    /\ (NoDup (ChunkCoords <$> Chunks w) -> NoDup (ChunkCoords <$> Chunks w')).
Proof.
  rewrite UpdateStreamedChunks_unfold. intros Hrun Hmoved.
  rewrite Hmoved in Hrun. cbv zeta in Hrun.
  set (w1 := with_LastPlayerChunkCenter (PlayerChunkCenter w PlayerPos) w) in *.
  destruct (DesiredChunks_of w1 (PlayerChunkCoords w PlayerPos)) as [D|] eqn:HD;
    simpl in Hrun; [|discriminate].
  pose proof (DesiredChunks_of_spec w1 (PlayerChunkCoords w PlayerPos) D HD)
    as Hmem.
  rewrite remove_distant_filter in Hrun. simpl in Hrun.
  destruct (create_missing disk w1 D _) as [cs|] eqn:Hcs; simpl in Hrun;
    [|discriminate].
  injection Hrun as <-.
  destruct (create_missing_spec disk w1 D _ _ Hcs)
    as (created & -> & Hall & Hcov & Hnd).
  exists D, created. split; [exact Hmem|]. split; [reflexivity|].
  split; [exact Hall|]. split; [exact Hcov|].
  intros Hw. apply Hnd.
  eapply sublist_NoDup; [exact Hw|]. apply fmap_sublist, sublist_filter.
Qed.

Lemma kept_by_spec (w : AProceduralTerrainWorld F) (PlayerPos : FVector F)
    (D : list FIntVector) (c : UProceduralTerrain F) :
  (forall C, C ∈ D <-> in_stream_range w PlayerPos C) ->
  kept_by w D c = true
  <-> in_stream_range w PlayerPos (ChunkCoords c) \/ Name c ∈ PersistentChunks w.
Proof.
  intros HD. unfold kept_by.
  by rewrite orb_true_iff, TSet_Contains_elem, existsb_eqb_elem, HD.
Qed.




(** An update never evicts a persistent chunk, and leaves it as it is. *)
Lemma UpdateStreamedChunks_persistent (disk : Disk F)
    (Pawn : option (FVector F)) (w w' : AProceduralTerrainWorld F) :
  UpdateStreamedChunks disk Pawn w = Some w' ->
  PersistentChunks w' = PersistentChunks w
  /\ forall c, c ∈ Chunks w -> Name c ∈ PersistentChunks w -> c ∈ Chunks w'.
Proof.
  destruct Pawn as [PlayerPos|]; [|by intros [= <-]].
  intros Hrun. destruct (moved_away w PlayerPos) eqn:Hmoved.
  - destruct (UpdateStreamedChunks_acts disk PlayerPos w w' Hrun Hmoved)
      as (D & created & HD & -> & _). split; [reflexivity|].
    intros c Hc Hp. simpl. apply elem_of_app. left.
    apply list_elem_of_filter. split; [|done].
    apply (kept_by_spec w PlayerPos D c HD). by right.
  - rewrite UpdateStreamedChunks_unfold, Hmoved in Hrun. by injection Hrun as <-.
Qed.

Lemma BeginPlay_load_persistent (disk : Disk F)
    (todo done : list (UProceduralTerrain F)) (w w' : AProceduralTerrainWorld F) :
  BeginPlay_load disk todo done w = Some w' ->
  PersistentChunks w' = PersistentChunks w.
Proof.
  revert done. induction todo as [|Chunk rest IH]; intros done; simpl.
  - by intros [= <-].
  - destruct (FileExists disk _).
    + destruct (LoadDensityFromJSON _ _ _) as [c|]; simpl; [|discriminate].
      apply IH.
    + by intros [= <-].
Qed.

(** X16.  [BeginPlay] makes every chunk of the world persistent, and no
    number of streaming updates after it, wherever the observer goes,
    removes or modifies one of these chunks. *)
Theorem X16_BeginPlay_chunks_stay (disk : Disk F)
    (Pawns : list (option (FVector F))) (w w1 w2 : AProceduralTerrainWorld F) :
  BeginPlay disk w = Some w1 ->
  for_each Pawns (UpdateStreamedChunks disk) w1 = Some w2 ->
  PersistentChunks w1 = Name <$> Chunks w1
  /\ forall c, c ∈ Chunks w1 -> c ∈ Chunks w2.
Proof.
  intros Hbegin Hrun.
  assert (Hp : PersistentChunks w1 = Name <$> Chunks w1).
  { unfold BeginPlay in Hbegin.
    destruct (BeginPlay_load _ _ _ _) as [w0|] eqn:Hload; simpl in Hbegin;
      [|discriminate].
    injection Hbegin as <-. simpl.
    by rewrite (BeginPlay_load_persistent _ _ _ _ _ Hload). }
  split; [exact Hp|].
  assert (Hinv : PersistentChunks w2 = PersistentChunks w1
                 /\ forall c, c ∈ Chunks w1 -> c ∈ Chunks w2).
  { revert Hrun.
    apply (for_each_inv (fun v => PersistentChunks v = PersistentChunks w1
                                  /\ forall c, c ∈ Chunks w1 -> c ∈ Chunks v)).
    - done.
    - intros Pawn v v' _ [Hpv Hcv] Hstep.
      destruct (UpdateStreamedChunks_persistent disk Pawn v v' Hstep)
        as [Hpv' Hstay].
      split; [congruence|]. intros c Hc. apply Hstay; [by apply Hcv|].
      rewrite Hpv, Hp. apply list_elem_of_fmap. by exists c. }
  apply Hinv.
Qed.

(** The streaming tests for the file at one path and loads from another:
    [LoadDensityFromJSON] prepends the saved directory to the path it
    receives, which already starts with it. *)
Lemma streamed_chunk_saved (disk : Disk F) (w : AProceduralTerrainWorld F)
    (Coords : FIntVector) :
  let name := ChunkName (ix Coords) (iy Coords) (iz Coords) in
  FileExists disk (streamed_file disk name) = true ->
  Files disk !! path_join (ProjectSavedDir disk) (streamed_file disk name) = None ->
  streamed_chunk disk w Coords
  = Some (ClearAllMeshSections
            (count_rebuild (spawn_chunk w (ix Coords) (iy Coords) (iz Coords)))).
Proof.
  intros name Hexists Hnone. unfold streamed_chunk. cbv zeta.
  change (Name (spawn_chunk w (ix Coords) (iy Coords) (iz Coords))) with name.
  fold (streamed_file disk name). rewrite Hexists.
  unfold LoadDensityFromJSON. rewrite Hnone. reflexivity.
Qed.

(** X17.  The streaming tests whether the record of a new chunk exists at
    [<saved dir>/TerrainChunks/TerrainChunks_<name>.json] and then hands
    that path to [LoadDensityFromJSON], which prepends the saved directory
    once more.  So when the record exists, and nothing lies at the doubled
    path, the chunk that the update adds holds no samples, has size 0 and
    no mesh: it is neither loaded nor generated. *)
Theorem X17_streamed_chunk_with_file_is_empty (disk : Disk F)
    (Pawn : option (FVector F)) (w w' : AProceduralTerrainWorld F)
    (c : UProceduralTerrain F) :
  UpdateStreamedChunks disk Pawn w = Some w' ->
  c ∈ Chunks w' -> c ∉ Chunks w ->
  FileExists disk (streamed_file disk (Name c)) = true ->
  Files disk !! path_join (ProjectSavedDir disk) (streamed_file disk (Name c))
    = None ->
  Density c = [] /\ CurrentSize c = 0 /\ MeshSection0 c = None.
Proof.
  destruct Pawn as [PlayerPos|]; [|intros [= <-]; done].
  intros Hrun Hin Hnew Hexists Hnone.
  destruct (moved_away w PlayerPos) eqn:Hmoved.
  2:{ rewrite UpdateStreamedChunks_unfold, Hmoved in Hrun.
      injection Hrun as <-. done. }
  destruct (UpdateStreamedChunks_acts disk PlayerPos w w' Hrun Hmoved)
    as (D & created & _ & -> & Hall & _ & _).
  simpl in Hin. apply elem_of_app in Hin as [Hin|Hin].
  { apply list_elem_of_filter in Hin as [_ Hin]. done. }
  destruct (proj1 (Forall_forall _ _) Hall c Hin) as (C & _ & Hs & _).
  destruct (streamed_chunk_identity disk _ C c Hs) as [Hname _].
  rewrite Hname in Hexists, Hnone.
  rewrite (streamed_chunk_saved disk _ C Hexists Hnone) in Hs.
  injection Hs as <-. done.
Qed.

End Facts.
End StreamingFacts.

(** ** Persistence of the world *)

Module SavingFacts.
Import Terrain World Props TerrainFacts MeshFacts WorldFacts NameFacts
       PersistenceFacts.
Section Facts.
Context {F : Type} {SF : Scalar F} {TB : MCTables} {NS : Noise F}
        {FM : FileManager F}.









End Facts.
End SavingFacts.

(** ** Evaluations of the further properties *)

Module FurtherEvaluations.
Import Terrain World Props DigSpec F64 Examples.
Import MeshFacts DigFacts GenerationFacts NameFacts PersistenceFacts GridFacts
       StreamingFacts SavingFacts.
Local Open Scope float_scope.

(** Evaluates the computation at the head of a goal
    [exists x, f = Some x /\ _] and continues with its result. *)
Ltac eval_head := Evaluations.eval_head.

(** Names the world whose chunks the goal speaks about. *)
Ltac name_chunks w' :=
  match goal with |- context [Chunks ?w] => set (w' := w) end.

(** X1, at the field with one solid corner. *)
Lemma X1_witness :
  exists c' m,
    RebuildMeshFromCurrentDensity one_corner = Some c'
    /\ MeshSection0 c' = Some m
    /\ triangle_soup m.
Proof.
  assert (E : exists c' m, RebuildMeshFromCurrentDensity one_corner = Some c'
                           /\ MeshSection0 c' = Some m).
  { vm_compute. do 2 eexists. split; reflexivity. }
  destruct E as (c' & m & E1 & E2). exists c', m.
  split; [exact E1|]. split; [exact E2|].
  exact (X1_Rebuild_triangle_soup one_corner c' m E1 E2).
Defined.

(** X2, at a field that lies above the iso level everywhere. *)
Lemma X2_witness :
  RebuildMeshFromCurrentDensity (chunk2 (vec 0 0 0) 1 (replicate 8 0.5))
  = Some (CreateMeshSection (mkMesh [] [] [])
            (ClearAllMeshSections
               (count_rebuild (chunk2 (vec 0 0 0) 1 (replicate 8 0.5))))).
Proof.
  apply (X2_Rebuild_without_crossing _ false).
  - reflexivity.
  - reflexivity.
  - vm_compute. discriminate.
  - reflexivity.
  - repeat (constructor; [vm_compute; reflexivity|]). constructor.
Defined.

(** X3: a dig centred on the second sample of the two layers; that sample
    is at distance 0 and is changed by the full strength. *)
Lemma X3_witness :
  exists D',
    DigSphere (vec 1 0 0) 1 (-1) two_layers
    = RebuildMeshFromCurrentDensity (with_Density D' two_layers)
    /\ Num D' = 8%Z
    /\ arr_get D' 1 = Some (-1.5).
Proof.
  pose proof (X3_DigSphere_samples (vec 1 0 0) 1 (-1) two_layers) as H.
  assert (H1 : degenerate two_layers = false) by (vm_compute; reflexivity).
  assert (H2 : Num (Density two_layers) = (CurrentSize two_layers ^ 3)%Z)
    by reflexivity.
  assert (H3 : (CurrentSize two_layers ^ 3 <= INT32_MAX)%Z)
    by (vm_compute; discriminate).
  assert (Hx1 : Z.lt (i32 (Z.add (RoundToInt
                                     (vx (LocalVoxelPosition two_layers
                                                             (vec 1 0 0))))
                                  (RadiusVoxels two_layers 1)))
                      INT32_MAX)
    by (vm_compute; reflexivity).
  assert (Hy1 : Z.lt (i32 (Z.add (RoundToInt
                                     (vy (LocalVoxelPosition two_layers
                                                             (vec 1 0 0))))
                                  (RadiusVoxels two_layers 1)))
                      INT32_MAX)
    by (vm_compute; reflexivity).
  assert (Hz1 : Z.lt (i32 (Z.add (RoundToInt
                                     (vz (LocalVoxelPosition two_layers
                                                             (vec 1 0 0))))
                                  (RadiusVoxels two_layers 1)))
                      INT32_MAX)
    by (vm_compute; reflexivity).
  destruct (H H1 H2 H3 Hx1 Hy1 Hz1) as (D' & E & HD & Hcells).
  exists D'. split; [exact E|]. split; [exact HD|].
  assert (Hx : (0 <= 1 < CurrentSize two_layers)%Z)
    by (vm_compute; split; [discriminate|reflexivity]).
  assert (H0 : (0 <= 0 < CurrentSize two_layers)%Z)
    by (vm_compute; split; [discriminate|reflexivity]).
  pose proof (Hcells 1%Z 0%Z 0%Z Hx H0 H0) as Hc. cbv zeta in Hc.
  destruct Hc as (old & Hold & Hnew).
  vm_compute in Hold. injection Hold as <-.
  change (arr_get D' (1 + 0 * CurrentSize two_layers
                      + 0 * CurrentSize two_layers * CurrentSize two_layers))
    with (arr_get D' 1) in Hnew.
  rewrite Hnew. vm_compute. reflexivity.
Defined.

(** X4: the same dig through the world. *)
Lemma X4_witness :
  exists D',
    DigAt_chunk one_chunk_world (vec 1 0 0) 1 (-1) two_layers
    = RebuildMeshFromCurrentDensity (with_Density D' two_layers)
    /\ Num D' = 8%Z
    /\ arr_get D' 1 = Some (-1.5).
Proof.
  pose proof (X4_DigAt_samples one_chunk_world (vec 1 0 0) 1 (-1) two_layers)
    as H.
  assert (H1 : affected one_chunk_world (vec 1 0 0) 1 two_layers = true)
    by (vm_compute; reflexivity).
  assert (H2 : Num (Density two_layers) = (ChunkSize one_chunk_world ^ 3)%Z)
    by reflexivity.
  assert (H3 : (ChunkSize one_chunk_world ^ 3 <= INT32_MAX)%Z)
    by (vm_compute; discriminate).
  assert (Hx1 : Z.lt (i32 (Z.add (RoundToInt
                                     (vx (LocalVoxelPos one_chunk_world
                                                        two_layers
                                                        (vec 1 0 0))))
                                  (CeilToInt
                                     (1 / TerrainScale one_chunk_world))))
                      INT32_MAX)
    by (vm_compute; reflexivity).
  assert (Hy1 : Z.lt (i32 (Z.add (RoundToInt
                                     (vy (LocalVoxelPos one_chunk_world
                                                        two_layers
                                                        (vec 1 0 0))))
                                  (CeilToInt
                                     (1 / TerrainScale one_chunk_world))))
                      INT32_MAX)
    by (vm_compute; reflexivity).
  assert (Hz1 : Z.lt (i32 (Z.add (RoundToInt
                                     (vz (LocalVoxelPos one_chunk_world
                                                        two_layers
                                                        (vec 1 0 0))))
                                  (CeilToInt
                                     (1 / TerrainScale one_chunk_world))))
                      INT32_MAX)
    by (vm_compute; reflexivity).
  destruct (H H1 H2 H3 Hx1 Hy1 Hz1) as (D' & E & HD & Hcells).
  exists D'. split; [exact E|]. split; [exact HD|].
  assert (Hx : (0 <= 1 < ChunkSize one_chunk_world)%Z)
    by (vm_compute; split; [discriminate|reflexivity]).
  assert (H0 : (0 <= 0 < ChunkSize one_chunk_world)%Z)
    by (vm_compute; split; [discriminate|reflexivity]).
  pose proof (Hcells 1%Z 0%Z 0%Z Hx H0 H0) as Hc. cbv zeta in Hc.
  destruct Hc as (old & Hold & Hnew).
  vm_compute in Hold. injection Hold as <-.
  change (arr_get D' (1 + 0 * ChunkSize one_chunk_world
                      + 0 * ChunkSize one_chunk_world
                        * ChunkSize one_chunk_world))
    with (arr_get D' 1) in Hnew.
  rewrite Hnew. vm_compute. reflexivity.
Defined.

(** X5: a terrain of 2 x 2 x 2 samples, without noise; the first sample of
    the upper layer is [1 - 0.5]. *)
Lemma X5_witness :
  exists D,
    CreateProceduralTerrain3D 2 1 0 0.5 0 0 new_terrain
    = RebuildMeshFromCurrentDensity
        (with_Density D (with_params 2 1 0 new_terrain))
    /\ Num D = 8%Z
    /\ arr_get D 4 = Some 0.5.
Proof.
  pose proof (X5_CreateProceduralTerrain3D_cells 2 1 0 0.5 0 0 new_terrain) as H.
  assert (H1 : (0 <= 2)%Z) by (vm_compute; discriminate).
  assert (H2 : (2 ^ 3 <= INT32_MAX)%Z) by (vm_compute; discriminate).
  destruct (H H1 H2) as (D & E & HD & Hcells).
  exists D. split; [exact E|]. split; [exact HD|].
  assert (H0 : (0 <= 0 < 2)%Z) by (vm_compute; split; [discriminate|reflexivity]).
  assert (Hz : (0 <= 1 < 2)%Z) by (vm_compute; split; [discriminate|reflexivity]).
  pose proof (Hcells 0%Z 0%Z 1%Z H0 H0 Hz) as Hc.
  change (arr_get D (0 + 0 * 2 + 1 * 2 * 2)) with (arr_get D 4) in Hc.
  rewrite Hc. vm_compute. reflexivity.
Defined.

(** X6: a height map of 2 x 2 points, 25 apart; the last vertex is the
    point (1, 1). *)
Lemma X6_witness :
  exists m,
    CreateProceduralTerrain (fun _ => vec 0 0 0) 2 2 1 300 25 new_terrain
    = Some (CreateMeshSection m new_terrain)
    /\ Num (Vertices m) = 4%Z
    /\ Num (Triangles m) = 6%Z
    /\ arr_get (Vertices m) 3 = Some (vec 25 25 0).
Proof.
  pose proof (X6_CreateProceduralTerrain_mesh (fun _ => vec 0 0 0) 2 2 1 300 25
                new_terrain) as H.
  assert (H1 : (1 <= 2)%Z) by (vm_compute; discriminate).
  assert (H2 : (2 * 2 <= INT32_MAX)%Z) by (vm_compute; discriminate).
  destruct (H H1 H1 H2) as (m & E & HV & _ & HT & _ & Hat).
  exists m. split; [exact E|]. split; [exact HV|]. split; [exact HT|].
  assert (Hx : (0 <= 1 < 2)%Z) by (vm_compute; split; [discriminate|reflexivity]).
  pose proof (Hat 1%Z 1%Z Hx Hx) as Hc.
  change (arr_get (Vertices m) (1 + 1 * 2)) with (arr_get (Vertices m) 3) in Hc.
  rewrite Hc. vm_compute. reflexivity.
Defined.

(** X7: the two layers, saved and loaded into a new component. *)
Lemma X7_witness :
  LoadDensityFromJSON
    (SaveDensityToJSON no_files "TerrainDensity.json" two_layers)
    "TerrainDensity.json" new_terrain
  = RebuildMeshFromCurrentDensity
      (with_Density [-0.5; -0.5; -0.5; -0.5; 0.5; 0.5; 0.5; 0.5]
                    (with_params 2 1 0 new_terrain)).
Proof.
  pose proof (X7_Save_then_Load no_files "TerrainDensity.json" two_layers
                new_terrain) as H.
  assert (H1 : Density two_layers <> []) by (vm_compute; discriminate).
  assert (H2 : CanSave (path_join (ProjectSavedDir no_files)
                                  "TerrainDensity.json") = true)
    by reflexivity.
  assert (H3 : Serialize (SavedRecord two_layers)
               = JsonText (SavedRecord two_layers)) by reflexivity.
  assert (H4 : TruncToInt (of_int (CurrentSize two_layers))
               = CurrentSize two_layers) by (vm_compute; reflexivity).
  exact (proj1 (H H1 H2 H3 H4)).
Defined.

(** X8: an actor that is placed with the default settings, size 32
    included, after a session that saved the two layers. *)
Lemma X8_witness :
  exists t',
    Actor.BeginPlay (Actor.EndPlay no_files played_actor) placed_actor
    = Some (Actor.with_ProceduralTerrain t' placed_actor)
    /\ (CurrentSize t', Density t')
       = (2%Z, [-0.5; -0.5; -0.5; -0.5; 0.5; 0.5; 0.5; 0.5]).
Proof.
  pose proof (X8_EndPlay_then_BeginPlay no_files played_actor placed_actor
                two_layers new_terrain) as H.
  assert (H1 : Actor.ProceduralTerrain played_actor = Some two_layers)
    by reflexivity.
  assert (H2 : Actor.ProceduralTerrain placed_actor = Some new_terrain)
    by reflexivity.
  assert (H3 : Density two_layers <> []) by (vm_compute; discriminate).
  assert (H4 : CanSave (path_join (ProjectSavedDir no_files)
                                  "TerrainDensity.json") = true)
    by reflexivity.
  assert (H5 : Serialize (SavedRecord two_layers)
               = JsonText (SavedRecord two_layers)) by reflexivity.
  assert (H6 : TruncToInt (of_int (CurrentSize two_layers))
               = CurrentSize two_layers) by (vm_compute; reflexivity).
  destruct (H H1 H2 H3 H4 H5 H6) as (Hbegin & _ & _).
  assert (E : exists t',
            RebuildMeshFromCurrentDensity
              (with_Density (Density two_layers)
                 (with_params (CurrentSize two_layers) (CurrentScale two_layers)
                              (CurrentIsoLevel two_layers) new_terrain))
            = Some t'
            /\ (CurrentSize t', Density t')
               = (2%Z, [-0.5; -0.5; -0.5; -0.5; 0.5; 0.5; 0.5; 0.5])).
  { vm_compute. eexists. split; reflexivity. }
  destruct E as (t' & E & Ht'). exists t'. split; [|exact Ht'].
  rewrite Hbegin, E. reflexivity.
Defined.

(** X9: [ClearMesh] on a disk that holds a saved terrain. *)
Lemma X9_witness :
  Actor.EndPlay (ClearMesh flat_corner_disk two_layers).1
    (Actor.with_ProceduralTerrain (ClearMesh flat_corner_disk two_layers).2
                                  played_actor)
  = Actor.EndPlay flat_corner_disk played_actor.
Proof.
  pose proof (X9_ClearMesh_keeps_samples flat_corner_disk played_actor
                two_layers) as H.
  assert (H1 : Actor.ProceduralTerrain played_actor = Some two_layers)
    by reflexivity.
  assert (H2 : Density two_layers <> []) by (vm_compute; discriminate).
  assert (H3 : CanSave (path_join (ProjectSavedDir flat_corner_disk)
                                  "TerrainDensity.json") = true)
    by reflexivity.
  exact (proj2 (H H1 H2 H3)).
Defined.

(** X10, at the cell (1, -2, 3). *)
Lemma X10_witness :
  path_join "Saved" (ChunkFile (ChunkName 1 (-2) 3))
  = "Saved/TerrainChunks/TerrainChunks_Chunk_1_-2_3.json"
  /\ (1 = 1 /\ -2 = -2 /\ 3 = 3)%Z.
Proof.
  split; [vm_compute; reflexivity|].
  apply (X10_chunk_files_distinct "Saved"). reflexivity.
Defined.

(** X11: the first construction of the small world. *)
Lemma X11_witness :
  exists w',
    OnConstruction no_files small_world = Some w'
    /\ Num (Chunks w') = 1%Z
    /\ bIsGenerating w' = true
    /\ Pending w' = [DensityTask "Chunk_0_0_0" 1].
Proof.
  pose proof (X11_OnConstruction_fresh_grid no_files small_world) as H.
  assert (H1 : bIsGenerating small_world = false) by reflexivity.
  assert (H2 : forall x y z,
            FileExists no_files
              (path_join (ProjectSavedDir no_files)
                         (ChunkFile (ChunkName x y z))) = false).
  { intros x y z. unfold FileExists. apply bool_decide_eq_false_2.
    unfold no_files. simpl. rewrite lookup_empty. by intros [? ?]. }
  destruct (H H1 H2) as (w' & E & Hchunks & Hnum & _ & Hgen & _ & _ & Hpending).
  exists w'. split; [exact E|]. split; [exact Hnum|]. split; [exact Hgen|].
  rewrite Hpending, Hchunks. vm_compute. reflexivity.
Defined.

(** X12: the pass that the first construction of the small world queues,
    run to its end. *)
Lemma X12_witness :
  exists w1,
    OnConstruction no_files small_world = Some w1
    /\ exists w2,
      for_each [0; 0]%nat step_task w1 = Some w2
      /\ Pending w2 = []
      /\ bIsGenerating w2 = false.
Proof.
  eval_head.
  match goal with
  | |- exists w2, for_each _ _ ?w = Some w2 /\ _ => set (w1 := w)
  end.
  eval_head.
  match goal with |- Pending ?w = [] /\ _ => set (w2 := w) end.
  split; [vm_compute; reflexivity|].
  pose proof (X12_single_pass_completes [0; 0]%nat w1 w2) as H.
  assert (H1 : (CompletedChunks w1 + Num (Pending w1) = Num (Chunks w1))%Z)
    by (vm_compute; reflexivity).
  assert (H2 : (0 <= CompletedChunks w1)%Z) by (vm_compute; discriminate).
  assert (H3 : Pending w1 <> []) by (vm_compute; discriminate).
  assert (H4 : (Num (Chunks w1) <= INT32_MAX)%Z) by (vm_compute; discriminate).
  assert (H5 : for_each [0; 0]%nat step_task w1 = Some w2)
    by (vm_compute; reflexivity).
  destruct (H H1 H2 H3 H4 H5) as (_ & _ & Hflag).
  apply Hflag; vm_compute; reflexivity.
Defined.




(** X16: play begins with the two layers in the world, and the observer
    goes to the cell (5, 0). *)
Lemma X16_witness :
  exists w1,
    BeginPlay no_files one_chunk_world = Some w1
    /\ exists w2,
      for_each [Some (vec 5.5 0 0)] (UpdateStreamedChunks no_files) w1 = Some w2
      /\ map Name (Chunks w2) = ["Chunk_0_0_0"; "Chunk_5_0_0"]
      /\ two_layers ∈ Chunks w2.
Proof.
  eval_head.
  match goal with
  | |- exists w2, for_each _ _ ?w = Some w2 /\ _ => set (w1 := w)
  end.
  eval_head. name_chunks w2.
  split; [vm_compute; reflexivity|].
  pose proof (X16_BeginPlay_chunks_stay no_files [Some (vec 5.5 0 0)]
                one_chunk_world w1 w2) as H.
  assert (H1 : BeginPlay no_files one_chunk_world = Some w1)
    by (vm_compute; reflexivity).
  assert (H2 : for_each [Some (vec 5.5 0 0)] (UpdateStreamedChunks no_files) w1
               = Some w2) by (vm_compute; reflexivity).
  destruct (H H1 H2) as [_ Hstay]. apply Hstay. left.
Defined.

(** X17: the observer enters the cell (1, 0) while the record of its chunk
    is on the disk; the chunk that the update adds is empty. *)
Lemma X17_witness :
  exists w',
    UpdateStreamedChunks neighbour_saved (Some (vec 1.875 0 0)) small_world
    = Some w'
    /\ exists c,
      Chunks w' = [c]
      /\ Name c = "Chunk_1_0_0"
      /\ Density c = [] /\ CurrentSize c = 0%Z /\ MeshSection0 c = None.
Proof.
  eval_head. name_chunks w'.
  let r := eval vm_compute in (Chunks w') in
  lazymatch r with [?c0] => exists c0; set (c := c0) end.
  split; [vm_compute; reflexivity|]. split; [vm_compute; reflexivity|].
  pose proof (X17_streamed_chunk_with_file_is_empty neighbour_saved
                (Some (vec 1.875 0 0)) small_world w' c) as H.
  assert (H1 : UpdateStreamedChunks neighbour_saved (Some (vec 1.875 0 0))
                 small_world = Some w') by (vm_compute; reflexivity).
  assert (H2 : c ∈ Chunks w') by left.
  assert (H3 : c ∉ Chunks small_world) by apply not_elem_of_nil.
  assert (H4 : FileExists neighbour_saved
                 (streamed_file neighbour_saved (Name c)) = true)
    by (vm_compute; reflexivity).
  assert (H5 : Files neighbour_saved
                 !! path_join (ProjectSavedDir neighbour_saved)
                              (streamed_file neighbour_saved (Name c)) = None)
    by (vm_compute; reflexivity).
  exact (H H1 H2 H3 H4 H5).
Defined.



End FurtherEvaluations.
